(** * Work Tracker: the time-accounting engine

    A shallow embedding of the hour-tracking code of the work-tracker
    dashboard ([src/lib/tracker-utils.ts], [src/lib/tracker-data.ts],
    [src/lib/tracker-types.ts] and the grouping and calendar helpers of the
    dashboard component), followed by the properties of the engine.

    Modelling conventions.
    - An instant (a valid JavaScript [Date]) is its time value, an integer
      number of milliseconds since the epoch, in [Z]; [Date | null] is
      [option Z].  The Invalid Date value and the clipping of time values to
      +-8.64e15 ms are outside the model, except where the storage layer
      tests for them ([readDate]).
    - The minute counters of an entry handled by the engine are
      integer-valued JavaScript numbers, in [Z]; differences of time values
      and their quotients by 60000 are exact in double precision in the range
      of time values.  The storage-normalization layer, which reads arbitrary
      documents, works on [Js.number], with NaN and the infinities.
    - Local time is UTC plus a fixed offset [LocalTZA] of the host (no
      daylight-saving transitions).  Calendar fields follow the day-number
      algorithms of ECMAScript (Day, DayFromYear, MonthFromTime, MakeDay ...).
    - The Firestore collection of time logs is a finite map from document
      ids to entries; an asynchronous operation is a function from the
      collection to an [outcome]: resolved with the new collection, or
      rejected with a message. *)

From Stdlib Require Import ZArith QArith Qabs Qround Lia List Bool Ascii String.
From Stdlib Require Import DecimalString DecimalZ.
From stdpp Require Import gmap strings.

Set Warnings "-register-all".
Local Open Scope Z_scope.

(* ===================================================================== *)
(** * JavaScript values *)
(* ===================================================================== *)

Module Js.

(** A JavaScript number as far as the storage layer inspects it: the finite
    doubles are rationals. *)
Inductive number : Type :=
  | NaN
  | NegInfinity
  | PosInfinity
  | Finite (q : Q).

Definition Number_isNaN (x : number) : bool :=
  match x with NaN => true | _ => false end.

Definition ofZ (z : Z) : number := Finite (inject_Z z).

Definition Math_floor (x : number) : number :=
  match x with
  | Finite q => ofZ (Qfloor q)
  | other => other
  end.

Definition Math_max (a b : number) : number :=
  match a, b with
  | NaN, _ | _, NaN => NaN
  | PosInfinity, _ | _, PosInfinity => PosInfinity
  | NegInfinity, y => y
  | x, NegInfinity => x
  | Finite p, Finite q => if Qle_bool p q then Finite q else Finite p
  end.

(** ToIntegerOrInfinity on a finite number: truncation towards zero. *)
Definition Qtrunc (q : Q) : Z :=
  if Qle_bool 0 q then Qfloor q else Qceiling q.

(** [new Date(n)] for a number (TimeClip): the time value, unless the
    number is not finite or out of the range of time values (Invalid
    Date). *)
Definition Date_ofNumber (x : number) : option Z :=
  match x with
  | Finite q =>
      if Qle_bool (Qabs q) (inject_Z 8640000000000000)
      then Some (Qtrunc q)
      else None
  | _ => None
  end.

(** The values found in a Firestore document ([DocumentData]), with the two
    kinds of object [readDate] looks for. *)
Inductive value : Type :=
  | VUndefined
  | VNull
  | VBool (b : bool)
  | VNumber (n : number)
  | VString (s : string)
  | VDate (t : option Z)            (* a Date; None is the Invalid Date *)
  | VTimestamp (ms : Z)             (* a Firestore Timestamp *)
  | VTimestampLike (t : option Z)   (* an object with a toDate() method *)
  | VArray (items : list value)
  | VObject (fields : list (string * value)).

(** Property access [data.name]: undefined when the field is absent. *)
Fixpoint field (data : list (string * value)) (name : string) : value :=
  match data with
  | [] => VUndefined
  | (k, v) :: rest => if String.eqb k name then v else field rest name
  end.

(** [`${n}`] for an integer. *)
Definition toString (n : Z) : string :=
  NilEmpty.string_of_int (Z.to_int n).

(** [s.padStart(2, "0")]. *)
Definition padStart2 (s : string) : string :=
  match String.length s with
  | O => "00"
  | S O => "0" +:+ s
  | _ => s
  end.

(** [Math.ceil(a / b)] for integers, [b] positive. *)
Definition ceilDiv (a b : Z) : Z := - ((- a) / b).

(** A JavaScript [Map] with string keys: insertion-ordered; [set] on a key
    already present keeps its position. *)
Section JsMap.
Context {V : Type}.

Fixpoint Map_get (m : list (string * V)) (k : string) : option V :=
  match m with
  | [] => None
  | (k', v) :: rest => if String.eqb k' k then Some v else Map_get rest k
  end.

Definition Map_has (m : list (string * V)) (k : string) : bool :=
  match Map_get m k with Some _ => true | None => false end.

Fixpoint Map_set (m : list (string * V)) (k : string) (v : V)
  : list (string * V) :=
  match m with
  | [] => [(k, v)]
  | (k', v') :: rest =>
      if String.eqb k' k then (k', v) :: rest
      else (k', v') :: Map_set rest k v
  end.
End JsMap.

(** [array.sort((l, r) => key(l) - key(r))]: the sort is stable, so the
    result is the one of insertion sort, where an element goes before the
    later elements of the same key. *)
Section Sort.
Context {A : Type} (key : A -> Z).

Fixpoint insertSorted (x : A) (l : list A) : list A :=
  match l with
  | [] => [x]
  | y :: rest =>
      if key x <=? key y then x :: y :: rest
      else y :: insertSorted x rest
  end.

Definition sortBy (l : list A) : list A :=
  fold_right insertSorted [] l.
End Sort.

End Js.
Import Js.

(** What the host supplies: its time zone, the date parser, the ISO and
    locale formatters and [String.prototype.trim]. *)
Class Host : Type := {
  LocalTZA : Z;
  Date_parse : string -> option Z;
  Date_toISOString : Z -> string;
  Date_weekdayShort : Z -> string;
  String_trim : string -> string
}.

(* ===================================================================== *)
(** * Dates (ECMAScript day and time arithmetic) *)
(* ===================================================================== *)

Module JsDate.

Definition msPerDay : Z := 86400000.

Definition Day (t : Z) : Z := t / msPerDay.
Definition TimeWithinDay (t : Z) : Z := t mod msPerDay.

Definition InLeapYear (y : Z) : bool :=
  if negb (y mod 4 =? 0) then false
  else if negb (y mod 100 =? 0) then true
  else if negb (y mod 400 =? 0) then false
  else true.

Definition DaysInYear (y : Z) : Z := if InLeapYear y then 366 else 365.

Definition DayFromYear (y : Z) : Z :=
  365 * (y - 1970) + (y - 1969) / 4 - (y - 1901) / 100 + (y - 1601) / 400.

(** The year [y] with [DayFromYear y <= d < DayFromYear (y + 1)]: an
    estimate from the mean length of a year, corrected by one. *)
Definition YearFromDay (d : Z) : Z :=
  let y := 1970 + (400 * d) / 146097 in
  if d <? DayFromYear y then y - 1
  else if DayFromYear (y + 1) <=? d then y + 1
  else y.

Definition DayWithinYear (d : Z) : Z := d - DayFromYear (YearFromDay d).

(** Day within the year on which month [m] (0 = January) starts; [m = 12]
    is the start of the next year. *)
Definition monthStart (leap : bool) (m : Z) : Z :=
  let L := if leap then 1 else 0 in
  if m <=? 0 then 0
  else if m =? 1 then 31
  else if m =? 2 then 59 + L
  else if m =? 3 then 90 + L
  else if m =? 4 then 120 + L
  else if m =? 5 then 151 + L
  else if m =? 6 then 181 + L
  else if m =? 7 then 212 + L
  else if m =? 8 then 243 + L
  else if m =? 9 then 273 + L
  else if m =? 10 then 304 + L
  else if m =? 11 then 334 + L
  else 365 + L.

Definition MonthFromDay (d : Z) : Z :=
  let leap := InLeapYear (YearFromDay d) in
  let w := DayWithinYear d in
  if w <? monthStart leap 1 then 0
  else if w <? monthStart leap 2 then 1
  else if w <? monthStart leap 3 then 2
  else if w <? monthStart leap 4 then 3
  else if w <? monthStart leap 5 then 4
  else if w <? monthStart leap 6 then 5
  else if w <? monthStart leap 7 then 6
  else if w <? monthStart leap 8 then 7
  else if w <? monthStart leap 9 then 8
  else if w <? monthStart leap 10 then 9
  else if w <? monthStart leap 11 then 10
  else 11.

Definition DateFromDay (d : Z) : Z :=
  DayWithinYear d
  - monthStart (InLeapYear (YearFromDay d)) (MonthFromDay d) + 1.

Definition YearFromTime (t : Z) : Z := YearFromDay (Day t).
Definition MonthFromTime (t : Z) : Z := MonthFromDay (Day t).
Definition DateFromTime (t : Z) : Z := DateFromDay (Day t).
Definition WeekDay (t : Z) : Z := (Day t + 4) mod 7.

Definition MakeTime (hour min sec ms : Z) : Z :=
  hour * 3600000 + min * 60000 + sec * 1000 + ms.

Definition MakeDay (year month date : Z) : Z :=
  let ym := year + month / 12 in
  let mn := month mod 12 in
  DayFromYear ym + monthStart (InLeapYear ym) mn + date - 1.

Definition MakeDate (day time : Z) : Z := day * msPerDay + time.

Section Local.
Context {host : Host}.

Definition LocalTime (t : Z) : Z := t + LocalTZA.
Definition UTC (t : Z) : Z := t - LocalTZA.

Definition getFullYear (d : Z) : Z := YearFromTime (LocalTime d).
Definition getMonth (d : Z) : Z := MonthFromTime (LocalTime d).
Definition getDate (d : Z) : Z := DateFromTime (LocalTime d).
Definition getDay (d : Z) : Z := WeekDay (LocalTime d).
Definition getTime (d : Z) : Z := d.

(** [new Date(year, month, date, hours, minutes, seconds, ms)]; a year
    from 0 to 99 stands for 1900 + year. *)
Definition newDate (year month date hours minutes seconds ms : Z) : Z :=
  let yr := if (0 <=? year) && (year <=? 99) then 1900 + year else year in
  UTC (MakeDate (MakeDay yr month date) (MakeTime hours minutes seconds ms)).

(** [d.setDate(date)], returning the updated date. *)
Definition setDate (d : Z) (date : Z) : Z :=
  let t := LocalTime d in
  UTC (MakeDate (MakeDay (YearFromTime t) (MonthFromTime t) date)
                (TimeWithinDay t)).

(** [d.setHours(hours, minutes, seconds, ms)], returning the updated date. *)
Definition setHours (d : Z) (hours minutes seconds ms : Z) : Z :=
  let t := LocalTime d in
  UTC (MakeDate (Day t) (MakeTime hours minutes seconds ms)).
End Local.

End JsDate.
Import JsDate.

(* ===================================================================== *)
(** * The data model ([tracker-types.ts]) *)
(* ===================================================================== *)

Module TrackerTypes.

Inductive LogStatus : Type := completed | active | on_break.
Inductive LogSource : Type := timer | manual.

#[global] Instance LogStatus_eq_dec : EqDecision LogStatus.
Proof. solve_decision. Defined.

Record GeoTag : Type := mkGeoTag {
  latitude : number;
  longitude : number;
  accuracy : option number;
  capturedAt : string;
  label : option string
}.

(** The records are parameterised by the carrier [N] of their minute
    counters: [Z] in the engine, [Js.number] where a record is read from an
    arbitrary stored document. *)
Record BreakRecord (N : Type) : Type := mkBreakRecord {
  br_startTime : string;
  br_endTime : string;
  durationMinutes : N
}.
Arguments mkBreakRecord {N}.
Arguments br_startTime {N}.
Arguments br_endTime {N}.
Arguments durationMinutes {N}.

Record TimeLog (N : Type) : Type := mkTimeLog {
  id : string;
  userId : string;
  projectId : option string;
  projectName : string;
  taskName : string;
  startTime : Z;
  endTime : option Z;
  totalMinutes : N;
  breakMinutes : N;
  breaks : list (BreakRecord N);
  note : string;
  status : LogStatus;
  location : option GeoTag;
  breakStartedAt : option Z;
  source : LogSource;
  createdAt : option Z;
  updatedAt : option Z
}.
Arguments mkTimeLog {N}.
Arguments id {N}.
Arguments userId {N}.
Arguments projectId {N}.
Arguments projectName {N}.
Arguments taskName {N}.
Arguments startTime {N}.
Arguments endTime {N}.
Arguments totalMinutes {N}.
Arguments breakMinutes {N}.
Arguments breaks {N}.
Arguments note {N}.
Arguments status {N}.
Arguments location {N}.
Arguments breakStartedAt {N}.
Arguments source {N}.
Arguments createdAt {N}.
Arguments updatedAt {N}.

Record ManualLogInput : Type := mkManualLogInput {
  in_userId : string;
  in_projectId : option string;
  in_projectName : string;
  in_taskName : string;
  in_note : string;
  in_location : option GeoTag;
  in_startTime : Z;
  in_endTime : Z
}.

Record DailyReportPoint : Type := mkDailyReportPoint {
  dayKey : string;
  dayLabel : string;
  minutes : Z;
  hours : Q;
  earnings : Q
}.

End TrackerTypes.
Import TrackerTypes.

(* ===================================================================== *)
(** * Durations and reports ([tracker-utils.ts]) *)
(* ===================================================================== *)

Module TrackerUtils.

Section Utils.
Context {host : Host}.

Definition parseDateAndTime (dateText timeText : string) : option Z :=
  Date_parse (dateText +:+ "T" +:+ timeText +:+ ":00").

Definition toDayKey (date : Z) : string :=
  let year := getFullYear date in
  let month := padStart2 (toString (getMonth date + 1)) in
  let day := padStart2 (toString (getDate date)) in
  toString year +:+ "-" +:+ month +:+ "-" +:+ day.

Definition calculateWorkedMilliseconds (log : TimeLog Z) (now : Z) : Z :=
  let end_ := match endTime log with Some e => e | None => now end in
  let durationMs := Z.max 0 (getTime end_ - getTime (startTime log)) in
  let storedBreakMs := Z.max 0 (breakMinutes log) * 60000 in
  let runningBreakMs :=
    match status log, breakStartedAt log with
    | on_break, Some started => Z.max 0 (getTime now - getTime started)
    | _, _ => 0
    end in
  Z.max 0 (durationMs - storedBreakMs - runningBreakMs).

Definition calculateWorkedMinutes (log : TimeLog Z) (now : Z) : Z :=
  calculateWorkedMilliseconds log now / 60000.

Definition getLogMinutes (log : TimeLog Z) (now : Z) : Z :=
  match endTime log with
  | Some _ => Z.max (totalMinutes log) (calculateWorkedMinutes log now)
  | None => calculateWorkedMinutes log now
  end.

Definition sumLogMinutes (logs : list (TimeLog Z)) (now : Z) : Z :=
  fold_left (fun total log => total + getLogMinutes log now) logs 0.

(** The first loop of [buildLastDaysReport], with [k] iterations left: the
    offset of the next one is [k - 1]. *)
Fixpoint seedDays (now : Z) (k : nat) (minuteByDay : list (string * Z))
  : list (string * Z) :=
  match k with
  | O => minuteByDay
  | S k' =>
      let offset := Z.of_nat k' in
      let date := setDate now (getDate now - offset) in
      seedDays now k' (Map_set minuteByDay (toDayKey date) 0)
  end.

(** One iteration of the second loop. *)
Definition addLogMinutes (now : Z) (minuteByDay : list (string * Z))
  (log : TimeLog Z) : list (string * Z) :=
  let dayKey := toDayKey (startTime log) in
  if negb (Map_has minuteByDay dayKey) then minuteByDay
  else
    let logMinutes := getLogMinutes log now in
    let current := match Map_get minuteByDay dayKey with
                   | Some c => c | None => 0 end in
    Map_set minuteByDay dayKey (current + logMinutes).

Definition reportPoint (hourlyRate : Q) (entry : string * Z)
  : DailyReportPoint :=
  let '(dayKey, minutes) := entry in
  let label := match Date_parse (dayKey +:+ "T00:00:00") with
               | Some date => Date_weekdayShort date
               | None => "Invalid Date"
               end in
  let hours := (inject_Z minutes / 60)%Q in
  {| dayKey := dayKey;
     dayLabel := label;
     minutes := minutes;
     hours := hours;
     earnings := (hours * hourlyRate)%Q |}.

Definition buildLastDaysReport (logs : list (TimeLog Z)) (days : Z)
  (hourlyRate : Q) (now : Z) : list DailyReportPoint :=
  let seeded := seedDays now (Z.to_nat days) [] in
  let minuteByDay := fold_left (addLogMinutes now) logs seeded in
  map (reportPoint hourlyRate) minuteByDay.

End Utils.
End TrackerUtils.
Import TrackerUtils.

(* ===================================================================== *)
(** * Storage ([tracker-data.ts]) *)
(* ===================================================================== *)

Module TrackerData.

(** The [timeLogs] collection. *)
Abbreviation Store := (gmap string (TimeLog Z)).

(** The result of an asynchronous operation. *)
Inductive outcome (A : Type) : Type :=
  | Resolved (a : A)
  | Rejected (message : string).
Arguments Resolved {A}.
Arguments Rejected {A}.

Definition bind {A B : Type} (m : outcome A) (k : A -> outcome B)
  : outcome B :=
  match m with
  | Resolved a => k a
  | Rejected message => Rejected message
  end.

Notation "x <- m ;; k" := (bind m (fun x => k))
  (at level 100, m at next level, right associativity).

(** [db] is null when Firebase is not configured. *)
Definition requireDb (db : option Store) : outcome Store :=
  match db with
  | None =>
      Rejected
        "Firebase is not configured. Add NEXT_PUBLIC_FIREBASE_* values first."
  | Some database => Resolved database
  end.

(** The fields an [updateDoc] of this module may write; [None] is a field
    absent from the update. *)
Record UpdateData : Type := mkUpdateData {
  u_endTime : option (option Z);
  u_totalMinutes : option Z;
  u_breakMinutes : option Z;
  u_breaks : option (list (BreakRecord Z));
  u_breakStartedAt : option (option Z);
  u_status : option LogStatus;
  u_updatedAt : option (option Z)
}.

(** The value of a field after an update. *)
Definition written {A : Type} (old : A) (w : option A) : A :=
  match w with
  | Some v => v
  | None => old
  end.

Definition applyUpdate (u : UpdateData) (doc : TimeLog Z) : TimeLog Z :=
  {| id := id doc;
     userId := userId doc;
     projectId := projectId doc;
     projectName := projectName doc;
     taskName := taskName doc;
     startTime := startTime doc;
     endTime := written (endTime doc) (u_endTime u);
     totalMinutes := written (totalMinutes doc) (u_totalMinutes u);
     breakMinutes := written (breakMinutes doc) (u_breakMinutes u);
     breaks := written (breaks doc) (u_breaks u);
     note := note doc;
     status := written (status doc) (u_status u);
     location := location doc;
     breakStartedAt := written (breakStartedAt doc) (u_breakStartedAt u);
     source := source doc;
     createdAt := createdAt doc;
     updatedAt := written (updatedAt doc) (u_updatedAt u) |}.

(** [updateDoc] writes the given fields of an existing document and fails
    when there is none. *)
Definition updateDoc (database : Store) (docId : string) (u : UpdateData)
  : outcome Store :=
  match database !! docId with
  | Some doc => Resolved (<[docId := applyUpdate u doc]> database)
  | None => Rejected "No document to update"
  end.

(** [addDoc] stores a document under the id the collection generates. *)
Definition addDoc (database : Store) (autoId : string) (doc : TimeLog Z)
  : outcome Store :=
  Resolved (<[autoId := doc]> database).

Section Normalize.
Context {host : Host}.

Definition readString (v : value) (fallback : string) : string :=
  match v with
  | VString s => s
  | _ => fallback
  end.

Definition readNumber (v : value) (fallback : number) : number :=
  match v with
  | VNumber n => if Number_isNaN n then fallback else n
  | _ => fallback
  end.

Definition readDate (v : value) : option Z :=
  match v with
  | VDate t => t
  | VTimestamp ms => Some ms
  | VString s => Date_parse s
  | VNumber n => Date_ofNumber n
  | VTimestampLike t => t
  | _ => None
  end.

Definition normalizeStatus (v : value) : LogStatus :=
  match v with
  | VString s =>
      if String.eqb s "active" then active
      else if String.eqb s "on-break" then on_break
      else completed
  | _ => completed
  end.

Definition normalizeBreak (entry : value) : option (BreakRecord number) :=
  match entry with
  | VObject raw =>
      match field raw "startTime", field raw "endTime" with
      | VString s, VString e =>
          Some {| br_startTime := s;
                  br_endTime := e;
                  durationMinutes :=
                    Math_max (ofZ 0)
                      (Math_floor
                         (readNumber (field raw "durationMinutes") (ofZ 0))) |}
      | _, _ => None
      end
  | _ => None
  end.

Definition normalizeBreaks (v : value) : list (BreakRecord number) :=
  match v with
  | VArray items =>
      flat_map (fun entry => match normalizeBreak entry with
                             | Some b => [b] | None => [] end) items
  | _ => []
  end.

Definition normalizeLocation (v : value) (clock : Z) : option GeoTag :=
  match v with
  | VObject raw =>
      match field raw "latitude", field raw "longitude" with
      | VNumber lat, VNumber lng =>
          Some {| latitude := lat;
                  longitude := lng;
                  accuracy := match field raw "accuracy" with
                              | VNumber a =>
                                  if Number_isNaN a then None else Some a
                              | _ => None
                              end;
                  capturedAt := match field raw "capturedAt" with
                                | VString s => s
                                | _ => Date_toISOString clock
                                end;
                  label := match field raw "label" with
                           | VString s => Some s
                           | _ => None
                           end |}
      | _, _ => None
      end
  | _ => None
  end.

(** [clock] is the current instant, [new Date()]. *)
Definition normalizeTimeLog (docId : string) (data : list (string * value))
  (clock : Z) : TimeLog number :=
  let startTime :=
    match readDate (field data "startTime") with
    | Some d => d
    | None => match readDate (field data "createdAt") with
              | Some d => d
              | None => clock
              end
    end in
  let endTime := readDate (field data "endTime") in
  {| id := docId;
     userId := readString (field data "userId") "";
     projectId := match field data "projectId" with
                  | VString s => Some s
                  | _ => None
                  end;
     projectName := readString (field data "projectName") "General";
     taskName := readString (field data "taskName") "";
     startTime := startTime;
     endTime := endTime;
     totalMinutes :=
       Math_max (ofZ 0)
         (Math_floor (readNumber (field data "totalMinutes") (ofZ 0)));
     breakMinutes :=
       Math_max (ofZ 0)
         (Math_floor (readNumber (field data "breakMinutes") (ofZ 0)));
     breaks := normalizeBreaks (field data "breaks");
     note := readString (field data "note") "";
     status := normalizeStatus (field data "status");
     location := normalizeLocation (field data "location") clock;
     breakStartedAt := readDate (field data "breakStartedAt");
     source := match field data "source" with
               | VString s => if String.eqb s "manual" then manual else timer
               | _ => timer
               end;
     createdAt := readDate (field data "createdAt");
     updatedAt := readDate (field data "updatedAt") |}.

End Normalize.

Section Transitions.
Context {host : Host}.

(** [serverNow] is the value [serverTimestamp()] resolves to, [autoId] the
    id generated for the new document. *)
Definition addManualLog (db : option Store) (serverNow : Z) (autoId : string)
  (input : ManualLogInput) : outcome Store :=
  database <- requireDb db ;;
  let durationMinutes :=
    Z.max 0 ((getTime (in_endTime input) - getTime (in_startTime input))
             / 60000) in
  addDoc database autoId
    {| id := autoId;
       userId := in_userId input;
       projectId := in_projectId input;
       projectName := in_projectName input;
       taskName := String_trim (in_taskName input);
       startTime := in_startTime input;
       endTime := Some (in_endTime input);
       totalMinutes := durationMinutes;
       breakMinutes := 0;
       breaks := [];
       note := String_trim (in_note input);
       status := completed;
       location := in_location input;
       breakStartedAt := None;
       source := manual;
       createdAt := Some serverNow;
       updatedAt := Some serverNow |}.

Definition startBreak (db : option Store) (serverNow : Z) (logId : string)
  (breakStartedAt : Z) : outcome Store :=
  database <- requireDb db ;;
  updateDoc database logId
    {| u_endTime := None;
       u_totalMinutes := None;
       u_breakMinutes := None;
       u_breaks := None;
       u_breakStartedAt := Some (Some breakStartedAt);
       u_status := Some on_break;
       u_updatedAt := Some (Some serverNow) |}.

Definition endBreak (db : option Store) (serverNow : Z) (log : TimeLog Z)
  (breakEndedAt : Z) : outcome Store :=
  match breakStartedAt log with
  | None => Rejected "Break start time is missing."
  | Some started =>
      database <- requireDb db ;;
      let breakDurationMinutes :=
        Z.max 0 ((getTime breakEndedAt - getTime started) / 60000) in
      let nextBreakMinutes := breakMinutes log + breakDurationMinutes in
      let nextBreaks :=
        breaks log ++
        [ {| br_startTime := Date_toISOString started;
             br_endTime := Date_toISOString breakEndedAt;
             durationMinutes := breakDurationMinutes |} ] in
      updateDoc database (id log)
        {| u_endTime := None;
           u_totalMinutes := None;
           u_breakMinutes := Some nextBreakMinutes;
           u_breaks := Some nextBreaks;
           u_breakStartedAt := Some None;
           u_status := Some active;
           u_updatedAt := Some (Some serverNow) |}
  end.

Definition clockOut (db : option Store) (serverNow : Z) (log : TimeLog Z)
  (clockOutAt : Z) : outcome Store :=
  database <- requireDb db ;;
  let nextBreakMinutes0 := Z.max 0 (breakMinutes log) in
  let nextBreaks0 := breaks log in
  let '(nextBreakMinutes, nextBreaks) :=
    match status log, breakStartedAt log with
    | on_break, Some started =>
        let inProgressBreakMinutes :=
          Z.max 0 ((getTime clockOutAt - getTime started) / 60000) in
        (nextBreakMinutes0 + inProgressBreakMinutes,
         nextBreaks0 ++
         [ {| br_startTime := Date_toISOString started;
              br_endTime := Date_toISOString clockOutAt;
              durationMinutes := inProgressBreakMinutes |} ])
    | _, _ => (nextBreakMinutes0, nextBreaks0)
    end in
  let grossMinutes :=
    Z.max 0 ((getTime clockOutAt - getTime (startTime log)) / 60000) in
  let totalMinutes := Z.max 0 (grossMinutes - nextBreakMinutes) in
  updateDoc database (id log)
    {| u_endTime := Some (Some clockOutAt);
       u_totalMinutes := Some totalMinutes;
       u_breakMinutes := Some nextBreakMinutes;
       u_breaks := Some nextBreaks;
       u_breakStartedAt := Some None;
       u_status := Some completed;
       u_updatedAt := Some (Some serverNow) |}.

End Transitions.
End TrackerData.
Import TrackerData.

(* ===================================================================== *)
(** * The dashboard component: grouping, calendar grid and handlers *)
(* ===================================================================== *)

Module WorkTrackerApp.

Record CalendarCell : Type := mkCalendarCell {
  cell_key : string;
  cell_date : option Z
}.

Record WorkWeekGroup : Type := mkWorkWeekGroup {
  week_key : string;
  week_startDate : Z;
  week_endDate : Z;
  week_logs : list (TimeLog Z);
  week_totalMinutes : Z
}.

Definition isDigit (c : ascii) : bool :=
  ((48 <=? nat_of_ascii c) && (nat_of_ascii c <=? 57))%nat.

Definition digitValue (c : ascii) : Z := Z.of_nat (nat_of_ascii c - 48).

(** The pattern [/^(\d{4})-(\d{2})$/] and the two [parseInt]s. *)
Definition parseMonthInputValue (value : string) : option (Z * Z) :=
  match value with
  | String y1 (String y2 (String y3 (String y4
      (String dash (String m1 (String m2 EmptyString)))))) =>
      if isDigit y1 && isDigit y2 && isDigit y3 && isDigit y4
         && Ascii.eqb dash "-" && isDigit m1 && isDigit m2
      then
        let year := 1000 * digitValue y1 + 100 * digitValue y2
                    + 10 * digitValue y3 + digitValue y4 in
        let month := 10 * digitValue m1 + digitValue m2 in
        if (month <? 1) || (12 <? month) then None
        else Some (year, month - 1)
      else None
  | _ => None
  end.

Section Dashboard.
Context {host : Host}.

Definition getWorkWeekStartMonday (date : Z) : Z :=
  let mondayStart := setHours date 0 0 0 0 in
  let mondayStart :=
    if getDay mondayStart =? 0
    then setDate mondayStart (getDate mondayStart - 1)
    else mondayStart in
  let mondayIndex := (getDay mondayStart + 6) mod 7 in
  setDate mondayStart (getDate mondayStart - mondayIndex).

Definition getWorkWeekEndSaturday (startDate : Z) : Z :=
  let saturdayEnd := setDate startDate (getDate startDate + 5) in
  setHours saturdayEnd 23 59 59 999.

(** One iteration of the loop of [groupLogsByWorkWeek]: the group found or
    created under the week key receives the log. *)
Definition addToWeek (now : Z) (groups : list (string * WorkWeekGroup))
  (log : TimeLog Z) : list (string * WorkWeekGroup) :=
  let weekStart := getWorkWeekStartMonday (startTime log) in
  let weekKey := toDayKey weekStart in
  let group :=
    match Map_get groups weekKey with
    | Some g => g
    | None => {| week_key := weekKey;
                 week_startDate := weekStart;
                 week_endDate := getWorkWeekEndSaturday weekStart;
                 week_logs := [];
                 week_totalMinutes := 0 |}
    end in
  Map_set groups weekKey
    {| week_key := week_key group;
       week_startDate := week_startDate group;
       week_endDate := week_endDate group;
       week_logs := week_logs group ++ [log];
       week_totalMinutes := week_totalMinutes group + getLogMinutes log now |}.

Definition groupLogsByWorkWeek (logs : list (TimeLog Z)) (now : Z)
  : list WorkWeekGroup :=
  let sortedLogs := sortBy (fun log => getTime (startTime log)) logs in
  let groups := fold_left (addToWeek now) sortedLogs [] in
  sortBy (fun group => getTime (week_startDate group)) (map snd groups).

(** The body of the loop of [buildCalendarCells]. *)
Definition calendarCell (monthValue : string) (year monthIndex : Z)
  (firstWeekdayMondayIndex daysInMonth : Z) (index : Z) : CalendarCell :=
  let day := index - firstWeekdayMondayIndex + 1 in
  if (day <? 1) || (daysInMonth <? day)
  then {| cell_key := "empty-" +:+ toString index; cell_date := None |}
  else {| cell_key := monthValue +:+ "-" +:+ toString day;
          cell_date := Some (newDate year monthIndex day 0 0 0 0) |}.

(** [fallback] is the current instant, [new Date()]. *)
Definition buildCalendarCells (monthValue : string) (fallback : Z)
  : list CalendarCell :=
  let parsed := parseMonthInputValue monthValue in
  let year := match parsed with
              | Some (y, _) => y
              | None => getFullYear fallback
              end in
  let monthIndex := match parsed with
                    | Some (_, m) => m
                    | None => getMonth fallback
                    end in
  let firstOfMonth := newDate year monthIndex 1 0 0 0 0 in
  let firstWeekdayMondayIndex := (getDay firstOfMonth + 6) mod 7 in
  let daysInMonth := getDate (newDate year (monthIndex + 1) 0 0 0 0 0) in
  let totalCells := ceilDiv (firstWeekdayMondayIndex + daysInMonth) 7 * 7 in
  map (fun index =>
         calendarCell monthValue year monthIndex
           firstWeekdayMondayIndex daysInMonth (Z.of_nat index))
      (seq 0 (Z.to_nat totalCells)).

(** What a handler leaves behind: the error shown and the collection. *)
Record Ui : Type := mkUi {
  ui_error : option string;
  ui_db : option Store
}.

Definition settle (ui : Ui) (result : outcome Store) : Ui :=
  match result with
  | Resolved database => {| ui_error := None; ui_db := Some database |}
  | Rejected message => {| ui_error := Some message; ui_db := ui_db ui |}
  end.

(** [activeLog] is the entry without an end time, if any; [clock] is
    [new Date()]. *)
Definition handleBreakToggle (ui : Ui) (activeLog : option (TimeLog Z))
  (serverNow clock : Z) : Ui :=
  match activeLog with
  | None => ui
  | Some log =>
      if decide (status log = on_break)
      then settle ui (endBreak (ui_db ui) serverNow log clock)
      else settle ui (startBreak (ui_db ui) serverNow (id log) clock)
  end.

Definition handleManualSubmit (ui : Ui) (currentUser : option string)
  (projects : list (string * string))
  (manualDate manualStartTime manualEndTime : string)
  (manualProjectId manualTaskName manualNote : string)
  (serverNow : Z) (autoId : string) : Ui :=
  match currentUser with
  | None => ui
  | Some uid =>
      match parseDateAndTime manualDate manualStartTime,
            parseDateAndTime manualDate manualEndTime with
      | Some startTime, Some endTime =>
          if endTime <=? startTime
          then {| ui_error :=
                    Some "Manual log needs a valid date and an end time after start time.";
                  ui_db := ui_db ui |}
          else
            let selectedProject :=
              find (fun project => String.eqb (fst project) manualProjectId)
                   projects in
            settle ui
              (addManualLog (ui_db ui) serverNow autoId
                 {| in_userId := uid;
                    in_projectId := option_map fst selectedProject;
                    in_projectName := match selectedProject with
                                      | Some project => snd project
                                      | None => "General"
                                      end;
                    in_taskName := manualTaskName;
                    in_note := manualNote;
                    in_location := None;
                    in_startTime := startTime;
                    in_endTime := endTime |})
      | _, _ =>
          {| ui_error :=
               Some "Manual log needs a valid date and an end time after start time.";
             ui_db := ui_db ui |}
      end
  end.

End Dashboard.
End WorkTrackerApp.
Import WorkTrackerApp.

(* ===================================================================== *)
(** * Vocabulary of the properties *)
(* ===================================================================== *)

Module Spec.

(** A number that is a non-negative whole integer. *)
Definition isWholeNonNegative (x : number) : Prop :=
  exists z : Z, 0 <= z /\ x = ofZ z.

Definition sumZ (l : list Z) : Z := fold_right Z.add 0 l.

(** The key of a day given by its number: what [toDayKey] prints for any
    instant of that local day. *)
Definition dayKeyOfDay (d : Z) : string :=
  toString (YearFromDay d) +:+ "-"
  +:+ padStart2 (toString (MonthFromDay d + 1)) +:+ "-"
  +:+ padStart2 (toString (DateFromDay d)).

Section Local.
Context {host : Host}.

(** The local calendar day of an instant, as a day number. *)
Definition localDay (t : Z) : Z := Day (LocalTime t).

(** The local time of day of an instant, in milliseconds. *)
Definition localTimeOfDay (t : Z) : Z := TimeWithinDay (LocalTime t).

(** The entry starts on one of the [n] local days that end with the day of
    [now]. *)
Definition startsInWindow (now n : Z) (log : TimeLog Z) : bool :=
  (localDay now - (n - 1) <=? localDay (startTime log))
  && (localDay (startTime log) <=? localDay now).

End Local.

Section Weeks.
Context {host : Host}.

(** A week group is well formed: keyed by its start, which is a local
    midnight, ending on its Saturday, and holding entries of its week. *)
Definition weekGroupOk (g : WorkWeekGroup) : Prop :=
  week_key g = toDayKey (week_startDate g)
  /\ localTimeOfDay (week_startDate g) = 0
  /\ week_endDate g = getWorkWeekEndSaturday (week_startDate g)
  /\ forall l, In l (week_logs g) ->
       getWorkWeekStartMonday (startTime l) = week_startDate g.

Definition weekGroupsOk (gs : list (string * WorkWeekGroup)) : Prop :=
  List.NoDup (map fst gs)
  /\ forall k g, In (k, g) gs -> k = week_key g /\ weekGroupOk g.

End Weeks.

(** The year a [Date] constructor takes a year argument for. *)
Definition fullYear (year : Z) : Z :=
  if (0 <=? year) && (year <=? 99) then 1900 + year else year.

(** The break in progress, if the entry is on break and its start was
    recorded. *)
Definition runningBreak (log : TimeLog Z) : option Z :=
  match status log, breakStartedAt log with
  | on_break, Some started => Some started
  | _, _ => None
  end.

(** The end of the entry, or [now] while it is running. *)
Definition endOr (now : Z) (log : TimeLog Z) : Z :=
  match endTime log with Some e => e | None => now end.

(** Whole minutes of a break from [started] to [ended]. *)
Definition breakDuration (started ended : Z) : Z :=
  Z.max 0 ((ended - started) / 60000).

(** [h] o'clock, [m] minutes, on the day of number [day], in UTC. *)
Definition at_ (day h m : Z) : Z := day * msPerDay + MakeTime h m 0 0.

(** ** A host for the examples: UTC, fixed-format parser and printer *)

Definition digitsValue (s : string) : option Z :=
  if forallb isDigit (list_ascii_of_string s)
  then Some (fold_left (fun acc c => 10 * acc + digitValue c)
               (list_ascii_of_string s) 0)
  else None.

(** Reads [YYYY-MM-DDTHH:mm:ss] as a UTC instant. *)
Definition parseIsoLocal (s : string) : option Z :=
  if (String.length s =? 19)%nat
     && String.eqb (substring 4 1 s) "-" && String.eqb (substring 7 1 s) "-"
     && String.eqb (substring 10 1 s) "T" && String.eqb (substring 13 1 s) ":"
     && String.eqb (substring 16 1 s) ":"
  then
    match digitsValue (substring 0 4 s), digitsValue (substring 5 2 s),
          digitsValue (substring 8 2 s), digitsValue (substring 11 2 s),
          digitsValue (substring 14 2 s), digitsValue (substring 17 2 s) with
    | Some y, Some mo, Some d, Some h, Some mi, Some sec =>
        if (1 <=? mo) && (mo <=? 12) && (1 <=? d) && (d <=? 31)
           && (h <=? 23) && (mi <=? 59) && (sec <=? 59)
        then Some (MakeDate (MakeDay y (mo - 1) d) (MakeTime h mi sec 0))
        else None
    | _, _, _, _, _, _ => None
    end
  else None.

Definition printIso (t : Z) : string :=
  let w := TimeWithinDay t in
  dayKeyOfDay (Day t) +:+ "T"
  +:+ padStart2 (toString (w / 3600000)) +:+ ":"
  +:+ padStart2 (toString (w / 60000 mod 60)) +:+ ":"
  +:+ padStart2 (toString (w / 1000 mod 60)) +:+ "."
  +:+ (if w mod 1000 <? 10 then "00" else if w mod 1000 <? 100 then "0" else "")
  +:+ toString (w mod 1000) +:+ "Z".

Definition weekdayName (t : Z) : string :=
  nth (Z.to_nat (WeekDay t))
    ["Sun"; "Mon"; "Tue"; "Wed"; "Thu"; "Fri"; "Sat"] "".

Fixpoint trimStart (s : string) : string :=
  match s with
  | String c rest => if Ascii.eqb c " " then trimStart rest else s
  | EmptyString => EmptyString
  end.

Definition utcHost : Host :=
  {| LocalTZA := 0;
     Date_parse := parseIsoLocal;
     Date_toISOString := printIso;
     Date_weekdayShort := weekdayName;
     String_trim := fun s => String.rev (trimStart (String.rev (trimStart s)))
  |}.

(** An entry of the examples: a timer entry of user [u1] that started at
    [start], with the given end, counters, status and running break. *)
Definition entry (start : Z) (ended : option Z) (total pauses : Z)
  (recorded : list (BreakRecord Z)) (st : LogStatus) (started : option Z)
  : TimeLog Z :=
  {| id := "log-1"; userId := "u1"; projectId := None;
     projectName := "General"; taskName := "work";
     startTime := start; endTime := ended;
     totalMinutes := total; breakMinutes := pauses; breaks := recorded;
     note := ""; status := st; location := None;
     breakStartedAt := started; source := timer;
     createdAt := Some start; updatedAt := Some start |}.

(** ** From stored entries to the entries of the engine *)

(** The integer a number is, when it is a finite whole number. *)
Definition wholeNumber (x : number) : option Z :=
  match x with
  | Finite q =>
      if Qeq_bool q (inject_Z (Qfloor q)) then Some (Qfloor q) else None
  | _ => None
  end.

Definition engineBreak (b : BreakRecord number) : option (BreakRecord Z) :=
  match wholeNumber (durationMinutes b) with
  | Some d => Some {| br_startTime := br_startTime b;
                      br_endTime := br_endTime b;
                      durationMinutes := d |}
  | None => None
  end.

Fixpoint engineBreaks (l : list (BreakRecord number))
  : option (list (BreakRecord Z)) :=
  match l with
  | [] => Some []
  | b :: rest =>
      match engineBreak b, engineBreaks rest with
      | Some b', Some rest' => Some (b' :: rest')
      | _, _ => None
      end
  end.

(** The entry the engine computes with, for a normalized entry whose
    counters are finite. *)
Definition engineEntry (e : TimeLog number) : option (TimeLog Z) :=
  match wholeNumber (totalMinutes e), wholeNumber (breakMinutes e),
        engineBreaks (breaks e) with
  | Some total, Some pauses, Some recorded =>
      Some {| id := id e; userId := userId e; projectId := projectId e;
              projectName := projectName e; taskName := taskName e;
              startTime := startTime e; endTime := endTime e;
              totalMinutes := total; breakMinutes := pauses;
              breaks := recorded; note := note e; status := status e;
              location := location e; breakStartedAt := breakStartedAt e;
              source := source e; createdAt := createdAt e;
              updatedAt := updatedAt e |}
  | _, _, _ => None
  end.

(** The entry with its update stamp set. *)
Definition stamped (t : Z) (e : TimeLog Z) : TimeLog Z :=
  {| id := id e; userId := userId e; projectId := projectId e;
     projectName := projectName e; taskName := taskName e;
     startTime := startTime e; endTime := endTime e;
     totalMinutes := totalMinutes e; breakMinutes := breakMinutes e;
     breaks := breaks e; note := note e; status := status e;
     location := location e; breakStartedAt := breakStartedAt e;
     source := source e; createdAt := createdAt e; updatedAt := Some t |}.

(** Monday 2024-03-04 and Sunday 2024-03-10, as day numbers. *)
Definition monday0 : Z := 19786.
Definition sunday0 : Z := 19792.

(** A running entry that is on break without a recorded break start. *)
Definition faulty : TimeLog Z :=
  entry (at_ monday0 9 0) None 0 0 [] on_break None.

(** A running entry, at work since 09:00. *)
Definition running : TimeLog Z :=
  entry (at_ monday0 9 0) None 0 0 [] active None.

(** A running entry, on break since 12:00. *)
Definition onBreak : TimeLog Z :=
  entry (at_ monday0 9 0) None 0 0 [] on_break (Some (at_ monday0 12 0)).

(** A completed entry, from 09:00 to 17:00. *)
Definition finished : TimeLog Z :=
  entry (at_ monday0 9 0) (Some (at_ monday0 17 0)) 480 0 [] completed None.

(** The completed entry after a start-break at 18:00. *)
Definition paused : TimeLog Z :=
  stamped (at_ monday0 18 0)
    (entry (at_ monday0 9 0) (Some (at_ monday0 17 0)) 480 0 [] on_break
       (Some (at_ monday0 18 0))).

(** A completed entry of two hours on the Sunday. *)
Definition sundayShift : TimeLog Z :=
  entry (at_ sunday0 10 0) (Some (at_ sunday0 12 0)) 120 0 [] completed None.

End Spec.
Import Spec.

From Stdlib Require Import Sorted.

(* ===================================================================== *)
(** * The rest of the data model, of the utilities and of the storage *)
(* ===================================================================== *)

Module MoreTypes.

Inductive SupportedCurrency : Type := USD | EUR | GBP | CAD.

Definition SUPPORTED_CURRENCIES : list SupportedCurrency :=
  [USD; EUR; GBP; CAD].

(** The string a currency is in JavaScript. *)
Definition currencyCode (c : SupportedCurrency) : string :=
  match c with
  | USD => "USD"
  | EUR => "EUR"
  | GBP => "GBP"
  | CAD => "CAD"
  end.

Record UserSettings : Type := mkUserSettings {
  currency : SupportedCurrency;
  darkMode : bool;
  idleMinutes : number
}.

Record UserProfile : Type := mkUserProfile {
  uid : string;
  email : string;
  displayName : string;
  hourlyRate : number;
  settings : UserSettings
}.

Definition DEFAULT_USER_SETTINGS : UserSettings :=
  {| currency := USD; darkMode := false; idleMinutes := ofZ 10 |}.

Record StartTimerInput : Type := mkStartTimerInput {
  st_userId : string;
  st_projectId : option string;
  st_projectName : string;
  st_taskName : string;
  st_note : string;
  st_location : option GeoTag;
  st_startTime : Z
}.

(** Modelled from the spec: the declaration of [UpdateTimeLogInput] is not in
    [tracker-types.ts]; these are the fields [updateTimeLog] reads, the ones
    of the edit operation (project, task, note, new start, new end). *)
Record UpdateTimeLogInput : Type := mkUpdateTimeLogInput {
  up_projectId : option string;
  up_projectName : string;
  up_taskName : string;
  up_note : string;
  up_startTime : Z;
  up_endTime : Z
}.

End MoreTypes.
Import MoreTypes.

Module MoreUtils.

(** [array.join(separator)] for strings. *)
Fixpoint join (separator : string) (parts : list string) : string :=
  match parts with
  | [] => ""
  | [part] => part
  | part :: rest => part +:+ separator +:+ join separator rest
  end.

Definition formatClock (ms : Z) : string :=
  let totalSeconds := Z.max 0 (ms / 1000) in
  let hours := totalSeconds / 3600 in
  let minutes := (totalSeconds mod 3600) / 60 in
  let seconds := totalSeconds mod 60 in
  join ":" (map (fun value => padStart2 (toString value))
              [hours; minutes; seconds]).

Definition formatDuration (minutes : Z) : string :=
  let wholeMinutes := Z.max 0 minutes in
  let hours := wholeMinutes / 60 in
  let remainder := wholeMinutes mod 60 in
  toString hours +:+ "h " +:+ toString remainder +:+ "m".

End MoreUtils.
Import MoreUtils.

Module MoreData.

(** The fields [updateTimeLog] writes. *)
Record EditData : Type := mkEditData {
  e_projectId : option string;
  e_projectName : string;
  e_taskName : string;
  e_note : string;
  e_startTime : Z;
  e_endTime : option Z;
  e_totalMinutes : Z;
  e_status : LogStatus;
  e_breakStartedAt : option Z;
  e_updatedAt : option Z
}.

Definition applyEdit (u : EditData) (doc : TimeLog Z) : TimeLog Z :=
  {| id := id doc;
     userId := userId doc;
     projectId := e_projectId u;
     projectName := e_projectName u;
     taskName := e_taskName u;
     startTime := e_startTime u;
     endTime := e_endTime u;
     totalMinutes := e_totalMinutes u;
     breakMinutes := breakMinutes doc;
     breaks := breaks doc;
     note := e_note u;
     status := e_status u;
     location := location doc;
     breakStartedAt := e_breakStartedAt u;
     source := source doc;
     createdAt := createdAt doc;
     updatedAt := e_updatedAt u |}.

(** [updateDoc] with the fields of an edit. *)
Definition updateDocEdit (database : Store) (docId : string) (u : EditData)
  : outcome Store :=
  match database !! docId with
  | Some doc => Resolved (<[docId := applyEdit u doc]> database)
  | None => Rejected "No document to update"
  end.

(** [deleteDoc]: deleting a document that does not exist succeeds. *)
Definition deleteDoc (database : Store) (docId : string) : outcome Store :=
  Resolved (delete docId database).

(** The [users] collection: a document is the list of its fields. *)
Abbreviation Users := (gmap string (list (string * value))).

Section Storage.
Context {host : Host}.

Definition normalizeCurrency (v : value) : SupportedCurrency :=
  match v with
  | VString s =>
      match find (fun c => String.eqb (currencyCode c) s)
                 SUPPORTED_CURRENCIES with
      | Some c => c
      | None => currency DEFAULT_USER_SETTINGS
      end
  | _ => currency DEFAULT_USER_SETTINGS
  end.

(** The fields of a value used as an object: a value that is not a map has
    none of the fields read here. *)
Definition fieldsOf (v : value) : list (string * value) :=
  match v with
  | VObject fields => fields
  | _ => []
  end.

Definition normalizeSettings (v : value) : UserSettings :=
  let typed := fieldsOf v in
  let idle := readNumber (field typed "idleMinutes")
                (idleMinutes DEFAULT_USER_SETTINGS) in
  {| currency := normalizeCurrency (field typed "currency");
     darkMode := match field typed "darkMode" with
                 | VBool b => b
                 | _ => darkMode DEFAULT_USER_SETTINGS
                 end;
     idleMinutes := Math_max (ofZ 1) (Math_floor idle) |}.

(** [data] is [None] for a snapshot without a document. *)
Definition normalizeUser (userUid : string)
  (data : option (list (string * value))) : UserProfile :=
  let fields := match data with Some d => d | None => [] end in
  {| uid := userUid;
     email := readString (field fields "email") "";
     displayName := readString (field fields "displayName") "";
     hourlyRate := Math_max (ofZ 0) (readNumber (field fields "hourlyRate")
                                       (ofZ 0));
     settings := normalizeSettings (field fields "settings") |}.

(** [setDoc(ref, data, { merge: true })] for data without nested maps: the
    fields of [data] replace or extend those of the document. *)
Definition mergeFields (existing data : list (string * value))
  : list (string * value) :=
  fold_left (fun doc kv => Map_set doc (fst kv) (snd kv)) data existing.

(** A settings object as a stored value. *)
Definition settingsValue (s : UserSettings) : value :=
  VObject [ ("currency", VString (currencyCode (currency s)));
            ("darkMode", VBool (darkMode s));
            ("idleMinutes", VNumber (idleMinutes s)) ].

(** [ensureUserProfile]; [userEmail] and [userName] are null for an account
    without them. *)
Definition ensureUserProfile (users : option Users) (serverNow : Z)
  (userUid : string) (userEmail userName : option string) : outcome Users :=
  match users with
  | None =>
      Rejected
        "Firebase is not configured. Add NEXT_PUBLIC_FIREBASE_* values first."
  | Some database =>
      let orEmpty := fun o : option string =>
                       match o with Some s => s | None => "" end in
      match database !! userUid with
      | None =>
          Resolved
            (<[userUid :=
                 [ ("uid", VString userUid);
                   ("email", VString (orEmpty userEmail));
                   ("displayName", VString (orEmpty userName));
                   ("hourlyRate", VNumber (ofZ 0));
                   ("settings", settingsValue DEFAULT_USER_SETTINGS);
                   ("createdAt", VTimestamp serverNow);
                   ("updatedAt", VTimestamp serverNow) ]]> database)
      | Some existing =>
          Resolved
            (<[userUid :=
                 mergeFields existing
                   [ ("email", VString (orEmpty userEmail));
                     ("displayName", VString (orEmpty userName));
                     ("updatedAt", VTimestamp serverNow) ]]> database)
      end
  end.

(** The data [saveUserProfile] passes to [setDoc]; [serverNow] is what
    [serverTimestamp()] resolves to. *)
Definition saveUserProfileData (rate : number) (s : UserSettings)
  (serverNow : Z) : list (string * value) :=
  [ ("hourlyRate", VNumber (Math_max (ofZ 0) rate));
    ("settings",
     VObject [ ("currency", VString (currencyCode (currency s)));
               ("darkMode", VBool (darkMode s));
               ("idleMinutes",
                VNumber (Math_max (ofZ 1) (Math_floor (idleMinutes s)))) ]);
    ("updatedAt", VTimestamp serverNow) ].

(** The data [addManualLog] passes to [addDoc], for an input without a
    location. *)
Definition addManualLogData (serverNow : Z) (input : ManualLogInput)
  : list (string * value) :=
  let durationMinutes :=
    Z.max 0 ((getTime (in_endTime input) - getTime (in_startTime input))
             / 60000) in
  [ ("userId", VString (in_userId input));
    ("projectId", match in_projectId input with
                  | Some p => VString p
                  | None => VNull
                  end);
    ("projectName", VString (in_projectName input));
    ("taskName", VString (String_trim (in_taskName input)));
    ("startTime", VTimestamp (in_startTime input));
    ("endTime", VTimestamp (in_endTime input));
    ("totalMinutes", VNumber (ofZ durationMinutes));
    ("breakMinutes", VNumber (ofZ 0));
    ("breaks", VArray []);
    ("note", VString (String_trim (in_note input)));
    ("status", VString "completed");
    ("location", VNull);
    ("breakStartedAt", VNull);
    ("source", VString "manual");
    ("createdAt", VTimestamp serverNow);
    ("updatedAt", VTimestamp serverNow) ].

(** The data [startTimerLog] passes to [addDoc], for an input without a
    location. *)
Definition startTimerLogData (serverNow : Z) (input : StartTimerInput)
  : list (string * value) :=
  [ ("userId", VString (st_userId input));
    ("projectId", match st_projectId input with
                  | Some p => VString p
                  | None => VNull
                  end);
    ("projectName", VString (st_projectName input));
    ("taskName", VString (String_trim (st_taskName input)));
    ("startTime", VTimestamp (st_startTime input));
    ("endTime", VNull);
    ("totalMinutes", VNumber (ofZ 0));
    ("breakMinutes", VNumber (ofZ 0));
    ("breaks", VArray []);
    ("note", VString (String_trim (st_note input)));
    ("status", VString "active");
    ("location", VNull);
    ("breakStartedAt", VNull);
    ("source", VString "timer");
    ("createdAt", VTimestamp serverNow);
    ("updatedAt", VTimestamp serverNow) ].

Definition startTimerLog (db : option Store) (serverNow : Z) (autoId : string)
  (input : StartTimerInput) : outcome Store :=
  database <- requireDb db ;;
  addDoc database autoId
    {| id := autoId;
       userId := st_userId input;
       projectId := st_projectId input;
       projectName := st_projectName input;
       taskName := String_trim (st_taskName input);
       startTime := st_startTime input;
       endTime := None;
       totalMinutes := 0;
       breakMinutes := 0;
       breaks := [];
       note := String_trim (st_note input);
       status := active;
       location := st_location input;
       breakStartedAt := None;
       source := timer;
       createdAt := Some serverNow;
       updatedAt := Some serverNow |}.

Definition updateTimeLog (db : option Store) (serverNow : Z) (log : TimeLog Z)
  (input : UpdateTimeLogInput) : outcome Store :=
  if up_endTime input <=? up_startTime input
  then Rejected "End time must be later than start time."
  else
    database <- requireDb db ;;
    let grossMinutes :=
      Z.max 0 ((getTime (up_endTime input) - getTime (up_startTime input))
               / 60000) in
    let breakMinutes := Z.max 0 (breakMinutes log) in
    let totalMinutes := Z.max 0 (grossMinutes - breakMinutes) in
    updateDocEdit database (id log)
      {| e_projectId := up_projectId input;
         e_projectName := up_projectName input;
         e_taskName := String_trim (up_taskName input);
         e_note := String_trim (up_note input);
         e_startTime := up_startTime input;
         e_endTime := Some (up_endTime input);
         e_totalMinutes := totalMinutes;
         e_status := completed;
         e_breakStartedAt := None;
         e_updatedAt := Some serverNow |}.

Definition deleteTimeLog (db : option Store) (logId : string)
  : outcome Store :=
  database <- requireDb db ;;
  deleteDoc database logId.

(** The order in which [subscribeTimeLogs] delivers the entries: the most
    recent start first. *)
Definition newestFirst (logs : list (TimeLog Z)) : list (TimeLog Z) :=
  sortBy (fun log => - getTime (startTime log)) logs.

End Storage.
End MoreData.
Import MoreData.

Module MoreDashboard.

Definition quote : ascii := "034"%char.

(** [value.replaceAll(quote, quote + quote)]. *)
Fixpoint doubleQuotes (value : string) : string :=
  match value with
  | EmptyString => EmptyString
  | String c rest =>
      if Ascii.eqb c quote
      then String quote (String quote (doubleQuotes rest))
      else String c (doubleQuotes rest)
  end.

Definition csvEscape (value : string) : string :=
  String quote (doubleQuotes value +:+ String quote EmptyString).

Record DaySummary : Type := mkDaySummary {
  ds_minutes : Z;
  ds_sessions : Z;
  ds_firstIn : option Z;
  ds_lastOut : option Z
}.

Definition emptyDaySummary : DaySummary :=
  {| ds_minutes := 0; ds_sessions := 0;
     ds_firstIn := None; ds_lastOut := None |}.

(** The two references of the idle monitor. *)
Record IdleRefs : Type := mkIdleRefs {
  lastActivity : Z;
  idlePrompted : bool
}.

(** The listener of the activity events; [clock] is [Date.now()]. *)
Definition trackActivity (refs : IdleRefs) (clock : Z) : IdleRefs :=
  {| lastActivity := clock; idlePrompted := false |}.

(** The callback of the idle interval: whether it prompts, and the
    references it leaves. *)
Definition idleTick (refs : IdleRefs) (idleMinutes : Z) (clock : Z)
  : bool * IdleRefs :=
  let idleThresholdMs := idleMinutes * 60000 in
  if idlePrompted refs || (clock - lastActivity refs <? idleThresholdMs)
  then (false, refs)
  else (true, {| lastActivity := lastActivity refs; idlePrompted := true |}).

(** The idle effect, run when the active entry changes: the references it
    leaves and whether it installs the interval. *)
Definition idleEffect (refs : IdleRefs) (activeLog : option (TimeLog Z))
  : IdleRefs * bool :=
  match activeLog with
  | Some log =>
      if decide (status log = active) then (refs, true)
      else ({| lastActivity := lastActivity refs; idlePrompted := false |},
            false)
  | None =>
      ({| lastActivity := lastActivity refs; idlePrompted := false |}, false)
  end.

(** [logs.find((log) => log.endTime === null)]. *)
Definition activeLog (logs : list (TimeLog Z)) : option (TimeLog Z) :=
  find (fun log => match endTime log with None => true | Some _ => false end)
       logs.

(** The earliest and the latest start that [openPdfExportModal] finds;
    [None] is its error for an empty list. *)
Definition startRange (logs : list (TimeLog Z)) : option (Z * Z) :=
  match logs with
  | [] => None
  | first :: _ =>
      Some (fold_left
              (fun range log =>
                 let '(earliest, latest) := range in
                 (if startTime log <? earliest then startTime log
                  else earliest,
                  if latest <? startTime log then startTime log else latest))
              logs (startTime first, startTime first))
  end.

(** The entries [exportPdf] prints for the range from [startDate] to
    [endDate]. *)
Definition pdfFilteredLogs (logs : list (TimeLog Z)) (startDate endDate : Z)
  : list (TimeLog Z) :=
  sortBy (fun log => getTime (startTime log))
    (List.filter (fun log => (startDate <=? startTime log)
                             && (startTime log <=? endDate))
                 logs).

Section Dashboard.
Context {host : Host}.

Definition toMonthInputValue (date : Z) : string :=
  let year := getFullYear date in
  let month := padStart2 (toString (getMonth date + 1)) in
  toString year +:+ "-" +:+ month.

(** One iteration of the loop of [daySummaryByKey]. *)
Definition addToSummary (now : Z) (summary : list (string * DaySummary))
  (log : TimeLog Z) : list (string * DaySummary) :=
  let dayKey := toDayKey (startTime log) in
  let workedMinutes := getLogMinutes log now in
  let endTime := match endTime log with Some e => e | None => now end in
  let existing := match Map_get summary dayKey with
                  | Some e => e
                  | None => emptyDaySummary
                  end in
  let firstIn :=
    match ds_firstIn existing with
    | None => Some (startTime log)
    | Some f => if startTime log <? f then Some (startTime log) else Some f
    end in
  let lastOut :=
    match ds_lastOut existing with
    | None => Some endTime
    | Some l => if l <? endTime then Some endTime else Some l
    end in
  Map_set summary dayKey
    {| ds_minutes := ds_minutes existing + workedMinutes;
       ds_sessions := ds_sessions existing + 1;
       ds_firstIn := firstIn;
       ds_lastOut := lastOut |}.

Definition daySummaryByKey (logs : list (TimeLog Z)) (now : Z)
  : list (string * DaySummary) :=
  fold_left (addToSummary now) logs [].

(** [daySummaryByKey.get(key) ?? { minutes: 0, sessions: 0, ... }]. *)
Definition selectedDaySummary (summary : list (string * DaySummary))
  (key : string) : DaySummary :=
  match Map_get summary key with
  | Some s => s
  | None => emptyDaySummary
  end.

Definition lastSevenDaysSessions (reportData : list DailyReportPoint)
  (summary : list (string * DaySummary)) : Z :=
  fold_left (fun sessions day =>
               sessions + match Map_get summary (dayKey day) with
                          | Some s => ds_sessions s
                          | None => 0
                          end)
            reportData 0.

(** [projects] lists the projects by id and name; [clock] is [new Date()]. *)
Definition handleClockToggle (ui : Ui) (currentUser : option string)
  (activeLog : option (TimeLog Z)) (projects : list (string * string))
  (sessionProjectId sessionTaskName sessionNote : string)
  (serverNow : Z) (autoId : string) (clock : Z) : Ui :=
  match currentUser with
  | None => ui
  | Some uid =>
      match activeLog with
      | None =>
          let selectedProject :=
            find (fun project => String.eqb (fst project) sessionProjectId)
                 projects in
          settle ui
            (startTimerLog (ui_db ui) serverNow autoId
               {| st_userId := uid;
                  st_projectId := option_map fst selectedProject;
                  st_projectName := match selectedProject with
                                    | Some project => snd project
                                    | None => "General"
                                    end;
                  st_taskName := sessionTaskName;
                  st_note := sessionNote;
                  st_location := None;
                  st_startTime := clock |})
      | Some log => settle ui (clockOut (ui_db ui) serverNow log clock)
      end
  end.

End Dashboard.
End MoreDashboard.
Import MoreDashboard.

Module MoreSpec.

(** Reads a quoted field at the head of a text of comma-separated values:
    the opening quote, the characters up to the closing quote, a doubled
    quote standing for one quote; gives the field and the rest of the
    text. *)
Fixpoint readQuotedBody (s : string) : option (string * string) :=
  match s with
  | EmptyString => None
  | String c rest =>
      if Ascii.eqb c quote
      then match rest with
           | String c' rest' =>
               if Ascii.eqb c' quote
               then match readQuotedBody rest' with
                    | Some (body, tail) => Some (String quote body, tail)
                    | None => None
                    end
               else Some (EmptyString, rest)
           | EmptyString => Some (EmptyString, EmptyString)
           end
      else match readQuotedBody rest with
           | Some (body, tail) => Some (String c body, tail)
           | None => None
           end
  end.

Definition readQuoted (s : string) : option (string * string) :=
  match s with
  | String c rest => if Ascii.eqb c quote then readQuotedBody rest else None
  | EmptyString => None
  end.

(** The text does not go on with a quote. *)
Definition noQuoteAhead (s : string) : Prop :=
  match s with
  | String c _ => c <> quote
  | EmptyString => True
  end.

(** The break minutes of the entry are the sum of its recorded breaks, none
    of which is negative. *)
Definition breakLedgerOk (e : TimeLog Z) : Prop :=
  breakMinutes e = sumZ (map durationMinutes (breaks e))
  /\ Forall (fun b => 0 <= durationMinutes b) (breaks e).

Section Weeks.
Context {host : Host}.

(** The key of the work week of an entry. *)
Definition weekKeyOf (log : TimeLog Z) : string :=
  toDayKey (getWorkWeekStartMonday (startTime log)).

Definition inWeek (key : string) (log : TimeLog Z) : bool :=
  String.eqb (weekKeyOf log) key.

(** What the groups hold once the loop of [groupLogsByWorkWeek] has gone
    through the entries [done]: a group for the week of each of them, each
    group with the entries of its week in the order of the loop and with
    the sum of their display minutes. *)
Definition weekContents (now : Z) (done : list (TimeLog Z))
  (gs : list (string * WorkWeekGroup)) : Prop :=
  (forall l, In l done -> In (weekKeyOf l) (map fst gs))
  /\ (forall k g, In (k, g) gs ->
        week_logs g = List.filter (inWeek k) done
        /\ week_logs g <> []
        /\ week_totalMinutes g
           = sumZ (map (fun l => getLogMinutes l now) (week_logs g)))
  /\ Permutation (concat (map (fun kg => week_logs (snd kg)) gs)) done.

End Weeks.

Section Days.
Context {host : Host}.

(** The entry starts on the local day of the key. *)
Definition startsOn (key : string) (log : TimeLog Z) : bool :=
  String.eqb (toDayKey (startTime log)) key.

(** The summary is the one of the entries [dayLogs]: their number, the sum
    of their display minutes, their earliest start and their latest end,
    the end of a running entry being [now]. *)
Definition summarizes (now : Z) (dayLogs : list (TimeLog Z)) (s : DaySummary)
  : Prop :=
  ds_sessions s = Z.of_nat (length dayLogs)
  /\ ds_minutes s = sumZ (map (fun l => getLogMinutes l now) dayLogs)
  /\ match dayLogs with
     | [] => ds_firstIn s = None /\ ds_lastOut s = None
     | _ :: _ =>
         exists first last,
           ds_firstIn s = Some first /\ ds_lastOut s = Some last
           /\ (exists l, In l dayLogs /\ startTime l = first)
           /\ (forall l, In l dayLogs -> first <= startTime l)
           /\ (exists l, In l dayLogs /\ endOr now l = last)
           /\ (forall l, In l dayLogs -> endOr now l <= last)
     end.

End Days.

(** The entries of the collection that have no end. *)
Definition runningEntries (database : Store) : Store :=
  filter (fun kv => endTime kv.2 = None) database.

(** The list holds entries of the collection, each stored under its id,
    among them every running one. *)
Definition listsRunning (database : Store) (logs : list (TimeLog Z)) : Prop :=
  (forall e, In e logs -> database !! id e = Some e)
  /\ (forall k e, database !! k = Some e -> endTime e = None -> In e logs).

(** What happens to the idle monitor. *)
Inductive IdleEvent : Type :=
  | Rendered (entry : option (TimeLog Z))  (* the active entry changed *)
  | Activity (clock : Z)                   (* the user did something *)
  | Tick (clock : Z).                      (* the interval fired *)

Record IdleState : Type := mkIdleState {
  idle_refs : IdleRefs;
  idle_watching : bool    (* the interval is installed *)
}.

(** One event: whether the user is prompted, and the state after it. *)
Definition idleStep (idleMinutes : Z) (st : IdleState) (ev : IdleEvent)
  : bool * IdleState :=
  match ev with
  | Rendered entry =>
      let '(refs, installed) := idleEffect (idle_refs st) entry in
      (false, {| idle_refs := refs; idle_watching := installed |})
  | Activity clock =>
      (false, {| idle_refs := trackActivity (idle_refs st) clock;
                 idle_watching := idle_watching st |})
  | Tick clock =>
      if idle_watching st
      then let '(prompted, refs) := idleTick (idle_refs st) idleMinutes clock in
           (prompted, {| idle_refs := refs;
                         idle_watching := idle_watching st |})
      else (false, st)
  end.

(** The number of prompts along a list of events, and the final state. *)
Fixpoint idleRun (idleMinutes : Z) (st : IdleState) (events : list IdleEvent)
  : nat * IdleState :=
  match events with
  | [] => (O, st)
  | ev :: rest =>
      let '(prompted, st') := idleStep idleMinutes st ev in
      let '(n, final) := idleRun idleMinutes st' rest in
      ((if prompted then S n else n), final)
  end.

(** The events that re-arm the monitor: an activity, and a render without
    an entry at work. *)
Definition rearms (ev : IdleEvent) : bool :=
  match ev with
  | Activity _ => true
  | Rendered None => true
  | Rendered (Some log) => if decide (status log = active) then false else true
  | Tick _ => false
  end.

(** A clock-in of user [u1] at 09:00 on the Monday. *)
Definition clockIn : StartTimerInput :=
  {| st_userId := "u1"; st_projectId := None; st_projectName := "General";
     st_taskName := "work"; st_note := ""; st_location := None;
     st_startTime := at_ monday0 9 0 |}.

(** A manual log of the Monday, from 09:00 to 17:00. *)
Definition dayShift : ManualLogInput :=
  {| in_userId := "u1"; in_projectId := None; in_projectName := "General";
     in_taskName := "work"; in_note := ""; in_location := None;
     in_startTime := at_ monday0 9 0; in_endTime := at_ monday0 17 0 |}.

End MoreSpec.
Import MoreSpec.

(* ===================================================================== *)
(** * Facts about dates *)
(* ===================================================================== *)

Module JsDateFacts.

Lemma leap_step4 y :
  (y + 1 - 1969) / 4 = (y - 1969) / 4 + (if y mod 4 =? 0 then 1 else 0).
Proof. destruct (Z.eqb_spec (y mod 4) 0); Z.div_mod_to_equations; lia. Qed.

Lemma leap_step100 y :
  (y + 1 - 1901) / 100 = (y - 1901) / 100 + (if y mod 100 =? 0 then 1 else 0).
Proof. destruct (Z.eqb_spec (y mod 100) 0); Z.div_mod_to_equations; lia. Qed.

Lemma leap_step400 y :
  (y + 1 - 1601) / 400 = (y - 1601) / 400 + (if y mod 400 =? 0 then 1 else 0).
Proof. destruct (Z.eqb_spec (y mod 400) 0); Z.div_mod_to_equations; lia. Qed.

Lemma mod100_mod4 y : y mod 100 = 0 -> y mod 4 = 0.
Proof. intros. Z.div_mod_to_equations. lia. Qed.

Lemma mod400_mod100 y : y mod 400 = 0 -> y mod 100 = 0.
Proof. intros. Z.div_mod_to_equations. lia. Qed.

(** A year is as long as the distance between its first day and the next
    year's. *)
Lemma DayFromYear_succ y : DayFromYear (y + 1) = DayFromYear y + DaysInYear y.
Proof.
  unfold DayFromYear, DaysInYear, InLeapYear.
  rewrite leap_step4, leap_step100, leap_step400.
  pose proof (mod100_mod4 y). pose proof (mod400_mod100 y).
  destruct (Z.eqb_spec (y mod 4) 0); destruct (Z.eqb_spec (y mod 100) 0);
    destruct (Z.eqb_spec (y mod 400) 0); cbv [negb]; lia.
Qed.

Lemma DaysInYear_monthStart y : DaysInYear y = monthStart (InLeapYear y) 12.
Proof. unfold DaysInYear. destruct (InLeapYear y); reflexivity. Qed.

Lemma DayFromYear_mono y y' : y <= y' -> DayFromYear y <= DayFromYear y'.
Proof. intros. unfold DayFromYear. Z.div_mod_to_equations. lia. Qed.

Lemma YearFromDay_spec d :
  DayFromYear (YearFromDay d) <= d < DayFromYear (YearFromDay d + 1).
Proof.
  unfold YearFromDay.
  set (y := 1970 + 400 * d / 146097).
  assert (H : DayFromYear (y - 1) <= d < DayFromYear (y + 2)).
  { unfold DayFromYear, y. Z.div_mod_to_equations. lia. }
  destruct (Z.ltb_spec d (DayFromYear y)).
  - replace (y - 1 + 1) with y by lia. lia.
  - destruct (Z.leb_spec (DayFromYear (y + 1)) d).
    + replace (y + 1 + 1) with (y + 2) by lia. lia.
    + lia.
Qed.

Lemma YearFromDay_unique d y :
  DayFromYear y <= d < DayFromYear (y + 1) -> YearFromDay d = y.
Proof.
  intros H. pose proof (YearFromDay_spec d) as S.
  destruct (Z.lt_trichotomy (YearFromDay d) y) as [L | [E | G]]; [| exact E |].
  - pose proof (DayFromYear_mono (YearFromDay d + 1) y). lia.
  - pose proof (DayFromYear_mono (y + 1) (YearFromDay d)). lia.
Qed.

Lemma DayWithinYear_bounds d :
  0 <= DayWithinYear d < monthStart (InLeapYear (YearFromDay d)) 12.
Proof.
  unfold DayWithinYear. pose proof (YearFromDay_spec d) as S.
  rewrite DayFromYear_succ, DaysInYear_monthStart in S. lia.
Qed.

(** Evaluate [monthStart] at closed arguments. *)
Ltac eval_monthStart :=
  repeat match goal with
         | |- context [monthStart ?l ?m] =>
             let v := eval vm_compute in (monthStart l m) in
             progress change (monthStart l m) with v
         | H : context [monthStart ?l ?m] |- _ =>
             let v := eval vm_compute in (monthStart l m) in
             progress change (monthStart l m) with v in H
         end.

(** The twelve values of a month index. *)
Ltac month_cases m :=
  let C := fresh "C" in
  assert (C : m = 0 \/ m = 1 \/ m = 2 \/ m = 3 \/ m = 4 \/ m = 5 \/ m = 6
              \/ m = 7 \/ m = 8 \/ m = 9 \/ m = 10 \/ m = 11) by lia;
  destruct C as [C|[C|[C|[C|[C|[C|[C|[C|[C|[C|[C|C]]]]]]]]]]]; subst m.

(** The month found for a day within the year is the one it lies in. *)
Lemma month_of_dayWithinYear leap w :
  0 <= w < monthStart leap 12 ->
  let m :=
    if w <? monthStart leap 1 then 0
    else if w <? monthStart leap 2 then 1
    else if w <? monthStart leap 3 then 2
    else if w <? monthStart leap 4 then 3
    else if w <? monthStart leap 5 then 4
    else if w <? monthStart leap 6 then 5
    else if w <? monthStart leap 7 then 6
    else if w <? monthStart leap 8 then 7
    else if w <? monthStart leap 9 then 8
    else if w <? monthStart leap 10 then 9
    else if w <? monthStart leap 11 then 10
    else 11 in
  0 <= m <= 11 /\ monthStart leap m <= w < monthStart leap (m + 1).
Proof.
  intros H. cbv zeta.
  repeat match goal with
         | |- context [?a <? ?b] => destruct (Z.ltb_spec a b)
         end;
  destruct leap; eval_monthStart; lia.
Qed.

Lemma MonthFromDay_spec d :
  let leap := InLeapYear (YearFromDay d) in
  let m := MonthFromDay d in
  0 <= m <= 11 /\
  monthStart leap m <= DayWithinYear d < monthStart leap (m + 1).
Proof.
  cbv zeta. unfold MonthFromDay.
  apply (month_of_dayWithinYear _ _ (DayWithinYear_bounds d)).
Qed.

Lemma monthStart_length leap m :
  0 <= m <= 11 -> 28 <= monthStart leap (m + 1) - monthStart leap m <= 31.
Proof. intros H. month_cases m; destruct leap; eval_monthStart; lia. Qed.

Lemma DateFromDay_bounds d : 1 <= DateFromDay d <= 31.
Proof.
  unfold DateFromDay. pose proof (MonthFromDay_spec d) as [R S].
  pose proof (monthStart_length (InLeapYear (YearFromDay d)) _ R). lia.
Qed.

(** Composing a day from the fields of a day [d], with the date moved by
    [k], gives the day [d + k]. *)
Lemma MakeDay_fields d k :
  MakeDay (YearFromDay d) (MonthFromDay d) (DateFromDay d + k) = d + k.
Proof.
  pose proof (MonthFromDay_spec d) as [R _].
  unfold MakeDay.
  rewrite (Z.div_small (MonthFromDay d) 12), (Z.mod_small (MonthFromDay d) 12)
    by lia.
  rewrite Z.add_0_r. unfold DateFromDay, DayWithinYear. lia.
Qed.

(** The fields of the day [k] days after the first day of month [m] of
    year [y], within the month. *)
Lemma fields_of_month_day y m k :
  0 <= m <= 11 ->
  0 <= k < monthStart (InLeapYear y) (m + 1) - monthStart (InLeapYear y) m ->
  let d := DayFromYear y + monthStart (InLeapYear y) m + k in
  YearFromDay d = y /\ MonthFromDay d = m /\ DateFromDay d = k + 1.
Proof.
  intros R K d.
  assert (W : 0 <= monthStart (InLeapYear y) m + k
              < monthStart (InLeapYear y) 12).
  { month_cases m; destruct (InLeapYear y); eval_monthStart; lia. }
  assert (Y : YearFromDay d = y).
  { apply YearFromDay_unique.
    rewrite DayFromYear_succ, DaysInYear_monthStart. unfold d. lia. }
  assert (M : MonthFromDay d = m).
  { pose proof (MonthFromDay_spec d) as [R' S]. cbv zeta in S.
    unfold DayWithinYear in S. rewrite Y in S.
    replace (d - DayFromYear y) with (monthStart (InLeapYear y) m + k) in S
      by (unfold d; lia).
    revert R' S. generalize (MonthFromDay d). intros m' R' S.
    month_cases m; month_cases m'; destruct (InLeapYear y);
      eval_monthStart; lia. }
  split; [exact Y | split; [exact M |]].
  unfold DateFromDay, DayWithinYear. rewrite M, Y. unfold d. lia.
Qed.

Lemma MakeDay_fields_any d x :
  MakeDay (YearFromDay d) (MonthFromDay d) x = d + (x - DateFromDay d).
Proof.
  replace x with (DateFromDay d + (x - DateFromDay d)) at 1 by lia.
  apply MakeDay_fields.
Qed.

Lemma Day_MakeDate d tm : 0 <= tm < msPerDay -> Day (MakeDate d tm) = d.
Proof.
  unfold Day, MakeDate, msPerDay. intros H. Z.div_mod_to_equations. lia.
Qed.

Lemma TimeWithinDay_MakeDate d tm :
  0 <= tm < msPerDay -> TimeWithinDay (MakeDate d tm) = tm.
Proof.
  unfold TimeWithinDay, MakeDate, msPerDay. intros H.
  Z.div_mod_to_equations. lia.
Qed.

Lemma TimeWithinDay_bounds t : 0 <= TimeWithinDay t < msPerDay.
Proof. unfold TimeWithinDay, msPerDay. Z.div_mod_to_equations. lia. Qed.

Lemma MakeDate_Day t : MakeDate (Day t) (TimeWithinDay t) = t.
Proof.
  unfold MakeDate, Day, TimeWithinDay, msPerDay. Z.div_mod_to_equations. lia.
Qed.

Lemma WeekDay_bounds t : 0 <= WeekDay t <= 6.
Proof. unfold WeekDay. Z.div_mod_to_equations. lia. Qed.

Section Local.
Context {host : Host}.

Lemma LocalTime_UTC t : LocalTime (UTC t) = t.
Proof. unfold LocalTime, UTC. lia. Qed.

Lemma localDay_setDate t x :
  localDay (setDate t x) = localDay t + (x - getDate t).
Proof.
  unfold localDay, setDate. rewrite LocalTime_UTC.
  rewrite Day_MakeDate by apply TimeWithinDay_bounds.
  unfold YearFromTime, MonthFromTime, getDate, DateFromTime.
  apply MakeDay_fields_any.
Qed.

Lemma localTimeOfDay_setDate t x :
  localTimeOfDay (setDate t x) = localTimeOfDay t.
Proof.
  unfold localTimeOfDay, setDate. rewrite LocalTime_UTC.
  apply TimeWithinDay_MakeDate, TimeWithinDay_bounds.
Qed.

Lemma localDay_setHours t h m s ms :
  0 <= MakeTime h m s ms < msPerDay ->
  localDay (setHours t h m s ms) = localDay t.
Proof.
  intros H. unfold localDay, setHours. rewrite LocalTime_UTC.
  apply Day_MakeDate, H.
Qed.

Lemma localTimeOfDay_setHours t h m s ms :
  0 <= MakeTime h m s ms < msPerDay ->
  localTimeOfDay (setHours t h m s ms) = MakeTime h m s ms.
Proof.
  intros H. unfold localTimeOfDay, setHours. rewrite LocalTime_UTC.
  apply TimeWithinDay_MakeDate, H.
Qed.

(** An instant is determined by its local day and time of day. *)
Lemma instant_of_local t :
  t = localDay t * msPerDay + localTimeOfDay t - LocalTZA.
Proof.
  unfold localDay, localTimeOfDay.
  pose proof (MakeDate_Day (LocalTime t)) as H. unfold MakeDate in H.
  unfold LocalTime in *. lia.
Qed.

Lemma getDay_localDay t : getDay t = (localDay t + 4) mod 7.
Proof. reflexivity. Qed.

Lemma getDate_localDay t : getDate t = DateFromDay (localDay t).
Proof. reflexivity. Qed.

Lemma getMonth_localDay t : getMonth t = MonthFromDay (localDay t).
Proof. reflexivity. Qed.

Lemma getFullYear_localDay t : getFullYear t = YearFromDay (localDay t).
Proof. reflexivity. Qed.

Lemma toDayKey_localDay t : toDayKey t = dayKeyOfDay (localDay t).
Proof. reflexivity. Qed.

(** The start of the work week is the local midnight that opens the Monday
    on or before the day of the instant. *)
Lemma getWorkWeekStartMonday_localDay t :
  localDay (getWorkWeekStartMonday t) = localDay t - (localDay t + 3) mod 7.
Proof.
  unfold getWorkWeekStartMonday.
  assert (T : 0 <= MakeTime 0 0 0 0 < msPerDay) by (vm_compute; split; congruence).
  set (m0 := setHours t 0 0 0 0).
  assert (D0 : localDay m0 = localDay t) by (apply localDay_setHours, T).
  destruct (Z.eqb_spec (getDay m0) 0) as [S | S].
  - set (m1 := setDate m0 (getDate m0 - 1)).
    assert (D1 : localDay m1 = localDay t - 1).
    { unfold m1. rewrite localDay_setDate. lia. }
    rewrite localDay_setDate, getDay_localDay, D1.
    rewrite getDay_localDay, D0 in S.
    Z.div_mod_to_equations. lia.
  - rewrite localDay_setDate, getDay_localDay, D0.
    Z.div_mod_to_equations. lia.
Qed.

Lemma getWorkWeekStartMonday_timeOfDay t :
  localTimeOfDay (getWorkWeekStartMonday t) = 0.
Proof.
  unfold getWorkWeekStartMonday.
  assert (T : 0 <= MakeTime 0 0 0 0 < msPerDay) by (vm_compute; split; congruence).
  destruct (getDay (setHours t 0 0 0 0) =? 0);
    rewrite !localTimeOfDay_setDate, localTimeOfDay_setHours by exact T;
    reflexivity.
Qed.

Lemma getWorkWeekEndSaturday_localDay s :
  localDay (getWorkWeekEndSaturday s) = localDay s + 5.
Proof.
  unfold getWorkWeekEndSaturday.
  rewrite localDay_setHours by (vm_compute; split; congruence).
  rewrite localDay_setDate. lia.
Qed.

Lemma getWorkWeekEndSaturday_timeOfDay s :
  localTimeOfDay (getWorkWeekEndSaturday s) = 86399999.
Proof.
  unfold getWorkWeekEndSaturday.
  rewrite localTimeOfDay_setHours by (vm_compute; split; congruence).
  reflexivity.
Qed.

End Local.

End JsDateFacts.
Import JsDateFacts.

(* ===================================================================== *)
(** * Facts about strings and day keys *)
(* ===================================================================== *)

Module KeyFacts.

Lemma length_append (a b : string) :
  String.length (a +:+ b) = (String.length a + String.length b)%nat.
Proof. induction a as [| c a IH]; simpl; [reflexivity | now rewrite IH]. Qed.

Lemma append_inj_length (a a' b b' : string) :
  String.length a = String.length a' ->
  a +:+ b = a' +:+ b' -> a = a' /\ b = b'.
Proof.
  revert a'. induction a as [| c a IH]; intros [| c' a'] L E;
    simpl in *; try discriminate.
  - split; [reflexivity | exact E].
  - injection E as -> E. injection L as L.
    destruct (IH a' L E) as [-> ->]. split; reflexivity.
Qed.

Lemma toString_inj a b : toString a = toString b -> a = b.
Proof.
  unfold toString. intros E. apply DecimalZ.to_int_inj.
  pose proof (NilEmpty.isi (Z.to_int a)) as A.
  pose proof (NilEmpty.isi (Z.to_int b)) as B.
  rewrite E in A. congruence.
Qed.

(** A property of the integers of a range, from its instances. *)
Lemma range_ind (P : Z -> Prop) (n : nat) :
  (forall k : nat, (k < n)%nat -> P (Z.of_nat k)) ->
  forall z, 0 <= z < Z.of_nat n -> P z.
Proof.
  intros H z R. replace z with (Z.of_nat (Z.to_nat z)) by lia.
  apply H. lia.
Qed.

(** Two-digit fields: padding gives two characters and can be read back. *)
Lemma padStart2_read z :
  0 <= z < 32 ->
  String.length (padStart2 (toString z)) = 2%nat /\
  option_map Z.of_int (NilEmpty.int_of_string (padStart2 (toString z)))
  = Some z.
Proof.
  revert z. apply (range_ind _ 32). intros k Hk.
  do 32 (destruct k as [| k]; [vm_compute; split; reflexivity |]).
  lia.
Qed.

Lemma padStart2_length z :
  0 <= z < 32 -> String.length (padStart2 (toString z)) = 2%nat.
Proof. intros R. apply (padStart2_read z R). Qed.

Lemma padStart2_inj a b :
  0 <= a < 32 -> 0 <= b < 32 ->
  padStart2 (toString a) = padStart2 (toString b) -> a = b.
Proof.
  intros A B E.
  destruct (padStart2_read a A) as [_ Fa].
  destruct (padStart2_read b B) as [_ Fb].
  rewrite E in Fa. congruence.
Qed.

(** Day keys identify days. *)
Lemma dayKeyOfDay_inj d1 d2 : dayKeyOfDay d1 = dayKeyOfDay d2 -> d1 = d2.
Proof.
  unfold dayKeyOfDay. intros E.
  pose proof (MonthFromDay_spec d1) as [M1 _].
  pose proof (MonthFromDay_spec d2) as [M2 _].
  pose proof (DateFromDay_bounds d1) as D1.
  pose proof (DateFromDay_bounds d2) as D2.
  assert (Lm1 := padStart2_length (MonthFromDay d1 + 1) ltac:(lia)).
  assert (Lm2 := padStart2_length (MonthFromDay d2 + 1) ltac:(lia)).
  assert (Ld1 := padStart2_length (DateFromDay d1) ltac:(lia)).
  assert (Ld2 := padStart2_length (DateFromDay d2) ltac:(lia)).
  assert (L : String.length (toString (YearFromDay d1))
              = String.length (toString (YearFromDay d2))).
  { apply (f_equal String.length) in E.
    rewrite !length_append in E. simpl in E.
    rewrite Lm1, Lm2, Ld1, Ld2 in E. lia. }
  destruct (append_inj_length _ _ _ _ L E) as [Ey E1].
  simpl in E1. injection E1 as E1.
  assert (L' : String.length (padStart2 (toString (MonthFromDay d1 + 1)))
               = String.length (padStart2 (toString (MonthFromDay d2 + 1))))
    by congruence.
  destruct (append_inj_length _ _ _ _ L' E1) as [Em E2].
  simpl in E2. injection E2 as Ed.
  apply toString_inj in Ey.
  apply padStart2_inj in Em; [| lia | lia].
  apply padStart2_inj in Ed; [| lia | lia].
  rewrite <- (Z.add_0_r d1), <- (Z.add_0_r d2).
  rewrite <- (MakeDay_fields d1 0), <- (MakeDay_fields d2 0).
  replace (MonthFromDay d1) with (MonthFromDay d2) by lia.
  rewrite Ey, Ed. reflexivity.
Qed.

Section Local.
Context {host : Host}.

Lemma toDayKey_eq_iff t1 t2 :
  toDayKey t1 = toDayKey t2 <-> localDay t1 = localDay t2.
Proof.
  rewrite !toDayKey_localDay. split.
  - apply dayKeyOfDay_inj.
  - intros ->. reflexivity.
Qed.

End Local.

End KeyFacts.
Import KeyFacts.

(* ===================================================================== *)
(** * The duration calculator *)
(* ===================================================================== *)

Module DurationFacts.

Section Durations.
Context {host : Host}.

Lemma calculateWorkedMinutes_nonneg log now :
  0 <= calculateWorkedMinutes log now.
Proof.
  unfold calculateWorkedMinutes, calculateWorkedMilliseconds.
  apply Z.div_pos; lia.
Qed.

(** C1.  For every entry and every current instant the worked time in
    milliseconds is non-negative; the calculator is a total function, so it
    returns for every entry: when the end precedes the start, when the
    breaks exceed the gross time, and when the status is on-break without a
    recorded break start, in which case the running break counts for
    nothing. *)
Theorem calculateWorkedMilliseconds_nonneg (log : TimeLog Z) (now : Z) :
  0 <= calculateWorkedMilliseconds log now
  /\ (status log = on_break -> breakStartedAt log = None ->
      calculateWorkedMilliseconds log now
      = Z.max 0 (Z.max 0 (endOr now log - startTime log)
                 - Z.max 0 (breakMinutes log) * 60000 - 0))
  /\ (forall e, endTime log = Some e -> e < startTime log ->
      calculateWorkedMilliseconds log now = 0)
  /\ (Z.max 0 (endOr now log - startTime log)
      <= Z.max 0 (breakMinutes log) * 60000 ->
      calculateWorkedMilliseconds log now = 0).
Proof.
  unfold calculateWorkedMilliseconds, getTime, endOr.
  split; [lia |]. split; [| split].
  - intros S B. rewrite S, B. reflexivity.
  - intros e E L. rewrite E.
    destruct (status log), (breakStartedAt log); lia.
  - intros L.
    destruct (endTime log), (status log), (breakStartedAt log);
      cbv iota in *; lia.
Qed.

(** C4.  The minutes displayed for an entry with an end instant are the
    larger of its stored total and its worked minutes, hence never less than
    the stored total; for an entry still running (without an end instant)
    they are its worked minutes; worked minutes are the worked milliseconds
    divided by 60000, rounded down.  For the entries of the lifecycle, which
    have an end instant exactly when their status is completed, the first
    case is the one of the completed entries. *)
Theorem getLogMinutes_display (log : TimeLog Z) (now : Z) :
  (forall e, endTime log = Some e ->
     getLogMinutes log now
     = Z.max (totalMinutes log) (calculateWorkedMinutes log now)
     /\ totalMinutes log <= getLogMinutes log now)
  /\ (endTime log = None ->
      getLogMinutes log now = calculateWorkedMinutes log now)
  /\ calculateWorkedMinutes log now * 60000
     <= calculateWorkedMilliseconds log now
     < (calculateWorkedMinutes log now + 1) * 60000
  /\ ((status log = completed <-> endTime log <> None) ->
      (status log = completed ->
       getLogMinutes log now
       = Z.max (totalMinutes log) (calculateWorkedMinutes log now)
       /\ totalMinutes log <= getLogMinutes log now)
      /\ (status log <> completed ->
          getLogMinutes log now = calculateWorkedMinutes log now)).
Proof.
  unfold getLogMinutes. split; [| split; [| split]].
  - intros e E. rewrite E. split; [reflexivity | lia].
  - intros E. rewrite E. reflexivity.
  - unfold calculateWorkedMinutes. Z.div_mod_to_equations. lia.
  - intros [F B]. split.
    + intros S. destruct (endTime log) as [e |];
        [split; [reflexivity | lia] | exfalso; apply (F S); reflexivity].
    + intros S. destruct (endTime log) as [e |];
        [exfalso; apply S, B; discriminate | reflexivity].
Qed.

Lemma getLogMinutes_nonneg log now : 0 <= getLogMinutes log now.
Proof.
  unfold getLogMinutes. pose proof (calculateWorkedMinutes_nonneg log now).
  destruct (endTime log); lia.
Qed.

End Durations.
End DurationFacts.
Import DurationFacts.

(* ===================================================================== *)
(** * The entry lifecycle *)
(* ===================================================================== *)

Module LifecycleFacts.

Section Lifecycle.
Context {host : Host}.

Lemma breakDuration_nonneg started ended : 0 <= breakDuration started ended.
Proof. unfold breakDuration. lia. Qed.

(** C2.  Clock-out at an instant writes an entry that is completed, ends at
    that instant and has no break in progress; a break in progress (status
    on-break with a recorded start) is first added to the break minutes and
    to the list of breaks, ending at the instant; the total is the whole
    minutes from the start to the instant less the break minutes, and not
    less than 0.  An entry that started at 09:00, had a break of 30 minutes
    from 12:00 to 12:30 and is clocked out at 17:00 has 480 gross minutes,
    30 break minutes and a total of 450 minutes. *)
Theorem clockOut_completes (database : Store) (serverNow : Z)
  (log doc : TimeLog Z) (atInstant : Z) :
  database !! id log = Some doc ->
  (exists doc' : TimeLog Z,
    clockOut (Some database) serverNow log atInstant
    = Resolved (<[id log := doc']> database)
    /\ status doc' = completed
    /\ endTime doc' = Some atInstant
    /\ breakStartedAt doc' = None
    /\ breakMinutes doc'
       = Z.max 0 (breakMinutes log)
         + match runningBreak log with
           | Some started => breakDuration started atInstant
           | None => 0
           end
    /\ breaks doc'
       = breaks log
         ++ match runningBreak log with
            | Some started =>
                [ {| br_startTime := Date_toISOString started;
                     br_endTime := Date_toISOString atInstant;
                     durationMinutes := breakDuration started atInstant |} ]
            | None => []
            end
    /\ totalMinutes doc'
       = Z.max 0 ((atInstant - startTime log) / 60000 - breakMinutes doc')
    /\ startTime doc' = startTime doc)
  /\ (forall day recorded,
        let shift := entry (at_ day 9 0) None 0 30 recorded active None in
        (at_ day 17 0 - at_ day 9 0) / 60000 = 480
        /\ exists done : TimeLog Z,
             clockOut (Some {[ id shift := shift ]}) serverNow shift
               (at_ day 17 0)
             = Resolved (<[id shift := done]> {[ id shift := shift ]})
             /\ breakMinutes done = 30 /\ totalMinutes done = 450
             /\ status done = completed
             /\ endTime done = Some (at_ day 17 0)).
Proof.
  intros D. split.
  - unfold clockOut, runningBreak, breakDuration, getTime. cbn [requireDb bind].
    destruct (status log) eqn:S, (breakStartedAt log) as [started |] eqn:B;
      unfold updateDoc; rewrite D; eexists; (split; [reflexivity |]);
      cbn; rewrite ?app_nil_r; repeat split; try reflexivity; lia.
  - intros day recorded shift.
    assert (G : (at_ day 17 0 - at_ day 9 0) / 60000 = 480).
    { unfold at_, msPerDay, MakeTime. Z.div_mod_to_equations. lia. }
    split; [exact G |].
    unfold clockOut, getTime. cbn [requireDb bind].
    unfold updateDoc. cbn [shift entry status breakStartedAt id].
    rewrite lookup_singleton_eq.
    eexists; split; [reflexivity |].
    cbn. unfold shift in G. cbn in G. rewrite G. repeat split; reflexivity.
Qed.

End Lifecycle.

Section Decomposition.
Context {host : Host}.

(** C3.  For an entry on break with a recorded break start, whose stored
    break minutes are not negative as the data model requires, ending the
    break at an instant and then clocking out at the same instant leaves
    the collection as a single clock-out at that instant does: the same
    break minutes, list of breaks and total. *)
Theorem endBreak_then_clockOut (database : Store) (serverNow1 serverNow2 : Z)
  (log : TimeLog Z) (started t : Z) :
  database !! id log = Some log ->
  status log = on_break ->
  breakStartedAt log = Some started ->
  0 <= breakMinutes log ->
  exists (database1 : Store) (log1 : TimeLog Z),
    endBreak (Some database) serverNow1 log t = Resolved database1
    /\ database1 !! id log = Some log1
    /\ status log1 = active
    /\ clockOut (Some database1) serverNow2 log1 t
       = clockOut (Some database) serverNow2 log t
    /\ exists (final : Store) (done : TimeLog Z),
         clockOut (Some database) serverNow2 log t = Resolved final
         /\ final !! id log = Some done
         /\ breakMinutes done = breakMinutes log + breakDuration started t
         /\ breaks done = breaks log1
         /\ totalMinutes done
            = Z.max 0 ((t - startTime log) / 60000 - breakMinutes done).
Proof.
  intros D S B N.
  unfold endBreak. rewrite B. cbn [requireDb bind].
  unfold updateDoc at 1. rewrite D.
  eexists. eexists. split; [reflexivity |].
  split; [apply lookup_insert_eq |].
  split; [reflexivity |].
  assert (E : clockOut (Some database) serverNow2 log t
              = Resolved
                  (<[id log :=
                       applyUpdate
                         {| u_endTime := Some (Some t);
                            u_totalMinutes :=
                              Some (Z.max 0 ((t - startTime log) / 60000
                                             - (breakMinutes log
                                                + breakDuration started t)));
                            u_breakMinutes :=
                              Some (breakMinutes log
                                    + breakDuration started t);
                            u_breaks :=
                              Some (breaks log ++
                                    [ {| br_startTime :=
                                           Date_toISOString started;
                                         br_endTime := Date_toISOString t;
                                         durationMinutes :=
                                           breakDuration started t |} ]);
                            u_breakStartedAt := Some None;
                            u_status := Some completed;
                            u_updatedAt := Some (Some serverNow2) |}
                         log]> database)).
  { unfold clockOut, getTime. cbn [requireDb bind]. rewrite S, B.
    unfold updateDoc. rewrite D. unfold breakDuration.
    do 3 f_equal. f_equal; f_equal; lia. }
  split.
  - rewrite E. unfold clockOut, getTime. cbn [requireDb bind].
    cbn [applyUpdate status breakStartedAt written
         u_status u_breakStartedAt id breakMinutes u_breakMinutes
         breaks u_breaks startTime].
    unfold updateDoc. rewrite lookup_insert_eq. cbv iota.
    rewrite insert_insert_eq.
    pose proof (breakDuration_nonneg started t) as P.
    unfold breakDuration in *. do 2 f_equal.
    unfold applyUpdate. cbn. f_equal; lia.
  - rewrite E. eexists. eexists. split; [reflexivity |].
    split; [apply lookup_insert_eq |].
    cbn. repeat split; reflexivity.
Qed.

End Decomposition.

Section Guards.
Context {host : Host}.

(** C7, as the code has it.  Start-break does not look at the status of the
    entry: on every stored entry it succeeds, sets the status to on-break
    and the break start to the given instant, and leaves the other fields
    but the update stamp as they are.  The break toggle of the dashboard
    sends an entry on break to end-break and every other entry to
    start-break. *)
Theorem startBreak_unconditional (database : Store) (serverNow : Z)
  (logId : string) (atInstant : Z) (doc : TimeLog Z) :
  database !! logId = Some doc ->
  (exists doc' : TimeLog Z,
     startBreak (Some database) serverNow logId atInstant
     = Resolved (<[logId := doc']> database)
     /\ status doc' = on_break
     /\ breakStartedAt doc' = Some atInstant
     /\ updatedAt doc' = Some serverNow
     /\ startTime doc' = startTime doc /\ endTime doc' = endTime doc
     /\ totalMinutes doc' = totalMinutes doc
     /\ breakMinutes doc' = breakMinutes doc /\ breaks doc' = breaks doc
     /\ id doc' = id doc /\ userId doc' = userId doc
     /\ projectId doc' = projectId doc /\ projectName doc' = projectName doc
     /\ taskName doc' = taskName doc /\ note doc' = note doc
     /\ location doc' = location doc /\ source doc' = source doc
     /\ createdAt doc' = createdAt doc)
  /\ (forall ui log clock,
        handleBreakToggle ui (Some log) serverNow clock
        = if decide (status log = on_break)
          then settle ui (endBreak (ui_db ui) serverNow log clock)
          else settle ui (startBreak (ui_db ui) serverNow (id log) clock)).
Proof.
  intros D. split.
  - unfold startBreak. cbn [requireDb bind]. unfold updateDoc. rewrite D.
    eexists. split; [reflexivity |]. cbn. repeat split; reflexivity.
  - intros ui log clock. reflexivity.
Qed.

(** What [addManualLog] stores: a completed entry with the given start and
    end, no breaks, and as total the whole minutes from start to end, or 0
    when that is negative.  It does not compare the two instants itself;
    the form handler does, before it calls. *)
Lemma addManualLog_stores (database : Store) (serverNow : Z)
  (autoId : string) (input : ManualLogInput) :
  exists e : TimeLog Z,
    addManualLog (Some database) serverNow autoId input
    = Resolved (<[autoId := e]> database)
    /\ status e = completed
    /\ startTime e = in_startTime input
    /\ endTime e = Some (in_endTime input)
    /\ totalMinutes e
       = Z.max 0 ((in_endTime input - in_startTime input) / 60000)
    /\ 0 <= totalMinutes e
    /\ (in_startTime input < in_endTime input ->
        totalMinutes e = (in_endTime input - in_startTime input) / 60000)
    /\ (in_endTime input <= in_startTime input -> totalMinutes e = 0)
    /\ breakMinutes e = 0 /\ breaks e = [] /\ breakStartedAt e = None
    /\ source e = manual.
Proof.
  unfold addManualLog, addDoc, getTime. cbn [requireDb bind].
  eexists. split; [reflexivity |]. cbn.
  repeat split; try reflexivity; try lia.
  - intros L. apply Z.max_r. apply Z.div_pos; lia.
  - intros L. apply Z.max_l.
    assert (Q : (in_endTime input - in_startTime input) / 60000
                <= 0 / 60000) by (apply Z.div_le_mono; lia).
    rewrite Z.div_0_l in Q by lia. lia.
Qed.

(** C8.  The manual log, as the form submits it.  With an end that is not
    after the start, or with a date or a time that does not parse, the
    submission fails with a message and leaves the collection as it is: no
    entry is created.  With an end after the start it creates a completed
    entry from the start to the end, with the end present, no breaks, and
    as total the whole minutes from start to end, which is not negative;
    the entry is the one [addManualLog] stores, and [addManualLog] stores
    such an entry for every input whose end is after its start. *)
Theorem handleManualSubmit_validates (ui : Ui) (uid : string)
  (projects : list (string * string))
  (manualDate manualStartTime manualEndTime : string)
  (manualProjectId manualTaskName manualNote : string)
  (serverNow : Z) (autoId : string) :
  let submitted :=
    handleManualSubmit ui (Some uid) projects manualDate manualStartTime
      manualEndTime manualProjectId manualTaskName manualNote
      serverNow autoId in
  let failed :=
    {| ui_error :=
         Some "Manual log needs a valid date and an end time after start time.";
       ui_db := ui_db ui |} in
  (forall startInstant endInstant,
     parseDateAndTime manualDate manualStartTime = Some startInstant ->
     parseDateAndTime manualDate manualEndTime = Some endInstant ->
     endInstant <= startInstant ->
     submitted = failed)
  /\ (parseDateAndTime manualDate manualStartTime = None
      \/ parseDateAndTime manualDate manualEndTime = None ->
      submitted = failed)
  /\ (forall database startInstant endInstant,
        parseDateAndTime manualDate manualStartTime = Some startInstant ->
        parseDateAndTime manualDate manualEndTime = Some endInstant ->
        startInstant < endInstant ->
        ui_db ui = Some database ->
        exists (e : TimeLog Z) (input : ManualLogInput),
          in_startTime input = startInstant
          /\ in_endTime input = endInstant
          /\ addManualLog (Some database) serverNow autoId input
             = Resolved (<[autoId := e]> database)
          /\ submitted
             = {| ui_error := None;
                  ui_db := Some (<[autoId := e]> database) |}
          /\ status e = completed
          /\ startTime e = startInstant
          /\ endTime e = Some endInstant
          /\ totalMinutes e = (endInstant - startInstant) / 60000
          /\ totalMinutes e = Z.max 0 ((endInstant - startInstant) / 60000)
          /\ 0 <= totalMinutes e
          /\ breakMinutes e = 0 /\ breaks e = [] /\ breakStartedAt e = None
          /\ source e = manual)
  /\ (forall (database : Store) (input : ManualLogInput),
        in_startTime input < in_endTime input ->
        exists e : TimeLog Z,
          addManualLog (Some database) serverNow autoId input
          = Resolved (<[autoId := e]> database)
          /\ status e = completed
          /\ endTime e = Some (in_endTime input)
          /\ totalMinutes e = (in_endTime input - in_startTime input) / 60000
          /\ 0 <= totalMinutes e
          /\ breakMinutes e = 0 /\ breaks e = []).
Proof.
  cbv zeta. split; [| split; [| split]].
  - intros startInstant endInstant Ps Pe L.
    unfold handleManualSubmit. rewrite Ps, Pe.
    destruct (Z.leb_spec endInstant startInstant); [reflexivity | lia].
  - intros F. unfold handleManualSubmit.
    destruct (parseDateAndTime manualDate manualStartTime) as [s |];
      destruct (parseDateAndTime manualDate manualEndTime) as [e |];
      try reflexivity.
    destruct F as [F | F]; discriminate F.
  - intros database startInstant endInstant Ps Pe L U.
    unfold handleManualSubmit. rewrite Ps, Pe.
    destruct (Z.leb_spec endInstant startInstant); [lia |].
    rewrite U.
    match goal with
    | |- context [addManualLog (Some database) serverNow autoId ?i] =>
        destruct (addManualLog_stores database serverNow autoId i)
          as (e & E & S & St & En & T & P & Tp & _ & B & Bs & Bk & So);
        exists e, i
    end.
    cbn [in_startTime in_endTime] in *.
    rewrite E. cbn [settle].
    split; [reflexivity |]. split; [reflexivity |].
    split; [reflexivity |]. split; [reflexivity |].
    split; [exact S |]. split; [exact St |]. split; [exact En |].
    split; [apply Tp, L |]. split; [exact T |]. split; [exact P |].
    split; [exact B |]. split; [exact Bs |]. split; [exact Bk | exact So].
  - intros database input L.
    destruct (addManualLog_stores database serverNow autoId input)
      as (e & E & S & _ & En & _ & P & Tp & _ & B & Bs & _ & _).
    exists e. split; [exact E |]. split; [exact S |]. split; [exact En |].
    split; [apply Tp, L |]. split; [exact P |]. split; [exact B | exact Bs].
Qed.

End Guards.
End LifecycleFacts.
Import LifecycleFacts.

(* ===================================================================== *)
(** * Normalization of stored documents *)
(* ===================================================================== *)

Module NormalizeFacts.

Lemma isWholeNonNegative_infinity : ~ isWholeNonNegative PosInfinity.
Proof. intros [z [_ E]]. discriminate E. Qed.

Lemma Math_max_zero_ofZ z : Math_max (ofZ 0) (ofZ z) = ofZ (Z.max 0 z).
Proof.
  unfold Math_max, ofZ.
  destruct (Qle_bool (inject_Z 0) (inject_Z z)) eqn:E.
  - apply Qle_bool_iff in E. rewrite <- Zle_Qle in E.
    rewrite Z.max_r by exact E. reflexivity.
  - assert (N : ~ (0 <= z)).
    { intros L. rewrite Zle_Qle in L. apply Qle_bool_iff in L. congruence. }
    rewrite Z.max_l by lia. reflexivity.
Qed.

(** What [Math.max(0, Math.floor(readNumber(v)))] is: a non-negative whole
    number, unless the stored number is positive infinity. *)
Lemma sanitized_counter v :
  let r := Math_max (ofZ 0) (Math_floor (readNumber v (ofZ 0))) in
  (v = VNumber PosInfinity /\ r = PosInfinity)
  \/ (v <> VNumber PosInfinity /\ isWholeNonNegative r).
Proof.
  cbv zeta.
  assert (Z0 : isWholeNonNegative (Math_max (ofZ 0) (Math_floor (ofZ 0)))).
  { exists 0. split; [lia |]. reflexivity. }
  destruct v as [| | b | n | s | t | ms | t | items | fields];
    try (right; split; [discriminate | exact Z0]).
  destruct n as [| | | q]; cbn [readNumber Number_isNaN Math_floor].
  - right. split; [discriminate | exact Z0].
  - right. split; [discriminate |]. exists 0. split; [lia | reflexivity].
  - left. split; reflexivity.
  - right. split; [discriminate |].
    rewrite Math_max_zero_ofZ. exists (Z.max 0 (Qfloor q)). split; [lia |].
    reflexivity.
Qed.

Section Normalize.
Context {host : Host}.

(** The status of a normalized entry is the stored one when that is one of
    the three, and completed otherwise. *)
Lemma normalizeStatus_spec v :
  (v = VString "active" /\ normalizeStatus v = active)
  \/ (v = VString "on-break" /\ normalizeStatus v = on_break)
  \/ (v <> VString "active" /\ v <> VString "on-break"
      /\ normalizeStatus v = completed).
Proof.
  destruct v as [| | b | n | s | t | ms | t | items | fields];
    try (right; right; repeat split; [discriminate | discriminate]).
  cbn [normalizeStatus].
  destruct (String.eqb_spec s "active") as [-> | A];
    [left; split; reflexivity |].
  destruct (String.eqb_spec s "on-break") as [-> | B];
    [right; left; split; reflexivity |].
  right; right. repeat split; congruence.
Qed.

(** The start of a normalized entry: the stored start, else the stored
    creation instant, else the current instant. *)
Lemma normalizeTimeLog_startTime docId data clock :
  startTime (normalizeTimeLog docId data clock)
  = match readDate (field data "startTime") with
    | Some d => d
    | None => match readDate (field data "createdAt") with
              | Some d => d
              | None => clock
              end
    end.
Proof. reflexivity. Qed.

Lemma normalizeBreaks_durations v b :
  In b (normalizeBreaks v) ->
  durationMinutes b = PosInfinity \/ isWholeNonNegative (durationMinutes b).
Proof.
  destruct v as [| | ? | ? | ? | ? | ? | ? | items | ?];
    cbn [normalizeBreaks]; try (intros []).
  rewrite in_flat_map. intros [entry [_ I]].
  destruct entry as [| | ? | ? | ? | ? | ? | ? | ? | raw];
    cbn [normalizeBreak] in I; try contradiction.
  destruct (field raw "startTime"); try contradiction.
  destruct (field raw "endTime"); try contradiction.
  destruct I as [<- | []]. cbn [durationMinutes].
  destruct (sanitized_counter (field raw "durationMinutes")) as [[_ E] | [_ W]].
  - left. exact E.
  - right. exact W.
Qed.

(** The counters of a normalized entry are non-negative whole numbers when
    no stored counter is positive infinity. *)
Lemma normalizeTimeLog_counters docId data clock :
  let e := normalizeTimeLog docId data clock in
  (field data "totalMinutes" <> VNumber PosInfinity ->
   isWholeNonNegative (totalMinutes e))
  /\ (field data "breakMinutes" <> VNumber PosInfinity ->
      isWholeNonNegative (breakMinutes e))
  /\ (forall b, In b (breaks e) ->
      durationMinutes b = PosInfinity
      \/ isWholeNonNegative (durationMinutes b)).
Proof.
  cbv zeta. cbn [normalizeTimeLog totalMinutes breakMinutes breaks].
  split; [| split].
  - intros N.
    destruct (sanitized_counter (field data "totalMinutes")) as [[E _] | [_ W]];
      [contradiction | exact W].
  - intros N.
    destruct (sanitized_counter (field data "breakMinutes")) as [[E _] | [_ W]];
      [contradiction | exact W].
  - apply normalizeBreaks_durations.
Qed.

Lemma wholeNumber_whole x :
  isWholeNonNegative x -> exists z, 0 <= z /\ wholeNumber x = Some z.
Proof.
  intros [z [P ->]]. exists z. split; [exact P |].
  unfold wholeNumber, ofZ. rewrite Qfloor_Z.
  rewrite (proj2 (Qeq_bool_iff _ _) (Qeq_refl _)). reflexivity.
Qed.

Lemma engineBreaks_whole (l : list (BreakRecord number)) :
  (forall b, In b l -> isWholeNonNegative (durationMinutes b)) ->
  exists l', engineBreaks l = Some l'
             /\ forall b', In b' l' -> 0 <= durationMinutes b'.
Proof.
  induction l as [| b l IH]; intros W; cbn [engineBreaks].
  - exists []. split; [reflexivity | intros b' []].
  - destruct (wholeNumber_whole _ (W b (or_introl eq_refl))) as [d [P E]].
    destruct (IH (fun b0 I => W b0 (or_intror I))) as [l' [E' P']].
    unfold engineBreak. rewrite E, E'. eexists. split; [reflexivity |].
    intros b' [<- | I]; [exact P | apply P', I].
Qed.

(** A stored document without infinite counters is normalized to an entry
    the engine can compute with, whose counters are not negative. *)
Lemma normalizeTimeLog_engineEntry docId data clock :
  let e := normalizeTimeLog docId data clock in
  field data "totalMinutes" <> VNumber PosInfinity ->
  field data "breakMinutes" <> VNumber PosInfinity ->
  (forall b, In b (breaks e) -> durationMinutes b <> PosInfinity) ->
  exists e' : TimeLog Z,
    engineEntry e = Some e'
    /\ 0 <= totalMinutes e' /\ 0 <= breakMinutes e'
    /\ (forall b', In b' (breaks e') -> 0 <= durationMinutes b')
    /\ startTime e' = startTime e /\ endTime e' = endTime e
    /\ status e' = status e /\ breakStartedAt e' = breakStartedAt e.
Proof.
  intros e T B D.
  destruct (normalizeTimeLog_counters docId data clock) as [Wt [Wb Wd]].
  fold e in Wt, Wb, Wd.
  destruct (wholeNumber_whole _ (Wt T)) as [t [Pt Et]].
  destruct (wholeNumber_whole _ (Wb B)) as [b [Pb Eb]].
  destruct (engineBreaks_whole (breaks e)) as [l' [El Pl]].
  { intros b0 I. destruct (Wd b0 I) as [C | W]; [| exact W].
    exfalso. apply (D b0 I), C. }
  unfold engineEntry. rewrite Et, Eb, El. eexists. split; [reflexivity |].
  cbn [totalMinutes breakMinutes breaks startTime endTime status
       breakStartedAt].
  repeat split; assumption.
Qed.

(** C10, at the input where the code departs from it.  A stored document
    whose minute counters are positive infinity is normalized to an entry
    whose total minutes, break minutes and break duration are positive
    infinity, which is not a non-negative whole number; its start falls
    back to the current instant and its missing status to completed. *)
Theorem normalizeTimeLog_keeps_infinity (clock : Z) :
  let data :=
    [ ("totalMinutes", VNumber PosInfinity);
      ("breakMinutes", VNumber PosInfinity);
      ("breaks",
       VArray [ VObject [ ("startTime", VString "2024-03-04T12:00:00.000Z");
                          ("endTime", VString "2024-03-04T12:30:00.000Z");
                          ("durationMinutes", VNumber PosInfinity) ] ]) ] in
  let e := normalizeTimeLog "log-1" data clock in
  totalMinutes e = PosInfinity
  /\ breakMinutes e = PosInfinity
  /\ map durationMinutes (breaks e) = [PosInfinity]
  /\ ~ isWholeNonNegative (totalMinutes e)
  /\ ~ isWholeNonNegative (breakMinutes e)
  /\ startTime e = clock
  /\ status e = completed.
Proof.
  cbv zeta. repeat split; try reflexivity;
    apply isWholeNonNegative_infinity.
Qed.

End Normalize.
End NormalizeFacts.
Import NormalizeFacts.

(* ===================================================================== *)
(** * The calendar grid *)
(* ===================================================================== *)

Module CalendarFacts.

Lemma normal_month m : 0 <= m mod 12 <= 11.
Proof. Z.div_mod_to_equations. lia. Qed.

(** The first day of the next month comes after the days of the month. *)
Lemma MakeDay_next_month yr m :
  MakeDay yr (m + 1) 1
  = MakeDay yr m 1
    + (monthStart (InLeapYear (yr + m / 12)) (m mod 12 + 1)
       - monthStart (InLeapYear (yr + m / 12)) (m mod 12)).
Proof.
  unfold MakeDay.
  destruct (Z.eq_dec (m mod 12) 11) as [E | N].
  - assert (Q : (m + 1) / 12 = m / 12 + 1) by (Z.div_mod_to_equations; lia).
    assert (R : (m + 1) mod 12 = 0) by (Z.div_mod_to_equations; lia).
    rewrite Q, R, E, Z.add_assoc, DayFromYear_succ, DaysInYear_monthStart.
    change (11 + 1) with 12.
    change (monthStart (InLeapYear (yr + m / 12 + 1)) 0) with 0. lia.
  - assert (Q : (m + 1) / 12 = m / 12) by (Z.div_mod_to_equations; lia).
    assert (R : (m + 1) mod 12 = m mod 12 + 1)
      by (Z.div_mod_to_equations; lia).
    rewrite Q, R. lia.
Qed.

(** The fields of day [d] of a month, for [d] within the month. *)
Lemma fields_of_MakeDay yr m d :
  let leap := InLeapYear (yr + m / 12) in
  1 <= d <= monthStart leap (m mod 12 + 1) - monthStart leap (m mod 12) ->
  YearFromDay (MakeDay yr m d) = yr + m / 12
  /\ MonthFromDay (MakeDay yr m d) = m mod 12
  /\ DateFromDay (MakeDay yr m d) = d.
Proof.
  intros leap R.
  pose proof (fields_of_month_day (yr + m / 12) (m mod 12) (d - 1)
                (normal_month m) ltac:(fold leap; lia)) as F.
  cbv zeta in F.
  replace (DayFromYear (yr + m / 12)
           + monthStart (InLeapYear (yr + m / 12)) (m mod 12) + (d - 1))
    with (MakeDay yr m d) in F by (unfold MakeDay; lia).
  replace (d - 1 + 1) with d in F by lia. exact F.
Qed.

Section Grid.
Context {host : Host}.

Lemma LocalTime_newDate year m d :
  LocalTime (newDate year m d 0 0 0 0)
  = MakeDate (MakeDay (fullYear year) m d) 0.
Proof. unfold newDate. rewrite LocalTime_UTC. reflexivity. Qed.

Lemma localDay_newDate year m d :
  localDay (newDate year m d 0 0 0 0) = MakeDay (fullYear year) m d.
Proof.
  unfold localDay. rewrite LocalTime_newDate.
  apply Day_MakeDate. unfold msPerDay. lia.
Qed.

Lemma localTimeOfDay_newDate year m d :
  localTimeOfDay (newDate year m d 0 0 0 0) = 0.
Proof.
  unfold localTimeOfDay. rewrite LocalTime_newDate.
  apply TimeWithinDay_MakeDate. unfold msPerDay. lia.
Qed.

(** The number of days the grid builder finds is the length of the month. *)
Lemma daysInMonth_length year m :
  getDate (newDate year (m + 1) 0 0 0 0 0)
  = monthStart (InLeapYear (fullYear year + m / 12)) (m mod 12 + 1)
    - monthStart (InLeapYear (fullYear year + m / 12)) (m mod 12).
Proof.
  rewrite getDate_localDay, localDay_newDate.
  set (len := monthStart _ _ - monthStart _ _).
  pose proof (monthStart_length (InLeapYear (fullYear year + m / 12))
                (m mod 12) (normal_month m)) as L. fold len in L.
  replace (MakeDay (fullYear year) (m + 1) 0)
    with (MakeDay (fullYear year) m len).
  - apply fields_of_MakeDay. fold len. lia.
  - pose proof (MakeDay_next_month (fullYear year) m) as N. fold len in N.
    unfold MakeDay in *. lia.
Qed.

Lemma fields_of_cell_date year m d :
  1 <= d <= getDate (newDate year (m + 1) 0 0 0 0 0) ->
  let date := newDate year m d 0 0 0 0 in
  getDate date = d
  /\ getMonth date = m mod 12
  /\ getFullYear date = fullYear year + m / 12
  /\ localTimeOfDay date = 0.
Proof.
  rewrite daysInMonth_length. intros R date.
  rewrite getDate_localDay, getMonth_localDay, getFullYear_localDay.
  unfold date. rewrite localDay_newDate.
  destruct (fields_of_MakeDay (fullYear year) m d R) as [Y [M D]].
  rewrite Y, M, D, localTimeOfDay_newDate. repeat split; reflexivity.
Qed.

Lemma ceilDiv_7_bounds a :
  a <= ceilDiv a 7 * 7 < a + 7.
Proof. unfold ceilDiv. Z.div_mod_to_equations. lia. Qed.

Lemma nth_error_cells (f : Z -> CalendarCell) (n i : nat) :
  (i < n)%nat ->
  nth_error (map (fun index => f (Z.of_nat index)) (seq 0 n)) i
  = Some (f (Z.of_nat i)).
Proof.
  intros L. rewrite nth_error_map, nth_error_seq.
  destruct (Nat.ltb_spec i n); [reflexivity | lia].
Qed.

End Grid.

Lemma digitValue_bounds c : isDigit c = true -> 0 <= digitValue c <= 9.
Proof.
  unfold isDigit, digitValue. intros D.
  apply andb_true_iff in D as [L U].
  apply Nat.leb_le in L. apply Nat.leb_le in U. lia.
Qed.

(** A month value that parses gives a year of four digits and a month
    index from 0 to 11. *)
Lemma parseMonthInputValue_range value year monthIndex :
  parseMonthInputValue value = Some (year, monthIndex) ->
  0 <= year <= 9999 /\ 0 <= monthIndex <= 11.
Proof.
  destruct value as [| y1 [| y2 [| y3 [| y4 [| dash [| m1 [| m2 [| ? ?]]]]]]]];
    try discriminate.
  cbn [parseMonthInputValue].
  destruct (isDigit y1) eqn:D1; [| discriminate].
  destruct (isDigit y2) eqn:D2; [| discriminate].
  destruct (isDigit y3) eqn:D3; [| discriminate].
  destruct (isDigit y4) eqn:D4; [| discriminate].
  destruct (Ascii.eqb dash "-"); [| discriminate].
  destruct (isDigit m1) eqn:D5; [| discriminate].
  destruct (isDigit m2) eqn:D6; [| discriminate].
  cbn [andb].
  apply digitValue_bounds in D1, D2, D3, D4.
  destruct (Z.ltb_spec (10 * digitValue m1 + digitValue m2) 1);
    [discriminate |].
  destruct (Z.ltb_spec 12 (10 * digitValue m1 + digitValue m2));
    [discriminate |].
  cbn [orb]. intros E. injection E as <- <-. lia.
Qed.

Section GridTheorem.
Context {host : Host}.

(** The year and month index the grid builder works with. *)
Lemma resolved_month_range monthValue fallback :
  let parsed := parseMonthInputValue monthValue in
  let monthIndex := match parsed with
                    | Some (_, m) => m
                    | None => getMonth fallback
                    end in
  0 <= monthIndex <= 11.
Proof.
  cbv zeta. destruct (parseMonthInputValue monthValue) as [[y m] |] eqn:P.
  - apply (parseMonthInputValue_range _ _ _ P).
  - rewrite getMonth_localDay. apply MonthFromDay_spec.
Qed.

(** C9.  The grid of a month has [ceil((offset + daysInMonth) / 7) * 7]
    cells, where [offset] is the weekday of the first of the month counted
    from Monday, [(getDay + 6) mod 7]: first [offset] empty cells, then one
    cell for each day of the month, holding the local midnight of that day,
    with days of the month 1, 2, ... up to the number of days, then empty
    cells to the end of the last row. *)
Theorem buildCalendarCells_grid (monthValue : string) (fallback : Z) :
  let parsed := parseMonthInputValue monthValue in
  let year := match parsed with
              | Some (y, _) => y
              | None => getFullYear fallback
              end in
  let monthIndex := match parsed with
                    | Some (_, m) => m
                    | None => getMonth fallback
                    end in
  let offset := (getDay (newDate year monthIndex 1 0 0 0 0) + 6) mod 7 in
  let daysInMonth := getDate (newDate year (monthIndex + 1) 0 0 0 0 0) in
  let cells := buildCalendarCells monthValue fallback in
  0 <= offset <= 6
  /\ 28 <= daysInMonth <= 31
  /\ Z.of_nat (length cells) = ceilDiv (offset + daysInMonth) 7 * 7
  /\ (forall i, 0 <= i < offset ->
      exists cell, nth_error cells (Z.to_nat i) = Some cell
                   /\ cell_date cell = None)
  /\ (forall day, 1 <= day <= daysInMonth ->
      exists cell date,
        nth_error cells (Z.to_nat (offset + day - 1)) = Some cell
        /\ cell_date cell = Some date
        /\ getDate date = day
        /\ getMonth date = monthIndex
        /\ getFullYear date = fullYear year
        /\ localTimeOfDay date = 0)
  /\ (forall i, offset + daysInMonth <= i < Z.of_nat (length cells) ->
      exists cell, nth_error cells (Z.to_nat i) = Some cell
                   /\ cell_date cell = None)
  /\ Z.of_nat (length cells) - (offset + daysInMonth) < 7.
Proof.
  intros parsed year monthIndex offset daysInMonth cells.
  pose proof (resolved_month_range monthValue fallback) as M.
  cbv zeta in M. fold parsed in M. fold monthIndex in M.
  assert (O : 0 <= offset <= 6) by (unfold offset; Z.div_mod_to_equations; lia).
  assert (L : 28 <= daysInMonth <= 31).
  { unfold daysInMonth. rewrite daysInMonth_length.
    apply monthStart_length, normal_month. }
  pose proof (ceilDiv_7_bounds (offset + daysInMonth)) as B.
  assert (Len : Z.of_nat (length cells)
                = ceilDiv (offset + daysInMonth) 7 * 7).
  { unfold cells, buildCalendarCells. fold parsed year monthIndex.
    fold offset daysInMonth. rewrite length_map, length_seq. lia. }
  assert (Nth : forall i, 0 <= i < Z.of_nat (length cells) ->
            nth_error cells (Z.to_nat i)
            = Some (calendarCell monthValue year monthIndex offset
                      daysInMonth i)).
  { intros i R. unfold cells, buildCalendarCells.
    fold parsed year monthIndex. fold offset daysInMonth.
    rewrite (nth_error_cells (calendarCell monthValue year monthIndex offset
                                daysInMonth)) by lia.
    rewrite Z2Nat.id by lia. reflexivity. }
  split; [exact O |]. split; [exact L |]. split; [exact Len |].
  split; [| split; [| split]].
  - intros i R. eexists. split; [apply Nth; lia |].
    unfold calendarCell.
    destruct (Z.ltb_spec (i - offset + 1) 1); [reflexivity | lia].
  - intros day R. eexists. eexists. split; [apply Nth; lia |].
    unfold calendarCell.
    replace (offset + day - 1 - offset + 1) with day by lia.
    destruct (Z.ltb_spec day 1); [lia |].
    destruct (Z.ltb_spec daysInMonth day); [lia |].
    cbn [orb cell_date]. split; [reflexivity |].
    destruct (fields_of_cell_date year monthIndex day R) as [D [Mo [Y T]]].
    rewrite Z.mod_small in Mo by lia. rewrite Z.div_small in Y by lia.
    rewrite D, Mo, Y, T. repeat split; lia.
  - intros i R. eexists. split; [apply Nth; lia |].
    unfold calendarCell.
    destruct (Z.ltb_spec (i - offset + 1) 1); [reflexivity |].
    destruct (Z.ltb_spec daysInMonth (i - offset + 1)); [reflexivity | lia].
  - lia.
Qed.

End GridTheorem.
End CalendarFacts.
Import CalendarFacts.

(* ===================================================================== *)
(** * Facts about maps and sorting *)
(* ===================================================================== *)

Module CollectionFacts.

Section JsMap.
Context {V : Type}.
Implicit Types (m : list (string * V)) (k : string) (v : V).

Lemma Map_get_In m k v : Map_get m k = Some v -> In (k, v) m.
Proof.
  induction m as [| [k' v'] m IH]; cbn [Map_get]; [discriminate |].
  destruct (String.eqb_spec k' k) as [-> | N].
  - intros E. injection E as ->. left. reflexivity.
  - intros E. right. apply IH, E.
Qed.

Lemma Map_get_None m k : Map_get m k = None <-> ~ In k (map fst m).
Proof.
  induction m as [| [k' v'] m IH]; cbn [Map_get map fst In].
  - split; [intros _ [] | reflexivity].
  - destruct (String.eqb_spec k' k) as [-> | N].
    + split; [discriminate | intros C; exfalso; apply C; left; reflexivity].
    + rewrite IH. split; [intros C [E | I]; [congruence | contradiction]
                         | intros C I; apply C; right; exact I].
Qed.

Lemma Map_has_true m k : Map_has m k = true <-> In k (map fst m).
Proof.
  unfold Map_has. destruct (Map_get m k) eqn:E.
  - split; [intros _ | reflexivity].
    apply Map_get_In in E. apply (in_map fst) in E. exact E.
  - split; [discriminate |]. intros I. apply Map_get_None in E. contradiction.
Qed.

Lemma Map_get_NoDup m k v :
  List.NoDup (map fst m) -> In (k, v) m -> Map_get m k = Some v.
Proof.
  induction m as [| [k' v'] m IH]; cbn [Map_get map fst In]; [intros _ [] |].
  intros D I. apply List.NoDup_cons_iff in D as [F D].
  destruct (String.eqb_spec k' k) as [-> | N].
  - destruct I as [E | I]; [congruence |].
    exfalso. apply F. apply (in_map fst) in I. exact I.
  - destruct I as [E | I]; [congruence |]. apply IH; assumption.
Qed.

(** Setting a key keeps the keys and their order, or adds the key last. *)
Lemma Map_set_keys m k v :
  map fst (Map_set m k v)
  = if Map_has m k then map fst m else map fst m ++ [k].
Proof.
  unfold Map_has.
  induction m as [| [k' v'] m IH]; cbn [Map_set Map_get map fst app];
    [reflexivity |].
  destruct (String.eqb_spec k' k) as [-> | N]; [reflexivity |].
  cbn [map fst]. rewrite IH. destruct (Map_get m k); reflexivity.
Qed.

Lemma Map_set_NoDup m k v : List.NoDup (map fst m) -> List.NoDup (map fst (Map_set m k v)).
Proof.
  intros D. rewrite Map_set_keys. destruct (Map_has m k) eqn:H; [exact D |].
  apply List.NoDup_app; [exact D | |].
  - apply List.NoDup_cons; [intros [] | apply List.NoDup_nil].
  - intros x I [E | []]. subst x.
    apply Map_has_true in I. congruence.
Qed.

Lemma Map_set_In m k v : In (k, v) (Map_set m k v).
Proof.
  induction m as [| [k' v'] m IH]; cbn [Map_set]; [left; reflexivity |].
  destruct (String.eqb_spec k' k) as [-> | N];
    [left; reflexivity | right; exact IH].
Qed.

Lemma Map_set_In_other m k v k' v' :
  k' <> k -> In (k', v') m -> In (k', v') (Map_set m k v).
Proof.
  intros N. induction m as [| [k0 v0] m IH]; cbn [Map_set In]; [intros [] |].
  destruct (String.eqb_spec k0 k) as [-> | N0].
  - intros [E | I]; [injection E as E1 E2; congruence | right; exact I].
  - intros [E | I]; [left; exact E | right; apply IH, I].
Qed.

Lemma Map_set_inv m k v k' v' :
  In (k', v') (Map_set m k v) -> (k', v') = (k, v) \/ (k' <> k /\ In (k', v') m)
                                 \/ (k' = k /\ In (k', v') m).
Proof.
  induction m as [| [k0 v0] m IH]; cbn [Map_set In].
  - intros [E | []]. left. symmetry. exact E.
  - destruct (String.eqb_spec k0 k) as [-> | N0].
    + intros [E | I]; [left; symmetry; exact E |].
      destruct (String.eq_dec k' k) as [-> | N];
        [right; right | right; left];
        (split; [first [reflexivity | assumption] | right; exact I]).
    + intros [E | I].
      * injection E as <- <-. right; left. split; [exact N0 | left; reflexivity].
      * destruct (IH I) as [E | [[N I'] | [E I']]].
        -- left; exact E.
        -- right; left. split; [exact N | right; exact I'].
        -- right; right. split; [exact E | right; exact I'].
Qed.

(** With distinct keys, the entries after a [set] are the new one and the
    old ones under the other keys. *)
Lemma Map_set_inv_NoDup m k v k' v' :
  List.NoDup (map fst m) ->
  In (k', v') (Map_set m k v) ->
  (k' = k /\ v' = v) \/ (k' <> k /\ In (k', v') m).
Proof.
  intros D I.
  pose proof (Map_set_NoDup m k v D) as D'.
  destruct (String.eq_dec k' k) as [-> | N].
  - left. split; [reflexivity |].
    pose proof (Map_get_NoDup _ _ _ D' I) as G1.
    pose proof (Map_get_NoDup _ _ _ D' (Map_set_In m k v)) as G2.
    congruence.
  - right. split; [exact N |].
    destruct (Map_set_inv _ _ _ _ _ I) as [E | [[_ I'] | [E _]]];
      [congruence | exact I' | contradiction].
Qed.

End JsMap.

Section Sort.
Context {A : Type} (key : A -> Z).

Lemma insertSorted_Permutation x l :
  Permutation (insertSorted key x l) (x :: l).
Proof.
  induction l as [| y l IH]; cbn [insertSorted]; [reflexivity |].
  destruct (key x <=? key y); [reflexivity |].
  rewrite IH. apply perm_swap.
Qed.

Lemma sortBy_Permutation l : Permutation (sortBy key l) l.
Proof.
  induction l as [| x l IH]; cbn [sortBy fold_right]; [reflexivity |].
  rewrite insertSorted_Permutation. apply perm_skip, IH.
Qed.

Lemma sortBy_In l x : In x (sortBy key l) <-> In x l.
Proof.
  split; apply Permutation_in;
    [| symmetry]; apply sortBy_Permutation.
Qed.

End Sort.

End CollectionFacts.
Import CollectionFacts.

(* ===================================================================== *)
(** * Work weeks *)
(* ===================================================================== *)

Module WeekFacts.

Section Weeks.
Context {host : Host}.

Lemma local_midnight_eq a b :
  toDayKey a = toDayKey b ->
  localTimeOfDay a = 0 -> localTimeOfDay b = 0 -> a = b.
Proof.
  intros K A B. apply toDayKey_eq_iff in K.
  rewrite (instant_of_local a), (instant_of_local b). lia.
Qed.

(** The start of the work week: a Monday, at local midnight, at most six
    days before the day of the instant, and six days before a Sunday. *)
Lemma getWorkWeekStartMonday_spec t :
  let monday := getWorkWeekStartMonday t in
  getDay monday = 1
  /\ localTimeOfDay monday = 0
  /\ localDay monday <= localDay t <= localDay monday + 6
  /\ (getDay t = 0 -> localDay monday = localDay t - 6).
Proof.
  cbv zeta. rewrite !getDay_localDay, getWorkWeekStartMonday_localDay,
    getWorkWeekStartMonday_timeOfDay.
  repeat split; try (Z.div_mod_to_equations; lia).
Qed.

Lemma getWorkWeekEndSaturday_spec s :
  getDay s = 1 ->
  let saturday := getWorkWeekEndSaturday s in
  getDay saturday = 6
  /\ localDay saturday = localDay s + 5
  /\ localTimeOfDay saturday = MakeTime 23 59 59 999.
Proof.
  cbv zeta. rewrite !getDay_localDay, getWorkWeekEndSaturday_localDay,
    getWorkWeekEndSaturday_timeOfDay.
  intros M. repeat split; try reflexivity. Z.div_mod_to_equations. lia.
Qed.

(** One step of the grouping keeps the groups well formed, keeps every
    entry grouped so far in its group, and puts the entry in the group of
    its week. *)
Lemma addToWeek_ok now gs log :
  weekGroupsOk gs ->
  weekGroupsOk (addToWeek now gs log)
  /\ (exists g,
        In (toDayKey (getWorkWeekStartMonday (startTime log)), g)
           (addToWeek now gs log)
        /\ In log (week_logs g))
  /\ (forall k g l, In (k, g) gs -> In l (week_logs g) ->
      exists g', In (k, g') (addToWeek now gs log) /\ In l (week_logs g')).
Proof.
  intros [D W]. unfold addToWeek.
  set (monday := getWorkWeekStartMonday (startTime log)).
  set (weekKey := toDayKey monday).
  set (group := match Map_get gs weekKey with
                | Some g => g
                | None => _
                end).
  set (group' := mkWorkWeekGroup _ _ _ _ _).
  assert (G : week_key group = weekKey /\ weekGroupOk group
              /\ week_startDate group = monday).
  { unfold group. destruct (Map_get gs weekKey) as [g |] eqn:E.
    - apply Map_get_In in E. destruct (W _ _ E) as [K O].
      split; [congruence |]. split; [exact O |].
      destruct O as [K' [T _]]. symmetry.
      apply local_midnight_eq;
        [unfold weekKey in K; congruence
        | apply getWorkWeekStartMonday_timeOfDay | exact T].
    - unfold weekGroupOk.
      cbn [week_key week_startDate week_endDate week_logs].
      split; [reflexivity |]. split; [| reflexivity].
      split; [reflexivity |].
      split; [apply getWorkWeekStartMonday_timeOfDay |].
      split; [reflexivity | intros l []]. }
  destruct G as [K [[K1 [T [S L]]] M]].
  assert (O' : weekGroupOk group').
  { unfold group'. split; [exact K1 |]. split; [exact T |].
    split; [exact S |]. cbn [week_logs week_startDate]. intros l I.
    apply in_app_or in I as [I | [<- | []]];
      [apply L, I | symmetry; exact M]. }
  split; [| split].
  - split; [apply Map_set_NoDup, D |].
    intros k g I.
    destruct (Map_set_inv_NoDup _ _ _ _ _ D I) as [[-> ->] | [_ I']].
    + split; [symmetry; exact K | exact O'].
    + apply W, I'.
  - exists group'. split; [apply Map_set_In |].
    unfold group'. cbn [week_logs]. apply in_or_app. right. left. reflexivity.
  - intros k g l I Il.
    destruct (String.eq_dec k weekKey) as [-> | N].
    + exists group'. split; [apply Map_set_In |].
      unfold group'. cbn [week_logs]. apply in_or_app. left.
      pose proof (Map_get_NoDup _ _ _ D I) as E.
      unfold group. rewrite E. exact Il.
    + exists g. split; [apply Map_set_In_other; assumption | exact Il].
Qed.

Lemma fold_addToWeek_ok now logs gs :
  weekGroupsOk gs ->
  let gs' := fold_left (addToWeek now) logs gs in
  weekGroupsOk gs'
  /\ (forall l, In l logs ->
      exists g, In (toDayKey (getWorkWeekStartMonday (startTime l)), g) gs'
                /\ In l (week_logs g))
  /\ (forall k g l, In (k, g) gs -> In l (week_logs g) ->
      exists g', In (k, g') gs' /\ In l (week_logs g')).
Proof.
  revert gs. induction logs as [| log logs IH]; intros gs O; cbn [fold_left].
  - split; [exact O |]. split; [intros l [] |].
    intros k g l I Il. exists g. split; assumption.
  - destruct (addToWeek_ok now gs log O) as [O1 [[g1 [I1 L1]] P1]].
    destruct (IH _ O1) as [O2 [A2 P2]].
    split; [exact O2 |]. split.
    + intros l [<- | I]; [apply (P2 _ _ _ I1 L1) | apply A2, I].
    + intros k g l I Il.
      destruct (P1 _ _ _ I Il) as [g' [I' Il']].
      apply (P2 _ _ _ I' Il').
Qed.

End Weeks.

Section Grouping.
Context {host : Host}.

Lemma group_keys (gs : list (string * WorkWeekGroup)) :
  (forall k g, In (k, g) gs -> k = week_key g) ->
  map week_key (map snd gs) = map fst gs.
Proof.
  induction gs as [| [k g] gs IH]; intros K; cbn [map fst snd];
    [reflexivity |].
  rewrite IH by (intros k' g' I; apply K; right; exact I).
  rewrite <- (K k g) by (left; reflexivity). reflexivity.
Qed.

(** The groups built from a list of entries, before the final sort. *)
Lemma grouped_ok logs now :
  let gs := fold_left (addToWeek now)
              (sortBy (fun log => getTime (startTime log)) logs) [] in
  weekGroupsOk gs
  /\ forall l, In l logs ->
       exists g, In (toDayKey (getWorkWeekStartMonday (startTime l)), g) gs
                 /\ In l (week_logs g).
Proof.
  cbv zeta.
  assert (O : weekGroupsOk []).
  { split; [apply List.NoDup_nil | intros k g []]. }
  destruct (fold_addToWeek_ok now
              (sortBy (fun log => getTime (startTime log)) logs) [] O)
    as [O' [A _]].
  split; [exact O' |]. intros l I. apply A. apply sortBy_In, I.
Qed.

(** C5.  The week of an entry starts on the Monday, at local midnight, on
    or before the day of its start, six days before a start on Sunday.  The
    grouping puts every entry in the group keyed by the day of that Monday,
    which starts at that midnight and ends on the Saturday five days later
    at 23:59:59.999, and in no group of another key.  An entry starting on
    Sunday 2024-03-10 is in the group keyed 2024-03-04, which ends on
    2024-03-09 at 23:59:59.999. *)
Theorem groupLogsByWorkWeek_bucket (logs : list (TimeLog Z)) (now : Z)
  (log : TimeLog Z) :
  In log logs ->
  let monday := getWorkWeekStartMonday (startTime log) in
  let groups := groupLogsByWorkWeek logs now in
  getDay monday = 1
  /\ localTimeOfDay monday = 0
  /\ localDay monday <= localDay (startTime log) <= localDay monday + 6
  /\ (getDay (startTime log) = 0 ->
      localDay monday = localDay (startTime log) - 6)
  /\ (exists group,
        In group groups
        /\ week_key group = toDayKey monday
        /\ week_startDate group = monday
        /\ getDay (week_endDate group) = 6
        /\ localDay (week_endDate group) = localDay monday + 5
        /\ localTimeOfDay (week_endDate group) = MakeTime 23 59 59 999
        /\ In log (week_logs group)
        /\ (toDayKey (startTime log) = "2024-03-10" ->
            getDay (startTime log) = 0
            /\ week_key group = "2024-03-04"
            /\ toDayKey (week_endDate group) = "2024-03-09"))
  /\ (forall group, In group groups -> In log (week_logs group) ->
      week_key group = toDayKey monday)
  /\ List.NoDup (map week_key groups).
Proof.
  intros I monday groups.
  destruct (getWorkWeekStartMonday_spec (startTime log)) as [Mo [T [R S]]].
  fold monday in Mo, T, R, S.
  destruct (grouped_ok logs now) as [[D W] A]. cbv zeta in A.
  set (gs := fold_left (addToWeek now)
               (sortBy (fun log => getTime (startTime log)) logs) []) in *.
  assert (G : forall g, In g groups <-> In g (map snd gs)).
  { intros g. unfold groups, groupLogsByWorkWeek. fold gs. apply sortBy_In. }
  split; [exact Mo |]. split; [exact T |]. split; [exact R |].
  split; [exact S |]. split; [| split].
  - destruct (A log I) as [g [Ig Il]]. fold monday in Ig.
    destruct (W _ _ Ig) as [K [K1 [T1 [E L]]]].
    assert (St : week_startDate g = monday) by (symmetry; apply L, Il).
    destruct (getWorkWeekEndSaturday_spec monday Mo) as [Sa [Sd St']].
    exists g. split; [apply G, (in_map snd _ _ Ig) |].
    split; [symmetry; exact K |]. split; [exact St |].
    rewrite E, St. split; [exact Sa |]. split; [exact Sd |].
    split; [exact St' |]. split; [exact Il |].
    intros Su.
    assert (Dy : localDay (startTime log) = 19792).
    { apply dayKeyOfDay_inj. rewrite <- toDayKey_localDay, Su.
      vm_compute. reflexivity. }
    assert (Dm : localDay monday = 19786).
    { unfold monday. rewrite getWorkWeekStartMonday_localDay, Dy.
      reflexivity. }
    split; [rewrite getDay_localDay, Dy; reflexivity |].
    split.
    + rewrite <- K, toDayKey_localDay, Dm. vm_compute. reflexivity.
    + rewrite toDayKey_localDay, Sd, Dm. vm_compute. reflexivity.
  - intros g Ig Il. apply G in Ig. apply in_map_iff in Ig as [[k g'] [E Ig]].
    cbn [snd] in E. subst g'.
    destruct (W _ _ Ig) as [K [K1 [T1 [E L]]]].
    rewrite K1. unfold monday. rewrite (L _ Il). reflexivity.
  - apply (Permutation_NoDup (l := map week_key (map snd gs))).
    + apply Permutation_map. symmetry. apply sortBy_Permutation.
    + rewrite group_keys by (intros k g Ig; apply (W _ _ Ig)). exact D.
Qed.

End Grouping.
End WeekFacts.
Import WeekFacts.

(* ===================================================================== *)
(** * The last-days report *)
(* ===================================================================== *)

Module ReportFacts.

Lemma sumZ_nil : sumZ [] = 0.
Proof. reflexivity. Qed.

Lemma sumZ_cons x l : sumZ (x :: l) = x + sumZ l.
Proof. reflexivity. Qed.

Section MapSums.
Implicit Types (m : list (string * Z)) (k : string).

Lemma Map_set_fresh {V : Type} (m : list (string * V)) k (v : V) :
  Map_has m k = false -> Map_set m k v = m ++ [(k, v)].
Proof.
  unfold Map_has.
  induction m as [| [k' v'] m IH]; cbn [Map_get Map_set app];
    [reflexivity |].
  destruct (String.eqb_spec k' k) as [-> | N]; [discriminate |].
  intros H. rewrite IH by exact H. reflexivity.
Qed.

Lemma Map_get_set {V : Type} (m : list (string * V)) k (v : V) k' :
  Map_get (Map_set m k v) k'
  = if String.eqb k k' then Some v else Map_get m k'.
Proof.
  induction m as [| [k0 v0] m IH]; cbn [Map_get Map_set].
  - reflexivity.
  - destruct (String.eqb_spec k0 k) as [-> | N]; cbn [Map_get].
    + destruct (String.eqb k k'); reflexivity.
    + rewrite IH. destruct (String.eqb_spec k0 k') as [-> | N'];
        [| reflexivity].
      destruct (String.eqb_spec k k'); [congruence | reflexivity].
Qed.

Lemma Map_set_sum m k v c :
  Map_get m k = Some c ->
  sumZ (map snd (Map_set m k v)) = sumZ (map snd m) - c + v.
Proof.
  induction m as [| [k' v'] m IH]; cbn [Map_get Map_set]; [discriminate |].
  destruct (String.eqb_spec k' k) as [-> | N].
  - intros E. injection E as ->. cbn [map snd]. rewrite !sumZ_cons. lia.
  - intros E. cbn [map snd]. rewrite !sumZ_cons, (IH E). lia.
Qed.

End MapSums.

Section Report.
Context {host : Host}.

(** The key seeded for an offset is the key of the day that many days
    before the day of [now]. *)
Lemma seeded_key now offset :
  toDayKey (setDate now (getDate now - offset))
  = dayKeyOfDay (localDay now - offset).
Proof.
  rewrite toDayKey_localDay, localDay_setDate. f_equal. lia.
Qed.

Lemma seedDays_spec now k m :
  (forall key, In key (map fst m) ->
     exists j, (k <= j)%nat
               /\ key = dayKeyOfDay (localDay now - Z.of_nat j)) ->
  seedDays now k m
  = m ++ map (fun i => (dayKeyOfDay (localDay now - Z.of_nat i), 0))
             (rev (seq 0 k)).
Proof.
  revert m. induction k as [| k IH]; intros m F; cbn [seedDays].
  - cbn. rewrite app_nil_r. reflexivity.
  - rewrite seeded_key.
    assert (Fr : Map_has m (dayKeyOfDay (localDay now - Z.of_nat k)) = false).
    { destruct (Map_has m _) eqn:H; [| reflexivity].
      apply Map_has_true in H. destruct (F _ H) as [j [L E]].
      apply dayKeyOfDay_inj in E. lia. }
    rewrite (Map_set_fresh _ _ _ Fr).
    rewrite IH.
    + rewrite seq_S, rev_app_distr. cbn [rev app map Nat.add].
      rewrite <- app_assoc. reflexivity.
    + intros key I. rewrite map_app in I.
      apply in_app_or in I as [I | [<- | []]].
      * destruct (F _ I) as [j [L E]]. exists j. split; [lia | exact E].
      * exists k. split; [lia | reflexivity].
Qed.

(** The days of the window, oldest first. *)
Lemma seeded_window now k :
  seedDays now k []
  = map (fun i => (dayKeyOfDay (localDay now - Z.of_nat i), 0))
        (rev (seq 0 k)).
Proof. rewrite seedDays_spec; [reflexivity | intros key []]. Qed.

Lemma seeded_In now k key :
  In key (map fst (seedDays now k []))
  <-> exists i, (i < k)%nat /\ key = dayKeyOfDay (localDay now - Z.of_nat i).
Proof.
  rewrite seeded_window, map_map. cbn [fst]. rewrite in_map_iff.
  split.
  - intros [i [E I]]. apply in_rev in I. apply in_seq in I.
    exists i. split; [lia | symmetry; exact E].
  - intros [i [L E]]. exists i. split; [symmetry; exact E |].
    apply in_rev. rewrite rev_involutive. apply in_seq. lia.
Qed.

Lemma seeded_NoDup now k : List.NoDup (map fst (seedDays now k [])).
Proof.
  rewrite seeded_window, map_map. cbn [fst].
  apply Finite.Injective_map_NoDup_in.
  - intros i j _ _ E. apply dayKeyOfDay_inj in E. lia.
  - apply List.NoDup_rev, List.seq_NoDup.
Qed.

Lemma addLogMinutes_keys now m log :
  map fst (addLogMinutes now m log) = map fst m.
Proof.
  unfold addLogMinutes.
  destruct (Map_has m (toDayKey (startTime log))) eqn:H; cbn [negb];
    [| reflexivity].
  rewrite Map_set_keys, H. reflexivity.
Qed.

Lemma fold_addLogMinutes_keys now logs m :
  map fst (fold_left (addLogMinutes now) logs m) = map fst m.
Proof.
  revert m. induction logs as [| log logs IH]; intros m; cbn [fold_left];
    [reflexivity |].
  rewrite IH. apply addLogMinutes_keys.
Qed.

Lemma Map_has_keys {V : Type} (m m' : list (string * V)) k :
  map fst m = map fst m' -> Map_has m k = Map_has m' k.
Proof.
  intros E. destruct (Map_has m k) eqn:H, (Map_has m' k) eqn:H';
    try reflexivity.
  - apply Map_has_true in H. rewrite E in H. apply Map_has_true in H.
    congruence.
  - apply Map_has_true in H'. rewrite <- E in H'. apply Map_has_true in H'.
    congruence.
Qed.

(** The minutes under a key after the second loop: the minutes before, plus
    the minutes of the entries that start on the day of the key. *)
Lemma fold_addLogMinutes_get now logs m key :
  Map_get (fold_left (addLogMinutes now) logs m) key
  = match Map_get m key with
    | Some c =>
        Some (c + sumZ (map (fun log => getLogMinutes log now)
                          (List.filter (fun log =>
                                     String.eqb (toDayKey (startTime log)) key)
                                  logs)))
    | None => None
    end.
Proof.
  revert m. induction logs as [| log logs IH]; intros m;
    cbn [fold_left List.filter map].
  - rewrite sumZ_nil. destruct (Map_get m key); [f_equal; lia | reflexivity].
  - rewrite IH. unfold addLogMinutes.
    destruct (Map_has m (toDayKey (startTime log))) eqn:H; cbn [negb].
    + rewrite Map_get_set.
      destruct (String.eqb_spec (toDayKey (startTime log)) key) as [<- | N].
      * unfold Map_has in H.
        destruct (Map_get m (toDayKey (startTime log))); [| discriminate].
        cbn [map]. rewrite sumZ_cons. f_equal. lia.
      * destruct (Map_get m key); reflexivity.
    + destruct (String.eqb_spec (toDayKey (startTime log)) key) as [<- | N].
      * unfold Map_has in H.
        destruct (Map_get m (toDayKey (startTime log))); [discriminate |].
        reflexivity.
      * reflexivity.
Qed.

Lemma fold_addLogMinutes_sum now logs m :
  sumZ (map snd (fold_left (addLogMinutes now) logs m))
  = sumZ (map snd m)
    + sumZ (map (fun log => getLogMinutes log now)
              (List.filter (fun log => Map_has m (toDayKey (startTime log))) logs)).
Proof.
  revert m. induction logs as [| log logs IH]; intros m;
    cbn [fold_left List.filter map]; [rewrite sumZ_nil; lia |].
  rewrite IH.
  rewrite (List.filter_ext
             (fun log0 => Map_has (addLogMinutes now m log)
                            (toDayKey (startTime log0)))
             (fun log0 => Map_has m (toDayKey (startTime log0))))
    by (intros a; apply Map_has_keys, addLogMinutes_keys).
  unfold addLogMinutes at 1.
  destruct (Map_has m (toDayKey (startTime log))) eqn:H; cbn [negb].
  - unfold Map_has in H.
    destruct (Map_get m (toDayKey (startTime log))) as [c |] eqn:G;
      [| discriminate].
    rewrite (Map_set_sum _ _ _ _ G). cbn [map]. rewrite sumZ_cons. lia.
  - lia.
Qed.

Lemma seeded_sum now k : sumZ (map snd (seedDays now k [])) = 0.
Proof.
  rewrite seeded_window, map_map. cbn [snd].
  induction (rev (seq 0 k)) as [| i l IH]; cbn [map]; [reflexivity |].
  rewrite sumZ_cons, IH. reflexivity.
Qed.

(** An entry is counted when it starts on a day of the window. *)
Lemma seeded_has now k log :
  Map_has (seedDays now k []) (toDayKey (startTime log))
  = startsInWindow now (Z.of_nat k) log.
Proof.
  unfold startsInWindow.
  destruct (Map_has _ _) eqn:H.
  - apply Map_has_true, seeded_In in H as [i [L E]].
    rewrite toDayKey_localDay in E. apply dayKeyOfDay_inj in E.
    symmetry. apply andb_true_iff. split; apply Z.leb_le; lia.
  - symmetry. apply not_true_is_false. intros C.
    apply andb_true_iff in C as [A B].
    apply Z.leb_le in A. apply Z.leb_le in B.
    assert (T : Map_has (seedDays now k []) (toDayKey (startTime log)) = true).
    { apply Map_has_true, seeded_In.
      exists (Z.to_nat (localDay now - localDay (startTime log))).
      split; [lia |]. rewrite toDayKey_localDay. f_equal. lia. }
    congruence.
Qed.

End Report.

Lemma rev_seq k :
  rev (seq 0 k) = map (fun j => (k - 1 - j)%nat) (seq 0 k).
Proof.
  induction k as [| k IH]; [reflexivity |].
  rewrite seq_S at 1. rewrite rev_app_distr. cbn [rev app Nat.add].
  cbn [seq map]. f_equal; [lia |].
  rewrite IH, <- seq_shift, map_map. apply map_ext. intros j. lia.
Qed.

Lemma nth_error_rev_seq k i :
  (i < k)%nat -> nth_error (rev (seq 0 k)) i = Some (k - 1 - i)%nat.
Proof.
  intros L. rewrite rev_seq, nth_error_map, nth_error_seq.
  destruct (Nat.ltb_spec i k); [reflexivity | lia].
Qed.

Section ReportTheorem.
Context {host : Host}.

Lemma sum_minutes_nonneg now (logs : list (TimeLog Z)) :
  0 <= sumZ (map (fun log => getLogMinutes log now) logs).
Proof.
  induction logs as [| log logs IH]; cbn [map];
    [rewrite sumZ_nil; lia |].
  rewrite sumZ_cons. pose proof (getLogMinutes_nonneg log now). lia.
Qed.

Lemma key_eqb_localDay t d :
  String.eqb (toDayKey t) (dayKeyOfDay d) = (localDay t =? d).
Proof.
  rewrite toDayKey_localDay.
  destruct (String.eqb_spec (dayKeyOfDay (localDay t)) (dayKeyOfDay d))
    as [E | N]; destruct (Z.eqb_spec (localDay t) d) as [E' | N'];
    try reflexivity.
  - apply dayKeyOfDay_inj in E. contradiction.
  - rewrite E' in N. contradiction.
Qed.

(** C6.  For [days] at least 1 the report has [days] points, one for each
    local day of the window that ends with the day of [now], the oldest
    first; the point of a day carries the display minutes of the entries
    that start on that day, 0 when there is none, with hours the minutes
    divided by 60 and earnings the hours times the hourly rate; the minutes
    of the points add up to the display minutes of the entries that start
    on a day of the window. *)
Theorem buildLastDaysReport_window (logs : list (TimeLog Z)) (days : Z)
  (hourlyRate : Q) (now : Z) :
  1 <= days ->
  let report := buildLastDaysReport logs days hourlyRate now in
  Z.of_nat (length report) = days
  /\ (forall i, 0 <= i < days ->
      exists point,
        nth_error report (Z.to_nat i) = Some point
        /\ dayKey point = dayKeyOfDay (localDay now - (days - 1 - i))
        /\ minutes point
           = sumZ (map (fun log => getLogMinutes log now)
                     (List.filter
                        (fun log => localDay (startTime log)
                                    =? localDay now - (days - 1 - i))
                        logs))
        /\ 0 <= minutes point
        /\ hours point = (inject_Z (minutes point) / 60)%Q
        /\ earnings point = (hours point * hourlyRate)%Q)
  /\ sumZ (map minutes report)
     = sumZ (map (fun log => getLogMinutes log now)
               (List.filter (startsInWindow now days) logs)).
Proof.
  intros P report.
  set (k := Z.to_nat days).
  assert (K : Z.of_nat k = days) by (unfold k; lia).
  set (seeded := seedDays now k []).
  set (final := fold_left (addLogMinutes now) logs seeded).
  assert (R : report = map (reportPoint hourlyRate) final) by reflexivity.
  assert (Keys : map fst final
                 = map (fun i => dayKeyOfDay (localDay now - Z.of_nat i))
                       (rev (seq 0 k))).
  { unfold final. rewrite fold_addLogMinutes_keys. unfold seeded.
    rewrite seeded_window, map_map. reflexivity. }
  assert (Len : length final = k).
  { rewrite <- (length_map fst), Keys, length_map, length_rev, length_seq.
    reflexivity. }
  split; [rewrite R, length_map, Len; exact K |]. split.
  - intros i Ri.
    assert (Li : (Z.to_nat i < k)%nat) by lia.
    assert (Ki : nth_error (map fst final) (Z.to_nat i)
                 = Some (dayKeyOfDay (localDay now - (days - 1 - i)))).
    { rewrite Keys, nth_error_map, (nth_error_rev_seq _ _ Li).
      cbn [option_map]. do 2 f_equal. lia. }
    rewrite nth_error_map in Ki.
    destruct (nth_error final (Z.to_nat i)) as [[key v] |] eqn:Ni;
      [| discriminate].
    cbn [option_map fst] in Ki. injection Ki as ->.
    exists (reportPoint hourlyRate
              (dayKeyOfDay (localDay now - (days - 1 - i)), v)).
    split; [rewrite R, nth_error_map, Ni; reflexivity |].
    assert (V : v = sumZ (map (fun log => getLogMinutes log now)
                            (List.filter
                               (fun log => localDay (startTime log)
                                           =? localDay now - (days - 1 - i))
                               logs))).
    { assert (D : List.NoDup (map fst final)).
      { unfold final. rewrite fold_addLogMinutes_keys. apply seeded_NoDup. }
      pose proof (Map_get_NoDup _ _ _ D (nth_error_In _ _ Ni)) as G.
      unfold final in G. rewrite fold_addLogMinutes_get in G.
      assert (S0 : Map_get seeded
                     (dayKeyOfDay (localDay now - (days - 1 - i))) = Some 0).
      { apply Map_get_NoDup; [apply seeded_NoDup |].
        unfold seeded. rewrite seeded_window. apply in_map_iff.
        exists (Z.to_nat (days - 1 - i)). split.
        - do 2 f_equal. lia.
        - apply in_rev. rewrite rev_involutive. apply in_seq. lia. }
      rewrite S0 in G. injection G as G. rewrite <- G, Z.add_0_l.
      f_equal. f_equal. apply List.filter_ext. intros log.
      apply key_eqb_localDay. }
    cbn [reportPoint dayKey minutes hours earnings].
    split; [reflexivity |]. split; [exact V |].
    split; [rewrite V; apply sum_minutes_nonneg |].
    split; reflexivity.
  - rewrite R, map_map.
    rewrite (map_ext (fun x => minutes (reportPoint hourlyRate x)) snd)
      by (intros [key v]; reflexivity).
    unfold final. rewrite fold_addLogMinutes_sum. unfold seeded.
    rewrite seeded_sum, Z.add_0_l. f_equal. f_equal.
    apply List.filter_ext. intros log. rewrite seeded_has, K. reflexivity.
Qed.

End ReportTheorem.
End ReportFacts.
Import ReportFacts.

(* ===================================================================== *)
(** * Examples *)
(* ===================================================================== *)

Module Examples.

#[local] Existing Instance utcHost.

Lemma calculateWorkedMilliseconds_nonneg_witness :
  status faulty = on_break /\ breakStartedAt faulty = None
  /\ calculateWorkedMilliseconds faulty (at_ monday0 9 10) = 600000.
Proof.
  split; [reflexivity |]. split; [reflexivity |].
  rewrite (proj1 (proj2 (calculateWorkedMilliseconds_nonneg faulty
                           (at_ monday0 9 10))) eq_refl eq_refl).
  vm_compute. reflexivity.
Defined.

Lemma clockOut_completes_witness :
  ({[ "log-1" := onBreak ]} : Store) !! id onBreak = Some onBreak
  /\ exists done : TimeLog Z,
       clockOut (Some {[ "log-1" := onBreak ]}) (at_ monday0 12 30) onBreak
         (at_ monday0 12 30)
       = Resolved (<[ "log-1" := done ]> {[ "log-1" := onBreak ]})
       /\ status done = completed
       /\ breakMinutes done = 30
       /\ totalMinutes done = 180.
Proof.
  assert (H : ({[ "log-1" := onBreak ]} : Store) !! id onBreak = Some onBreak)
    by reflexivity.
  split; [exact H |].
  destruct (proj1 (clockOut_completes {[ "log-1" := onBreak ]}
                     (at_ monday0 12 30) onBreak onBreak (at_ monday0 12 30)
                     H))
    as [done [E [S [_ [_ [B [_ [T _]]]]]]]].
  exists done. split; [exact E |]. split; [exact S |].
  split; [rewrite B; vm_compute; reflexivity |].
  rewrite T, B. vm_compute. reflexivity.
Defined.

Lemma endBreak_then_clockOut_witness :
  ({[ "log-1" := onBreak ]} : Store) !! id onBreak = Some onBreak
  /\ status onBreak = on_break
  /\ breakStartedAt onBreak = Some (at_ monday0 12 0)
  /\ 0 <= breakMinutes onBreak
  /\ exists (database1 : Store) (log1 : TimeLog Z),
       endBreak (Some {[ "log-1" := onBreak ]}) (at_ monday0 12 30) onBreak
         (at_ monday0 12 30) = Resolved database1
       /\ database1 !! id onBreak = Some log1
       /\ clockOut (Some database1) (at_ monday0 12 30) log1
            (at_ monday0 12 30)
          = clockOut (Some {[ "log-1" := onBreak ]}) (at_ monday0 12 30)
              onBreak (at_ monday0 12 30).
Proof.
  assert (H : ({[ "log-1" := onBreak ]} : Store) !! id onBreak = Some onBreak)
    by reflexivity.
  assert (N : 0 <= breakMinutes onBreak) by (vm_compute; congruence).
  split; [exact H |]. split; [reflexivity |]. split; [reflexivity |].
  split; [exact N |].
  destruct (endBreak_then_clockOut {[ "log-1" := onBreak ]}
              (at_ monday0 12 30) (at_ monday0 12 30) onBreak
              (at_ monday0 12 0) (at_ monday0 12 30) H eq_refl eq_refl N)
    as [database1 [log1 [E [L [_ [C _]]]]]].
  exists database1, log1. split; [exact E |]. split; [exact L | exact C].
Defined.

Lemma getLogMinutes_display_witness :
  endTime finished = Some (at_ monday0 17 0)
  /\ endTime running = None
  /\ getLogMinutes finished (at_ monday0 18 0) = 480
  /\ getLogMinutes running (at_ monday0 9 30) = 30.
Proof.
  split; [reflexivity |]. split; [reflexivity |]. split.
  - rewrite (proj1 (proj1 (getLogMinutes_display finished (at_ monday0 18 0))
                      (at_ monday0 17 0) eq_refl)).
    vm_compute. reflexivity.
  - rewrite (proj1 (proj2 (getLogMinutes_display running (at_ monday0 9 30)))
               eq_refl).
    vm_compute. reflexivity.
Defined.

Lemma groupLogsByWorkWeek_bucket_witness :
  In sundayShift [sundayShift]
  /\ toDayKey (startTime sundayShift) = "2024-03-10"
  /\ exists group,
       In group (groupLogsByWorkWeek [sundayShift] (at_ sunday0 13 0))
       /\ week_key group = "2024-03-04"
       /\ toDayKey (week_endDate group) = "2024-03-09"
       /\ localTimeOfDay (week_endDate group) = MakeTime 23 59 59 999
       /\ In sundayShift (week_logs group).
Proof.
  assert (I : In sundayShift [sundayShift]) by (left; reflexivity).
  assert (K : toDayKey (startTime sundayShift) = "2024-03-10")
    by (vm_compute; reflexivity).
  split; [exact I |]. split; [exact K |].
  destruct (proj1 (proj2 (proj2 (proj2 (proj2
              (groupLogsByWorkWeek_bucket [sundayShift] (at_ sunday0 13 0)
                 sundayShift I))))))
    as [group [G [_ [_ [_ [_ [T [L S]]]]]]]].
  destruct (S K) as [_ [Kg Ke]].
  exists group. repeat split; assumption.
Defined.

Lemma buildLastDaysReport_window_witness :
  1 <= 7
  /\ Z.of_nat (length (buildLastDaysReport [sundayShift; finished] 7 (25 # 1)
                         (at_ sunday0 13 0))) = 7
  /\ sumZ (map minutes (buildLastDaysReport [sundayShift; finished] 7 (25 # 1)
                          (at_ sunday0 13 0))) = 600.
Proof.
  assert (P : 1 <= 7) by lia.
  split; [exact P |].
  destruct (buildLastDaysReport_window [sundayShift; finished] 7 (25 # 1)
              (at_ sunday0 13 0) P) as [L [_ S]].
  split; [exact L |]. rewrite S. vm_compute. reflexivity.
Defined.

Lemma startBreak_unconditional_witness :
  ({[ "log-1" := running ]} : Store) !! "log-1" = Some running
  /\ exists doc' : TimeLog Z,
       startBreak (Some {[ "log-1" := running ]}) (at_ monday0 12 0) "log-1"
         (at_ monday0 12 0)
       = Resolved (<[ "log-1" := doc' ]> {[ "log-1" := running ]})
       /\ status doc' = on_break
       /\ breakStartedAt doc' = Some (at_ monday0 12 0).
Proof.
  assert (H : ({[ "log-1" := running ]} : Store) !! "log-1" = Some running)
    by reflexivity.
  split; [exact H |].
  destruct (proj1 (startBreak_unconditional {[ "log-1" := running ]}
                     (at_ monday0 12 0) "log-1" (at_ monday0 12 0) running H))
    as [doc' [E [S [B _]]]].
  exists doc'. split; [exact E |]. split; [exact S | exact B].
Defined.

Lemma handleManualSubmit_validates_witness :
  parseDateAndTime "2024-03-04" "17:00" = Some (at_ monday0 17 0)
  /\ parseDateAndTime "2024-03-04" "09:00" = Some (at_ monday0 9 0)
  /\ at_ monday0 9 0 < at_ monday0 17 0
  /\ handleManualSubmit {| ui_error := None; ui_db := Some ∅ |} (Some "u1") []
       "2024-03-04" "17:00" "09:00" "" "work" "" (at_ monday0 18 0) "log-2"
     = {| ui_error :=
            Some "Manual log needs a valid date and an end time after start time.";
          ui_db := Some ∅ |}
  /\ exists e : TimeLog Z,
       handleManualSubmit {| ui_error := None; ui_db := Some ∅ |} (Some "u1")
         [] "2024-03-04" "09:00" "17:00" "" "work" "" (at_ monday0 18 0)
         "log-2"
       = {| ui_error := None; ui_db := Some (<[ "log-2" := e ]> ∅) |}
       /\ status e = completed
       /\ totalMinutes e = 480.
Proof.
  assert (Ps : parseDateAndTime "2024-03-04" "17:00" = Some (at_ monday0 17 0))
    by (vm_compute; reflexivity).
  assert (Pe : parseDateAndTime "2024-03-04" "09:00" = Some (at_ monday0 9 0))
    by (vm_compute; reflexivity).
  assert (L : at_ monday0 9 0 < at_ monday0 17 0) by (vm_compute; reflexivity).
  split; [exact Ps |]. split; [exact Pe |]. split; [exact L |]. split.
  - apply (proj1 (handleManualSubmit_validates
                    {| ui_error := None; ui_db := Some ∅ |} "u1" []
                    "2024-03-04" "17:00" "09:00" "" "work" ""
                    (at_ monday0 18 0) "log-2")
             (at_ monday0 17 0) (at_ monday0 9 0) Ps Pe).
    lia.
  - destruct (proj1 (proj2 (proj2 (handleManualSubmit_validates
                       {| ui_error := None; ui_db := Some ∅ |} "u1" []
                       "2024-03-04" "09:00" "17:00" "" "work" ""
                       (at_ monday0 18 0) "log-2")))
                ∅ (at_ monday0 9 0) (at_ monday0 17 0) Pe Ps L eq_refl)
      as (e & input & _ & _ & _ & H & S & _ & _ & T & _).
    exists e. split; [exact H |]. split; [exact S |].
    rewrite T. vm_compute. reflexivity.
Defined.

Lemma buildCalendarCells_grid_witness :
  1 <= 1 <= getDate (newDate 2023 (10 + 1) 0 0 0 0 0)
  /\ exists cell date,
       nth_error (buildCalendarCells "2023-11" 0) 2 = Some cell
       /\ cell_date cell = Some date
       /\ getDate date = 1
       /\ localTimeOfDay date = 0.
Proof.
  assert (R : 1 <= 1 <= getDate (newDate 2023 (10 + 1) 0 0 0 0 0))
    by (vm_compute; split; congruence).
  split; [exact R |].
  destruct (proj1 (proj2 (proj2 (proj2 (proj2
              (buildCalendarCells_grid "2023-11" 0))))) 1 R)
    as [cell [date [N [C [D [_ [_ T]]]]]]].
  exists cell, date. split; [exact N |]. split; [exact C |].
  split; [exact D | exact T].
Defined.

(** C7 as the specification states it fails: start-break on a completed
    entry succeeds and puts the entry on break, so it is not the case that
    start-break is rejected on every entry that is not active. *)
Lemma startBreak_completed_counterexample :
  (status finished = completed
   /\ ({[ "log-1" := finished ]} : Store) !! "log-1" = Some finished
   /\ startBreak (Some {[ "log-1" := finished ]}) (at_ monday0 18 0) "log-1"
        (at_ monday0 18 0)
      = Resolved (<[ "log-1" := paused ]> {[ "log-1" := finished ]})
   /\ status paused = on_break
   /\ paused <> finished)
  /\ ~ (forall (database : Store) (serverNow : Z) (logId : string)
           (atInstant : Z) (doc : TimeLog Z),
          database !! logId = Some doc ->
          status doc <> active ->
          exists message,
            startBreak (Some database) serverNow logId atInstant
            = Rejected message).
Proof.
  assert (E : startBreak (Some {[ "log-1" := finished ]}) (at_ monday0 18 0)
                "log-1" (at_ monday0 18 0)
              = Resolved (<[ "log-1" := paused ]> {[ "log-1" := finished ]}))
    by reflexivity.
  split.
  - split; [reflexivity |]. split; [reflexivity |].
    split; [exact E |]. split; [reflexivity | discriminate].
  - intros G.
    assert (H : ({[ "log-1" := finished ]} : Store) !! "log-1"
                = Some finished) by reflexivity.
    assert (N : status finished <> active) by discriminate.
    destruct (G _ (at_ monday0 18 0) _ (at_ monday0 18 0) _ H N)
      as [message R].
    rewrite E in R. discriminate R.
Qed.

End Examples.

(* ===================================================================== *)
(** * More on durations *)
(* ===================================================================== *)

Module DurationMore.

(** X1.  While a running entry is on break, with the break started after
    the entry and not after the current instant, its worked time does not
    depend on the current instant: it is the time from the start to the
    break, less the stored breaks. *)
Theorem worked_time_frozen_on_break (log : TimeLog Z) (started now : Z) :
  endTime log = None ->
  status log = on_break ->
  breakStartedAt log = Some started ->
  startTime log <= started <= now ->
  calculateWorkedMilliseconds log now
  = Z.max 0 (started - startTime log - Z.max 0 (breakMinutes log) * 60000).
Proof.
  intros E S B R. unfold calculateWorkedMilliseconds, getTime.
  rewrite E, S, B. lia.
Qed.

(** X2.  For a running entry that is not on break the worked time never
    decreases as the clock advances, never grows faster than the clock,
    grows with the clock once it is positive, and never exceeds the time
    since the start. *)
Theorem worked_time_advances (log : TimeLog Z) (now1 now2 : Z) :
  endTime log = None ->
  runningBreak log = None ->
  now1 <= now2 ->
  calculateWorkedMilliseconds log now1 <= calculateWorkedMilliseconds log now2
  /\ calculateWorkedMilliseconds log now2
     - calculateWorkedMilliseconds log now1 <= now2 - now1
  /\ (0 < calculateWorkedMilliseconds log now1 ->
      calculateWorkedMilliseconds log now2
      = calculateWorkedMilliseconds log now1 + (now2 - now1))
  /\ calculateWorkedMilliseconds log now2 <= Z.max 0 (now2 - startTime log).
Proof.
  intros E B L. unfold calculateWorkedMilliseconds, getTime.
  unfold runningBreak in B. rewrite E.
  destruct (status log), (breakStartedAt log); try discriminate B; lia.
Qed.

(** X3.  The worked time of an entry with an end instant that is not on
    break is the same at every current instant, and at most the time from
    its start to its end. *)
Theorem worked_time_of_ended_entry (log : TimeLog Z) (ended now1 now2 : Z) :
  endTime log = Some ended ->
  runningBreak log = None ->
  calculateWorkedMilliseconds log now1 = calculateWorkedMilliseconds log now2
  /\ calculateWorkedMilliseconds log now1 <= Z.max 0 (ended - startTime log)
  /\ getLogMinutes log now1 = getLogMinutes log now2.
Proof.
  intros E B. unfold getLogMinutes, calculateWorkedMinutes,
    calculateWorkedMilliseconds, getTime.
  unfold runningBreak in B. rewrite E.
  destruct (status log), (breakStartedAt log); try discriminate B;
    repeat split; lia.
Qed.

End DurationMore.

(* ===================================================================== *)
(** * More on the entry lifecycle *)
(* ===================================================================== *)

Module LifecycleMore.

Lemma floor_minutes_sub (a b : Z) :
  (a - b * 60000) / 60000 = a / 60000 - b.
Proof. Z.div_mod_to_equations. lia. Qed.

(** The worked minutes of a completed entry with an end. *)
Lemma worked_minutes_completed (e : TimeLog Z) (ended now : Z) :
  endTime e = Some ended ->
  status e = completed ->
  calculateWorkedMinutes e now
  = Z.max 0 (Z.max 0 ((ended - startTime e) / 60000)
             - Z.max 0 (breakMinutes e)).
Proof.
  intros E S. unfold calculateWorkedMinutes, calculateWorkedMilliseconds,
    getTime.
  rewrite E, S. rewrite Z.sub_0_r.
  set (b := Z.max 0 (breakMinutes e)).
  assert (P : 0 <= b) by (unfold b; lia).
  destruct (Z.le_gt_cases (startTime e) ended) as [L | G].
  - rewrite (Z.max_r 0 (ended - startTime e)) by lia.
    assert (Q : 0 <= (ended - startTime e) / 60000)
      by (apply Z.div_pos; lia).
    rewrite (Z.max_r 0 ((ended - startTime e) / 60000)) by exact Q.
    destruct (Z.le_gt_cases (b * 60000) (ended - startTime e))
      as [A | A].
    + rewrite Z.max_r by lia. rewrite floor_minutes_sub.
      assert (b <= (ended - startTime e) / 60000)
        by (apply Z.div_le_lower_bound; lia).
      lia.
    + rewrite Z.max_l by lia.
      assert ((ended - startTime e) / 60000 < b)
        by (apply Z.div_lt_upper_bound; lia).
      rewrite Z.div_0_l by lia. lia.
  - rewrite (Z.max_l 0 (ended - startTime e)) by lia.
    assert (Q : (ended - startTime e) / 60000 < 0)
      by (apply Z.div_lt_upper_bound; lia).
    rewrite (Z.max_l 0 ((ended - startTime e) / 60000)) by lia.
    rewrite (Z.max_l 0 (0 - b * 60000)) by lia.
    rewrite Z.div_0_l by lia. lia.
Qed.

Lemma sumZ_app (l1 l2 : list Z) : sumZ (l1 ++ l2) = sumZ l1 + sumZ l2.
Proof.
  induction l1 as [| x l1 IH].
  - rewrite sumZ_nil. reflexivity.
  - rewrite <- app_comm_cons, !sumZ_cons, IH. lia.
Qed.

Lemma sumZ_nonneg (l : list Z) : Forall (fun x => 0 <= x) l -> 0 <= sumZ l.
Proof.
  induction 1 as [| x l P _ IH].
  - rewrite sumZ_nil. lia.
  - rewrite sumZ_cons. lia.
Qed.

Lemma breakLedgerOk_nonneg (e : TimeLog Z) :
  breakLedgerOk e -> 0 <= breakMinutes e.
Proof.
  intros [E F]. rewrite E. apply sumZ_nonneg.
  apply Forall_map. exact F.
Qed.

Lemma breakLedgerOk_push (e e' : TimeLog Z) (b : BreakRecord Z) :
  breakLedgerOk e ->
  breaks e' = breaks e ++ [b] ->
  0 <= durationMinutes b ->
  breakMinutes e' = breakMinutes e + durationMinutes b ->
  breakLedgerOk e'.
Proof.
  intros [E F] B P M. split.
  - rewrite M, B, map_app, sumZ_app, E. cbn [map].
    rewrite sumZ_cons, sumZ_nil. lia.
  - rewrite B. apply Forall_app. split; [exact F |].
    constructor; [exact P | constructor].
Qed.

Section Lifecycle.
Context {host : Host}.

(** X4.  The totals that are stored agree with the duration calculator:
    for the entry that clock-out completes and for the entry that the
    manual form adds, whatever the instants, the worked minutes and the
    displayed minutes are the stored total at every later reading. *)
Theorem stored_total_is_worked_minutes (database : Store) (serverNow : Z)
  (log : TimeLog Z) (atInstant : Z) :
  database !! id log = Some log ->
  (exists done : TimeLog Z,
     clockOut (Some database) serverNow log atInstant
     = Resolved (<[id log := done]> database)
     /\ forall now,
          calculateWorkedMinutes done now = totalMinutes done
          /\ getLogMinutes done now = totalMinutes done)
  /\ (forall autoId input,
        exists e : TimeLog Z,
          addManualLog (Some database) serverNow autoId input
          = Resolved (<[autoId := e]> database)
          /\ forall now,
               calculateWorkedMinutes e now = totalMinutes e
               /\ getLogMinutes e now = totalMinutes e).
Proof.
  intros D. split.
  - unfold clockOut, getTime. cbn [requireDb bind].
    set (folded := match status log, breakStartedAt log with
                   | on_break, Some started => _
                   | _, _ => _
                   end).
    assert (F : 0 <= fst folded).
    { unfold folded. destruct (status log), (breakStartedAt log);
        cbn [fst]; lia. }
    destruct folded as [nextBreakMinutes nextBreaks]. cbn [fst] in F.
    unfold updateDoc. rewrite D. eexists. split; [reflexivity |].
    intros now.
    match goal with
    | |- calculateWorkedMinutes ?e _ = _ /\ _ =>
        assert (W : calculateWorkedMinutes e now = totalMinutes e)
    end.
    { rewrite (worked_minutes_completed _ atInstant) by reflexivity.
      cbn [applyUpdate written startTime breakMinutes totalMinutes
           u_breakMinutes u_totalMinutes].
      rewrite (Z.max_r 0 nextBreakMinutes) by exact F. reflexivity. }
    split; [exact W |].
    unfold getLogMinutes. rewrite W.
    cbn [applyUpdate endTime written u_endTime totalMinutes u_totalMinutes].
    lia.
  - intros autoId input.
    unfold addManualLog, addDoc, getTime. cbn [requireDb bind].
    eexists. split; [reflexivity |]. intros now.
    match goal with
    | |- calculateWorkedMinutes ?e _ = _ /\ _ =>
        assert (W : calculateWorkedMinutes e now = totalMinutes e)
    end.
    { rewrite (worked_minutes_completed _ (in_endTime input)) by reflexivity.
      cbn [startTime breakMinutes totalMinutes]. lia. }
    split; [exact W |]. unfold getLogMinutes. rewrite W.
    cbn [endTime totalMinutes]. lia.
Qed.

(** X5.  End-break on an entry without a recorded break start is rejected
    with its own message, also when the database is not configured; with a
    recorded start it resumes the entry: status active, no break in
    progress, one more break record from the recorded start to the given
    instant, the break minutes raised by the whole minutes of that break
    and so never lowered, and start, end and total untouched. *)
Theorem endBreak_records_break (serverNow : Z) (log : TimeLog Z)
  (atInstant : Z) :
  (breakStartedAt log = None ->
   forall db, endBreak db serverNow log atInstant
              = Rejected "Break start time is missing.")
  /\ (forall (database : Store) (started : Z),
        breakStartedAt log = Some started ->
        database !! id log = Some log ->
        exists resumed : TimeLog Z,
          endBreak (Some database) serverNow log atInstant
          = Resolved (<[id log := resumed]> database)
          /\ status resumed = active
          /\ breakStartedAt resumed = None
          /\ breaks resumed
             = breaks log
               ++ [ {| br_startTime := Date_toISOString started;
                       br_endTime := Date_toISOString atInstant;
                       durationMinutes := breakDuration started atInstant |} ]
          /\ breakMinutes resumed
             = breakMinutes log + breakDuration started atInstant
          /\ breakMinutes log <= breakMinutes resumed
          /\ startTime resumed = startTime log
          /\ endTime resumed = endTime log
          /\ totalMinutes resumed = totalMinutes log).
Proof.
  split.
  - intros B db. unfold endBreak. rewrite B. reflexivity.
  - intros database started B D. unfold endBreak. rewrite B.
    cbn [requireDb bind]. unfold updateDoc. rewrite D.
    eexists. split; [reflexivity |].
    unfold breakDuration, getTime. cbn. repeat split; try reflexivity. lia.
Qed.

(** X6.  A break is recorded in whole minutes, rounded down, so ending a
    break gives the remaining fraction of a minute back to the worked time:
    at the instant the break ends, the worked time of the resumed entry is
    not less than the worked time of the entry on break, and exceeds it by
    less than a minute. *)
Theorem endBreak_credits_partial_minute (database : Store) (serverNow : Z)
  (log : TimeLog Z) (started atInstant : Z) :
  database !! id log = Some log ->
  endTime log = None ->
  status log = on_break ->
  breakStartedAt log = Some started ->
  0 <= breakMinutes log ->
  started <= atInstant ->
  exists resumed : TimeLog Z,
    endBreak (Some database) serverNow log atInstant
    = Resolved (<[id log := resumed]> database)
    /\ calculateWorkedMilliseconds log atInstant
       <= calculateWorkedMilliseconds resumed atInstant
    /\ calculateWorkedMilliseconds resumed atInstant
       < calculateWorkedMilliseconds log atInstant + 60000.
Proof.
  intros D E S B P L. unfold endBreak. rewrite B.
  cbn [requireDb bind]. unfold updateDoc. rewrite D.
  eexists. split; [reflexivity |].
  unfold calculateWorkedMilliseconds, getTime.
  cbn [applyUpdate written endTime u_endTime startTime breakMinutes
       u_breakMinutes status u_status breakStartedAt u_breakStartedAt].
  rewrite E, S, B.
  assert (Q : 0 <= (atInstant - started) / 60000) by (apply Z.div_pos; lia).
  pose proof (Z.mul_div_le (atInstant - started) 60000 ltac:(lia)) as Lo.
  pose proof (Z.mul_succ_div_gt (atInstant - started) 60000 ltac:(lia)) as Hi.
  lia.
Qed.

(** X7.  The break ledger, that the break minutes of an entry are the sum
    of its recorded breaks and no recorded break is negative, holds for the
    entries that the timer and the manual form create and is kept by
    start-break, end-break, clock-out and an edit. *)
Theorem break_ledger_preserved (database : Store) (serverNow : Z) :
  (forall autoId input,
     exists e, startTimerLog (Some database) serverNow autoId input
               = Resolved (<[autoId := e]> database)
               /\ breakLedgerOk e)
  /\ (forall autoId input,
        exists e, addManualLog (Some database) serverNow autoId input
                  = Resolved (<[autoId := e]> database)
                  /\ breakLedgerOk e)
  /\ (forall (log : TimeLog Z) (atInstant : Z),
        database !! id log = Some log ->
        breakLedgerOk log ->
        (exists e, startBreak (Some database) serverNow (id log) atInstant
                   = Resolved (<[id log := e]> database)
                   /\ breakLedgerOk e)
        /\ (forall started,
              breakStartedAt log = Some started ->
              exists e, endBreak (Some database) serverNow log atInstant
                        = Resolved (<[id log := e]> database)
                        /\ breakLedgerOk e)
        /\ (exists e, clockOut (Some database) serverNow log atInstant
                      = Resolved (<[id log := e]> database)
                      /\ breakLedgerOk e)
        /\ (forall input,
              up_startTime input < up_endTime input ->
              exists e, updateTimeLog (Some database) serverNow log input
                        = Resolved (<[id log := e]> database)
                        /\ breakLedgerOk e)).
Proof.
  split; [| split].
  - intros autoId input. eexists. split; [reflexivity |].
    split; [reflexivity | constructor].
  - intros autoId input. eexists. split; [reflexivity |].
    split; [reflexivity | constructor].
  - intros log atInstant D K. split; [| split; [| split]].
    + unfold startBreak. cbn [requireDb bind]. unfold updateDoc. rewrite D.
      eexists. split; [reflexivity |]. exact K.
    + intros started B. unfold endBreak. rewrite B. cbn [requireDb bind].
      unfold updateDoc. rewrite D. eexists. split; [reflexivity |].
      eapply (breakLedgerOk_push log); [exact K | reflexivity | | reflexivity].
      cbn [durationMinutes]. lia.
    + pose proof (breakLedgerOk_nonneg log K) as P.
      unfold clockOut. cbn [requireDb bind].
      destruct (status log), (breakStartedAt log) as [started |];
        unfold updateDoc; rewrite D; eexists; (split; [reflexivity |]);
        try (destruct K as [E F]; split;
             [cbn [applyUpdate written breakMinutes u_breakMinutes breaks
                   u_breaks]; rewrite Z.max_r by exact P; exact E
             | exact F]).
      eapply (breakLedgerOk_push log); [exact K | reflexivity | |].
      * cbn [durationMinutes]. lia.
      * cbn [applyUpdate written breakMinutes u_breakMinutes durationMinutes].
        rewrite Z.max_r by exact P. reflexivity.
    + intros input V. unfold updateTimeLog.
      destruct (Z.leb_spec (up_endTime input) (up_startTime input)); [lia |].
      cbn [requireDb bind]. unfold updateDocEdit. rewrite D.
      eexists. split; [reflexivity |]. exact K.
Qed.

(** X8.  A whole timer session: clock-in at [s], a break from [b] to [e],
    clock-out at [c], each operation applied to the entry as stored by the
    one before.  The session ends as a completed entry from [s] to [c] with
    the one break on record, and its total is exactly the whole minutes
    from [s] to [c] less the whole minutes of the break; the other entries
    of the collection are untouched. *)
Theorem timer_session (database : Store) (t0 t1 t2 t3 : Z) (autoId : string)
  (input : StartTimerInput) (b e c : Z) :
  st_startTime input <= b -> b <= e -> e <= c ->
  let s := st_startTime input in
  exists (db1 db2 db3 db4 : Store) (started paused resumed done : TimeLog Z),
    startTimerLog (Some database) t0 autoId input = Resolved db1
    /\ db1 !! autoId = Some started
    /\ startBreak (Some db1) t1 (id started) b = Resolved db2
    /\ db2 !! autoId = Some paused
    /\ endBreak (Some db2) t2 paused e = Resolved db3
    /\ db3 !! autoId = Some resumed
    /\ clockOut (Some db3) t3 resumed c = Resolved db4
    /\ db4 !! autoId = Some done
    /\ status done = completed
    /\ startTime done = s
    /\ endTime done = Some c
    /\ breakStartedAt done = None
    /\ breaks done = [ {| br_startTime := Date_toISOString b;
                          br_endTime := Date_toISOString e;
                          durationMinutes := (e - b) / 60000 |} ]
    /\ breakMinutes done = (e - b) / 60000
    /\ totalMinutes done = (c - s) / 60000 - (e - b) / 60000
    /\ 0 <= totalMinutes done
    /\ forall k, k <> autoId -> db4 !! k = database !! k.
Proof.
  intros L1 L2 L3 s.
  assert (Qb : 0 <= (e - b) / 60000) by (apply Z.div_pos; lia).
  assert (Qc : (e - b) / 60000 <= (c - s) / 60000)
    by (apply Z.div_le_mono; unfold s; lia).
  unfold startTimerLog, addDoc. cbn [requireDb bind].
  eexists. eexists. eexists. eexists. eexists. eexists. eexists. eexists.
  split; [reflexivity |].
  split; [apply lookup_insert_eq |].
  cbn [id].
  split.
  { unfold startBreak. cbn [requireDb bind]. unfold updateDoc.
    rewrite lookup_insert_eq. reflexivity. }
  split; [apply lookup_insert_eq |].
  split.
  { unfold endBreak. cbn [applyUpdate written breakStartedAt
      u_breakStartedAt]. cbn [requireDb bind]. unfold updateDoc.
    cbn [applyUpdate id]. rewrite lookup_insert_eq. reflexivity. }
  split; [apply lookup_insert_eq |].
  split.
  { unfold clockOut. cbn [requireDb bind].
    cbn [applyUpdate written status u_status breakStartedAt
         u_breakStartedAt id].
    unfold updateDoc. rewrite lookup_insert_eq. reflexivity. }
  split; [apply lookup_insert_eq |].
  unfold getTime.
  cbn [applyUpdate written status u_status startTime endTime u_endTime
       breakStartedAt u_breakStartedAt breaks u_breaks breakMinutes
       u_breakMinutes totalMinutes u_totalMinutes app].
  fold s.
  repeat split; try reflexivity.
  - rewrite (Z.max_r 0 ((e - b) / 60000)) by exact Qb. reflexivity.
  - lia.
  - lia.
  - lia.
  - intros k N.
    rewrite !lookup_insert_ne by (intros X; apply N; symmetry; exact X).
    reflexivity.
Qed.

(** X9.  An edit is checked before the database is looked for: with an end
    not after the start it is rejected with its own message whatever the
    state of the database.  Otherwise it completes the entry with the new
    start and end, drops a break in progress without recording it, keeps
    the break minutes and the break records, and stores as total the whole
    minutes between the new instants less the break minutes, which is what
    the duration calculator gives for the edited entry. *)
Theorem updateTimeLog_effects (serverNow : Z) (log : TimeLog Z)
  (input : UpdateTimeLogInput) :
  (up_endTime input <= up_startTime input ->
   forall db, updateTimeLog db serverNow log input
              = Rejected "End time must be later than start time.")
  /\ (up_startTime input < up_endTime input ->
      forall database : Store,
        database !! id log = Some log ->
        exists edited : TimeLog Z,
          updateTimeLog (Some database) serverNow log input
          = Resolved (<[id log := edited]> database)
          /\ status edited = completed
          /\ startTime edited = up_startTime input
          /\ endTime edited = Some (up_endTime input)
          /\ breakStartedAt edited = None
          /\ breakMinutes edited = breakMinutes log
          /\ breaks edited = breaks log
          /\ totalMinutes edited
             = Z.max 0 ((up_endTime input - up_startTime input) / 60000
                        - Z.max 0 (breakMinutes log))
          /\ source edited = source log
          /\ createdAt edited = createdAt log
          /\ forall now,
               calculateWorkedMinutes edited now = totalMinutes edited
               /\ getLogMinutes edited now = totalMinutes edited).
Proof.
  split.
  - intros V db. unfold updateTimeLog.
    destruct (Z.leb_spec (up_endTime input) (up_startTime input));
      [reflexivity | lia].
  - intros V database D. unfold updateTimeLog.
    destruct (Z.leb_spec (up_endTime input) (up_startTime input)); [lia |].
    cbn [requireDb bind]. unfold updateDocEdit. rewrite D.
    eexists. split; [reflexivity |].
    assert (Q : 0 <= (up_endTime input - up_startTime input) / 60000)
      by (apply Z.div_pos; lia).
    unfold getTime.
    cbn [applyEdit status e_status startTime e_startTime endTime e_endTime
         breakStartedAt e_breakStartedAt breakMinutes breaks totalMinutes
         e_totalMinutes source createdAt].
    repeat split; try reflexivity.
    + rewrite (Z.max_r 0 ((up_endTime input - up_startTime input) / 60000))
        by exact Q.
      reflexivity.
    + rewrite (worked_minutes_completed _ (up_endTime input))
        by reflexivity.
      reflexivity.
    + unfold getLogMinutes.
      rewrite (worked_minutes_completed _ (up_endTime input))
        by reflexivity.
      cbn [applyEdit endTime e_endTime totalMinutes e_totalMinutes
           startTime e_startTime breakMinutes]. lia.
Qed.

(** X10.  Deleting needs no entry to be there and touches no other entry;
    deleting the entry a clock-in has just created under a fresh id gives
    the collection back as it was. *)
Theorem deleteTimeLog_undoes_clock_in (database : Store) (serverNow : Z)
  (autoId : string) (input : StartTimerInput) :
  database !! autoId = None ->
  (exists db1 : Store,
     startTimerLog (Some database) serverNow autoId input = Resolved db1
     /\ deleteTimeLog (Some db1) autoId = Resolved database)
  /\ deleteTimeLog (Some database) autoId = Resolved database
  /\ forall (db : Store) (logId : string),
       exists db' : Store,
         deleteTimeLog (Some db) logId = Resolved db'
         /\ db' !! logId = None
         /\ forall k, k <> logId -> db' !! k = db !! k.
Proof.
  intros F. split; [| split].
  - eexists. split; [reflexivity |].
    unfold deleteTimeLog, deleteDoc. cbn [requireDb bind].
    rewrite delete_insert_eq. rewrite delete_id by exact F. reflexivity.
  - unfold deleteTimeLog, deleteDoc. cbn [requireDb bind].
    rewrite delete_id by exact F. reflexivity.
  - intros db logId. eexists. split; [reflexivity |].
    split; [apply lookup_delete_eq |].
    intros k N. apply lookup_delete_ne. intros X. apply N. symmetry. exact X.
Qed.

End Lifecycle.
End LifecycleMore.

(* ===================================================================== *)
(** * The clock button *)
(* ===================================================================== *)

Module ToggleFacts.

Section Toggle.
Context {host : Host}.

Lemma activeLog_None (logs : list (TimeLog Z)) :
  activeLog logs = None ->
  forall e, In e logs -> endTime e <> None.
Proof.
  unfold activeLog. intros F e I E.
  pose proof (find_none _ _ F e I) as N. cbv beta in N.
  rewrite E in N. discriminate.
Qed.

Lemma activeLog_Some (logs : list (TimeLog Z)) (log : TimeLog Z) :
  activeLog logs = Some log -> In log logs /\ endTime log = None.
Proof.
  unfold activeLog. intros F. apply find_some in F. destruct F as [I E].
  split; [exact I |]. destruct (endTime log); [discriminate | reflexivity].
Qed.

(** X11.  The clock button keeps the number of running entries in check:
    when the list of entries shows every running entry of the collection,
    a press with no running entry creates one, under the fresh id and
    started at the instant of the press, and a press with a running entry
    completes the first one listed, so the number of running entries goes
    from 0 to 1 and otherwise down by one, and never above one when it was
    not. *)
Theorem clock_toggle_running_entries (database : Store)
  (logs : list (TimeLog Z)) (uid : string) (projects : list (string * string))
  (sessionProjectId sessionTaskName sessionNote : string)
  (serverNow : Z) (autoId : string) (clock : Z) (shown : option string) :
  listsRunning database logs ->
  exists after : Store,
    handleClockToggle {| ui_error := shown; ui_db := Some database |}
      (Some uid) (activeLog logs) projects sessionProjectId sessionTaskName
      sessionNote serverNow autoId clock
    = {| ui_error := None; ui_db := Some after |}
    /\ size (runningEntries after)
       = match size (runningEntries database) with
         | O => 1%nat
         | S n => n
         end
    /\ (size (runningEntries database) <= 1
        -> size (runningEntries after) <= 1)%nat
    /\ match activeLog logs with
       | None =>
           exists e, after = <[autoId := e]> database
                     /\ endTime e = None /\ status e = active
                     /\ startTime e = clock /\ userId e = uid
       | Some log =>
           exists e, after = <[id log := e]> database
                     /\ endTime e = Some clock /\ status e = completed
       end.
Proof.
  intros [Sub Sup].
  unfold handleClockToggle. cbn [ui_db].
  destruct (activeLog logs) as [log |] eqn:A.
  - apply activeLog_Some in A. destruct A as [I E].
    pose proof (Sub log I) as D.
    unfold clockOut. cbn [requireDb bind]. unfold updateDoc.
    destruct (match status log, breakStartedAt log with
              | on_break, Some started => _
              | _, _ => _
              end) as [nextBreakMinutes nextBreaks].
    rewrite D. cbn [settle].
    eexists. split; [reflexivity |].
    assert (C : size (runningEntries
                        (<[id log :=
                             applyUpdate
                               {| u_endTime := Some (Some clock);
                                  u_totalMinutes :=
                                    Some (Z.max 0
                                            (Z.max 0
                                               ((getTime clock
                                                 - getTime (startTime log))
                                                / 60000)
                                             - nextBreakMinutes));
                                  u_breakMinutes := Some nextBreakMinutes;
                                  u_breaks := Some nextBreaks;
                                  u_breakStartedAt := Some None;
                                  u_status := Some completed;
                                  u_updatedAt := Some (Some serverNow) |}
                               log]> database))
                = pred (size (runningEntries database))).
    { unfold runningEntries.
      rewrite map_filter_insert_False by (cbn; discriminate).
      rewrite map_filter_delete.
      apply map_size_delete_Some. exists log.
      apply map_lookup_filter_Some. split; [exact D | exact E]. }
    assert (P : size (runningEntries database) <> O).
    { apply (map_size_ne_0_lookup_2 _ (id log)). exists log.
      apply map_lookup_filter_Some. split; [exact D | exact E]. }
    split; [| split].
    + rewrite C. destruct (size (runningEntries database));
        [contradiction | reflexivity].
    + rewrite C. lia.
    + eexists. split; [reflexivity |]. split; reflexivity.
  - pose proof (activeLog_None logs A) as N.
    assert (Z0 : runningEntries database = ∅).
    { unfold runningEntries. apply map_empty_filter.
      intros k e D E. cbn in E. apply (N e); [| exact E].
      apply (Sup k e D E). }
    unfold startTimerLog, addDoc. cbn [requireDb bind settle].
    eexists. split; [reflexivity |].
    assert (C : forall e : TimeLog Z,
                endTime e = None ->
                size (runningEntries (<[autoId := e]> database)) = 1%nat).
    { intros e E. unfold runningEntries.
      rewrite map_filter_insert_True by exact E.
      fold (runningEntries database). rewrite Z0.
      rewrite map_size_insert_None by apply lookup_empty.
      rewrite map_size_empty. reflexivity. }
    rewrite Z0, map_size_empty.
    split; [| split].
    + apply C. reflexivity.
    + intros _. rewrite C by reflexivity. lia.
    + eexists. split; [reflexivity |]. repeat split; reflexivity.
Qed.

End Toggle.
End ToggleFacts.

(* ===================================================================== *)
(** * More on the work weeks *)
(* ===================================================================== *)

Module WeekMore.

Section Sorting.
Context {A : Type} (key : A -> Z).

Lemma insertSorted_sorted x l :
  StronglySorted (fun a b => key a <= key b) l ->
  StronglySorted (fun a b => key a <= key b) (insertSorted key x l).
Proof.
  induction 1 as [| y l S IH F]; cbn [insertSorted].
  - repeat constructor.
  - destruct (Z.leb_spec (key x) (key y)) as [L | G].
    + constructor; [constructor; assumption |].
      constructor; [exact L |].
      eapply List.Forall_impl; [| exact F]. cbv beta. intros a La. lia.
    + constructor; [exact IH |].
      apply List.Forall_forall. intros a I.
      apply (Permutation_in _ (insertSorted_Permutation key x l)) in I.
      destruct I as [<- | I]; [lia |].
      rewrite List.Forall_forall in F. apply F, I.
Qed.

Lemma sortBy_sorted l :
  StronglySorted (fun a b => key a <= key b) (sortBy key l).
Proof.
  induction l as [| x l IH]; cbn [sortBy fold_right];
    [constructor | apply insertSorted_sorted, IH].
Qed.

Lemma sorted_filter (R : A -> A -> Prop) (f : A -> bool) l :
  StronglySorted R l -> StronglySorted R (List.filter f l).
Proof.
  induction 1 as [| x l S IH F]; cbn [List.filter]; [constructor |].
  destruct (f x); [| exact IH].
  constructor; [exact IH |].
  apply List.Forall_forall. intros a I. apply List.filter_In in I.
  rewrite List.Forall_forall in F. apply F, I.
Qed.

Lemma sorted_strict l :
  StronglySorted (fun a b => key a <= key b) l ->
  List.NoDup (map key l) ->
  StronglySorted (fun a b => key a < key b) l.
Proof.
  induction 1 as [| x l S IH F]; cbn [map]; intros D; [constructor |].
  apply List.NoDup_cons_iff in D as [N D].
  constructor; [apply IH, D |].
  apply List.Forall_forall. intros a I. rewrite List.Forall_forall in F.
  pose proof (F a I) as L.
  assert (key a <> key x).
  { intros E. apply N. rewrite <- E. apply in_map, I. }
  lia.
Qed.

End Sorting.

Lemma NoDup_map_coarser {A B C : Type} (f : A -> B) (g : A -> C) l :
  (forall x y, In x l -> In y l -> g x = g y -> f x = f y) ->
  List.NoDup (map f l) -> List.NoDup (map g l).
Proof.
  induction l as [| x l IH]; cbn [map]; intros K D; [constructor |].
  apply List.NoDup_cons_iff in D as [N D].
  constructor.
  - intros I. apply in_map_iff in I as [y [E I]].
    apply N. rewrite <- (K y x); [apply in_map, I | right; exact I
                                 | left; reflexivity | exact E].
  - apply IH; [| exact D]. intros a b Ia Ib. apply K; right; assumption.
Qed.

Lemma filter_none {A : Type} (f : A -> bool) l :
  (forall x, In x l -> f x = false) -> List.filter f l = [].
Proof.
  induction l as [| x l IH]; cbn [List.filter]; intros F; [reflexivity |].
  rewrite (F x) by (left; reflexivity).
  apply IH. intros y I. apply F. right. exact I.
Qed.

Lemma sumZ_map_Permutation {A : Type} (f : A -> Z) l l' :
  Permutation l l' -> sumZ (map f l) = sumZ (map f l').
Proof.
  induction 1; cbn [map]; rewrite ?sumZ_cons; lia.
Qed.

Lemma concat_Permutation {A : Type} (l l' : list (list A)) :
  Permutation l l' -> Permutation (concat l) (concat l').
Proof.
  induction 1 as [| x l l' P IH | x y l | l l' l'' P1 IH1 P2 IH2];
    cbn [concat].
  - reflexivity.
  - apply Permutation_app_head, IH.
  - rewrite !app_assoc. apply Permutation_app_tail, Permutation_app_comm.
  - etransitivity; eassumption.
Qed.

Lemma sumLogMinutes_sum (logs : list (TimeLog Z)) (now : Z) :
  sumLogMinutes logs now = sumZ (map (fun l => getLogMinutes l now) logs).
Proof.
  unfold sumLogMinutes.
  assert (G : forall acc,
            fold_left (fun total log => total + getLogMinutes log now) logs acc
            = acc + sumZ (map (fun l => getLogMinutes l now) logs)).
  { induction logs as [| l logs IH]; intros acc; cbn [fold_left map].
    - rewrite sumZ_nil. lia.
    - rewrite IH, sumZ_cons. lia. }
  rewrite G. lia.
Qed.

Section Weeks.
Context {host : Host}.

Lemma Map_set_concat (gs : list (string * WorkWeekGroup)) k g' log :
  week_logs g'
  = match Map_get gs k with Some g => week_logs g | None => [] end ++ [log] ->
  Permutation (concat (map (fun kg => week_logs (snd kg)) (Map_set gs k g')))
              (log :: concat (map (fun kg => week_logs (snd kg)) gs)).
Proof.
  induction gs as [| [k0 g0] gs IH]; cbn [Map_get Map_set map concat snd].
  - intros ->. cbn [app]. reflexivity.
  - destruct (String.eqb_spec k0 k) as [-> | N]; cbn [map concat snd].
    + intros ->. rewrite <- app_assoc. cbn [app].
      symmetry. apply Permutation_middle.
    + intros E. rewrite (IH E). symmetry. apply Permutation_middle.
Qed.

Lemma addToWeek_weekKeyOf now gs log :
  addToWeek now gs log
  = let group :=
      match Map_get gs (weekKeyOf log) with
      | Some g => g
      | None => {| week_key := weekKeyOf log;
                   week_startDate := getWorkWeekStartMonday (startTime log);
                   week_endDate :=
                     getWorkWeekEndSaturday
                       (getWorkWeekStartMonday (startTime log));
                   week_logs := [];
                   week_totalMinutes := 0 |}
      end in
    Map_set gs (weekKeyOf log)
      {| week_key := week_key group;
         week_startDate := week_startDate group;
         week_endDate := week_endDate group;
         week_logs := week_logs group ++ [log];
         week_totalMinutes := week_totalMinutes group + getLogMinutes log now |}.
Proof. unfold addToWeek, weekKeyOf. reflexivity. Qed.

(** One step of the loop keeps the contents of the groups. *)
Lemma addToWeek_contents now done gs log :
  List.NoDup (map fst gs) ->
  weekContents now done gs ->
  weekContents now (done ++ [log]) (addToWeek now gs log).
Proof.
  intros D [Cov [Con Per]]. rewrite addToWeek_weekKeyOf. cbv zeta.
  assert (Self : inWeek (weekKeyOf log) log = true)
    by (unfold inWeek; apply String.eqb_refl).
  assert (Other : forall k, k <> weekKeyOf log -> inWeek k log = false).
  { intros k N. unfold inWeek.
    destruct (String.eqb_spec (weekKeyOf log) k) as [X |]; [| reflexivity].
    exfalso. apply N. symmetry. exact X. }
  assert (None_ : Map_get gs (weekKeyOf log) = None ->
                  List.filter (inWeek (weekKeyOf log)) done = []).
  { intros E. apply filter_none. intros l I. unfold inWeek.
    destruct (String.eqb_spec (weekKeyOf l) (weekKeyOf log)) as [K |];
      [| reflexivity].
    exfalso. apply Map_get_None in E. apply E. rewrite <- K.
    apply Cov, I. }
  set (wk := weekKeyOf log) in *.
  set (group := match Map_get gs wk with
                | Some g => g
                | None => _
                end).
  set (group' := mkWorkWeekGroup _ _ _ _ _).
  assert (G : week_logs group = List.filter (inWeek wk) done
              /\ week_totalMinutes group
                 = sumZ (map (fun l => getLogMinutes l now) (week_logs group))
              /\ week_logs group
                 = match Map_get gs wk with
                   | Some g => week_logs g
                   | None => []
                   end).
  { unfold group. destruct (Map_get gs wk) as [g |] eqn:E.
    - apply Map_get_In in E. destruct (Con _ _ E) as [L [_ T]].
      split; [exact L |]. split; [exact T | reflexivity].
    - cbn [week_logs week_totalMinutes map]. rewrite sumZ_nil.
      split; [| split; reflexivity].
      symmetry. apply None_. reflexivity. }
  destruct G as [GL [GT GM]].
  split; [| split].
  - intros l I. rewrite Map_set_keys.
    apply in_app_or in I as [I | [<- | []]].
    + destruct (Map_has gs wk); [| apply in_or_app; left]; apply Cov, I.
    + change (weekKeyOf log) with wk.
      destruct (Map_has gs wk) eqn:H.
      * apply Map_has_true, H.
      * apply in_or_app. right. left. reflexivity.
  - intros k g I.
    destruct (Map_set_inv_NoDup _ _ _ _ _ D I) as [[-> ->] | [N I']].
    + unfold group'. cbn [week_logs week_totalMinutes].
      rewrite List.filter_app. cbn [List.filter]. rewrite Self.
      rewrite <- GL.
      split; [reflexivity |]. split.
      * intros X. apply app_eq_nil in X as [_ X]. discriminate.
      * rewrite map_app, LifecycleMore.sumZ_app, <- GT. cbn [map].
        rewrite sumZ_cons, sumZ_nil. lia.
    + destruct (Con _ _ I') as [L [Ne T]].
      rewrite List.filter_app. cbn [List.filter].
      rewrite (Other k N).
      rewrite app_nil_r. split; [exact L |]. split; [exact Ne | exact T].
  - rewrite Map_set_concat
      by (unfold group'; cbn [week_logs]; rewrite GM; reflexivity).
    rewrite Per. apply Permutation_cons_append.
Qed.

Lemma fold_addToWeek_contents now logs done gs :
  weekGroupsOk gs ->
  weekContents now done gs ->
  weekContents now (done ++ logs) (fold_left (addToWeek now) logs gs).
Proof.
  revert done gs. induction logs as [| log logs IH]; intros done gs O C;
    cbn [fold_left].
  - rewrite app_nil_r. exact C.
  - replace (done ++ log :: logs) with ((done ++ [log]) ++ logs)
      by (rewrite <- app_assoc; reflexivity).
    apply IH.
    + apply (addToWeek_ok now gs log O).
    + apply addToWeek_contents; [apply O | exact C].
Qed.

(** The groups of the sorted entries, before the final sort. *)
Lemma grouped_contents logs now :
  let sorted := sortBy (fun log => getTime (startTime log)) logs in
  let gs := fold_left (addToWeek now) sorted [] in
  weekGroupsOk gs /\ weekContents now sorted gs.
Proof.
  cbv zeta. split.
  - apply (fold_addToWeek_ok now _ []). split; [constructor | intros k g []].
  - apply (fold_addToWeek_contents now _ [] []).
    + split; [constructor | intros k g []].
    + split; [intros l [] |]. split; [intros k g [] | reflexivity].
Qed.

Lemma groups_of logs now group :
  In group (groupLogsByWorkWeek logs now)
  <-> In (week_key group, group)
         (fold_left (addToWeek now)
            (sortBy (fun log => getTime (startTime log)) logs) []).
Proof.
  unfold groupLogsByWorkWeek. rewrite sortBy_In.
  destruct (grouped_contents logs now) as [[_ W] _]. cbv zeta in W.
  split.
  - intros I. apply in_map_iff in I as [[k g] [E I]]. cbn [snd] in E.
    subst g. destruct (W _ _ I) as [-> _]. exact I.
  - intros I. apply in_map_iff. exists (week_key group, group).
    split; [reflexivity | exact I].
Qed.

(** X12.  What a week group holds: its entries are the entries of the list
    whose work week has the key of the group, in ascending order of start
    (entries that start at the same instant in the order of the list), at
    least one; its total is the sum of their display minutes and is not
    negative.  The groups share the entries of the list among them, so the
    totals of the groups add up to the display minutes of the whole list. *)
Theorem groupLogsByWorkWeek_contents (logs : list (TimeLog Z)) (now : Z) :
  let groups := groupLogsByWorkWeek logs now in
  (forall group, In group groups ->
     week_logs group
     = List.filter (inWeek (week_key group))
         (sortBy (fun log => getTime (startTime log)) logs)
     /\ week_logs group <> []
     /\ StronglySorted (fun l1 l2 => startTime l1 <= startTime l2)
          (week_logs group)
     /\ week_totalMinutes group
        = sumZ (map (fun l => getLogMinutes l now) (week_logs group))
     /\ week_totalMinutes group = sumLogMinutes (week_logs group) now
     /\ 0 <= week_totalMinutes group)
  /\ Permutation (concat (map week_logs groups)) logs
  /\ sumZ (map week_totalMinutes groups) = sumLogMinutes logs now.
Proof.
  intros groups.
  destruct (grouped_contents logs now) as [O [Cov [Con Per]]].
  cbv zeta in O, Cov, Con, Per.
  set (sorted := sortBy (fun log => getTime (startTime log)) logs) in *.
  set (gs := fold_left (addToWeek now) sorted []) in *.
  assert (Each : forall group, In group groups ->
            week_logs group = List.filter (inWeek (week_key group)) sorted
            /\ week_logs group <> []
            /\ week_totalMinutes group
               = sumZ (map (fun l => getLogMinutes l now) (week_logs group))).
  { intros group I. apply groups_of in I. apply (Con _ _ I). }
  assert (P1 : Permutation (concat (map week_logs groups)) logs).
  { unfold groups, groupLogsByWorkWeek. fold sorted. fold gs.
    rewrite (concat_Permutation _ (map week_logs (map snd gs))).
    - rewrite map_map. rewrite Per. apply sortBy_Permutation.
    - apply Permutation_map, sortBy_Permutation. }
  split; [| split].
  - intros group I. destruct (Each group I) as [L [Ne T]].
    split; [exact L |]. split; [exact Ne |].
    split.
    { rewrite L. apply sorted_filter.
      apply (sortBy_sorted (fun log => getTime (startTime log))). }
    split; [exact T |]. split.
    + rewrite sumLogMinutes_sum. exact T.
    + rewrite T. apply sum_minutes_nonneg.
  - exact P1.
  - rewrite sumLogMinutes_sum.
    rewrite <- (sumZ_map_Permutation _ _ _ P1).
    assert (G : forall gl : list WorkWeekGroup,
              (forall g, In g gl ->
                 week_totalMinutes g
                 = sumZ (map (fun l => getLogMinutes l now) (week_logs g))) ->
              sumZ (map week_totalMinutes gl)
              = sumZ (map (fun l => getLogMinutes l now)
                        (concat (map week_logs gl)))).
    { induction gl as [| g gl IH]; intros T; cbn [map concat];
        [reflexivity |].
      rewrite sumZ_cons, map_app, LifecycleMore.sumZ_app.
      rewrite <- (T g) by (left; reflexivity).
      rewrite IH by (intros g' I'; apply T; right; exact I'). reflexivity. }
    apply G. intros g I. apply (Each g I).
Qed.

Lemma sorted_weaken {A : Type} (R R' : A -> A -> Prop) l :
  (forall a b, In a l -> In b l -> R a b -> R' a b) ->
  StronglySorted R l -> StronglySorted R' l.
Proof.
  intros W S. induction S as [| x l S IH F]; [constructor |].
  constructor.
  - apply IH. intros a b Ia Ib. apply W; right; assumption.
  - apply List.Forall_forall. intros b I. rewrite List.Forall_forall in F.
    apply W; [left; reflexivity | right; exact I | apply F, I].
Qed.

(** The shape of a group of the result: it starts at the local midnight
    that opens a Monday and ends on the Saturday of that week. *)
Lemma group_shape logs now group :
  In group (groupLogsByWorkWeek logs now) ->
  week_key group = toDayKey (week_startDate group)
  /\ getDay (week_startDate group) = 1
  /\ localTimeOfDay (week_startDate group) = 0
  /\ localDay (week_endDate group) = localDay (week_startDate group) + 5
  /\ localTimeOfDay (week_endDate group) = 86399999
  /\ forall l, In l (week_logs group) ->
       getWorkWeekStartMonday (startTime l) = week_startDate group.
Proof.
  intros I. apply groups_of in I.
  destruct (grouped_contents logs now) as [[_ W] [_ [Con _]]].
  cbv zeta in W, Con.
  destruct (W _ _ I) as [_ [K [T [S L]]]].
  destruct (Con _ _ I) as [_ [Ne _]].
  split; [exact K |]. split.
  { destruct (week_logs group) as [| l rest] eqn:E; [contradiction |].
    rewrite <- (L l) by (left; reflexivity).
    apply (getWorkWeekStartMonday_spec (startTime l)). }
  split; [exact T |].
  rewrite S, getWorkWeekEndSaturday_localDay, getWorkWeekEndSaturday_timeOfDay.
  split; [reflexivity |]. split; [reflexivity | exact L].
Qed.

(** X13.  The week groups come in chronological order and their weeks do
    not overlap, in the local calendar: each group starts on a Monday at
    local midnight and ends on the Saturday five days later at
    23:59:59.999, after its start; it ends before the start of every later
    group, whose Monday is at least seven days later; so no two groups
    have the same week. *)
Theorem groupLogsByWorkWeek_order (logs : list (TimeLog Z)) (now : Z) :
  let groups := groupLogsByWorkWeek logs now in
  StronglySorted (fun g1 g2 => week_endDate g1 < week_startDate g2) groups
  /\ StronglySorted
       (fun g1 g2 => localDay (week_startDate g1) + 7
                     <= localDay (week_startDate g2)) groups
  /\ forall group, In group groups ->
       getDay (week_startDate group) = 1
       /\ localTimeOfDay (week_startDate group) = 0
       /\ getDay (week_endDate group) = 6
       /\ localDay (week_endDate group) = localDay (week_startDate group) + 5
       /\ localTimeOfDay (week_endDate group) = MakeTime 23 59 59 999
       /\ week_startDate group < week_endDate group.
Proof.
  intros groups.
  assert (S : StronglySorted
                (fun g1 g2 => week_startDate g1 < week_startDate g2) groups).
  { apply (sorted_strict week_startDate).
    - apply (sortBy_sorted (fun group => getTime (week_startDate group))).
    - apply (NoDup_map_coarser week_key).
      + intros x y Ix Iy E.
        destruct (group_shape logs now x Ix) as [Kx _].
        destruct (group_shape logs now y Iy) as [Ky _].
        rewrite Kx, Ky, E. reflexivity.
      + destruct (grouped_contents logs now) as [[D W] _].
        cbv zeta in D, W.
        unfold groups, groupLogsByWorkWeek.
        eapply Permutation_NoDup.
        * apply Permutation_map. symmetry. apply sortBy_Permutation.
        * rewrite group_keys; [exact D |].
          intros k g I. apply (W k g I). }
  assert (Apart : forall a b, In a groups -> In b groups ->
            week_startDate a < week_startDate b ->
            localDay (week_startDate a) + 7 <= localDay (week_startDate b)).
  { intros a b Ia Ib L.
    destruct (group_shape logs now a Ia) as [_ [Ma [Ta _]]].
    destruct (group_shape logs now b Ib) as [_ [Mb [Tb _]]].
    rewrite getDay_localDay in Ma, Mb.
    pose proof (instant_of_local (week_startDate a)) as Sa.
    pose proof (instant_of_local (week_startDate b)) as Sb.
    rewrite Ta in Sa. rewrite Tb in Sb. unfold msPerDay in *.
    Z.div_mod_to_equations. lia. }
  split; [| split].
  - revert S. apply sorted_weaken. intros a b Ia Ib L.
    pose proof (Apart a b Ia Ib L) as A.
    destruct (group_shape logs now a Ia) as [_ [_ [_ [Da [Ea _]]]]].
    destruct (group_shape logs now b Ib) as [_ [_ [Tb _]]].
    pose proof (instant_of_local (week_endDate a)) as Ie.
    pose proof (instant_of_local (week_startDate b)) as Sb.
    rewrite Da, Ea in Ie. rewrite Tb in Sb. unfold msPerDay in *. lia.
  - revert S. apply sorted_weaken. exact Apart.
  - intros group I.
    destruct (group_shape logs now group I) as [_ [M [T [D [E _]]]]].
    split; [exact M |]. split; [exact T |].
    split; [rewrite getDay_localDay in *; rewrite D;
            Z.div_mod_to_equations; lia |].
    split; [exact D |]. split; [rewrite E; reflexivity |].
    pose proof (instant_of_local (week_endDate group)) as Ie.
    pose proof (instant_of_local (week_startDate group)) as Is.
    rewrite D, E in Ie. rewrite T in Is. unfold msPerDay in *. lia.
Qed.

(** X14.  Where an entry lies in the span of its group, in the local
    calendar: it never starts before the start of the group, and starts on
    the Monday of the group or on one of the six days after it; an entry
    that starts on a day from Monday to Saturday starts within the span
    from the start to the end of the group, and an entry that starts on a
    Sunday starts after the end of its group, on the day after the
    Saturday the group ends on. *)
Theorem groupLogsByWorkWeek_span (logs : list (TimeLog Z)) (now : Z)
  (group : WorkWeekGroup) (log : TimeLog Z) :
  In group (groupLogsByWorkWeek logs now) ->
  In log (week_logs group) ->
  week_startDate group <= startTime log
  /\ localDay (week_startDate group) <= localDay (startTime log)
     <= localDay (week_startDate group) + 6
  /\ (getDay (startTime log) <> 0 ->
      startTime log <= week_endDate group
      /\ localDay (startTime log) <= localDay (week_endDate group))
  /\ (getDay (startTime log) = 0 ->
      week_endDate group < startTime log
      /\ localDay (startTime log) = localDay (week_endDate group) + 1).
Proof.
  intros Ig Il.
  destruct (group_shape logs now group Ig) as [_ [M [T [D [E L]]]]].
  pose proof (L log Il) as Mo.
  pose proof (getWorkWeekStartMonday_localDay (startTime log)) as Ld.
  rewrite Mo in Ld.
  pose proof (instant_of_local (week_endDate group)) as Ie.
  pose proof (instant_of_local (week_startDate group)) as Is.
  pose proof (instant_of_local (startTime log)) as It.
  pose proof (TimeWithinDay_bounds (LocalTime (startTime log))) as B.
  fold (localTimeOfDay (startTime log)) in B.
  rewrite E in Ie. rewrite T in Is.
  rewrite getDay_localDay.
  unfold msPerDay in *.
  set (d := localDay (startTime log)) in *.
  set (m := localDay (week_startDate group)) in *.
  set (s := localDay (week_endDate group)) in *.
  assert (R : 0 <= d - m <= 6 /\ ((d + 4) mod 7 = 0 <-> d - m = 6))
    by (Z.div_mod_to_equations; lia).
  destruct R as [R1 R2].
  repeat split; lia.
Qed.

End Weeks.
End WeekMore.

(* ===================================================================== *)
(** * The fields of the CSV export *)
(* ===================================================================== *)

Module CsvFacts.

Lemma append_nil (b : string) : EmptyString +:+ b = b.
Proof. reflexivity. Qed.

Lemma append_cons (x : ascii) (a b : string) :
  String x a +:+ b = String x (a +:+ b).
Proof. reflexivity. Qed.

Lemma append_assoc (a b c : string) : (a +:+ b) +:+ c = a +:+ (b +:+ c).
Proof.
  induction a as [| x a IH]; [reflexivity |].
  rewrite !append_cons, IH. reflexivity.
Qed.

Lemma readQuotedBody_doubleQuotes (v rest : string) :
  noQuoteAhead rest ->
  readQuotedBody (doubleQuotes v +:+ String quote rest) = Some (v, rest).
Proof.
  intros N. induction v as [| c v IH]; cbn [doubleQuotes].
  - rewrite append_nil. cbn [readQuotedBody]. rewrite Ascii.eqb_refl.
    destruct rest as [| c' rest']; [reflexivity |].
    cbn [noQuoteAhead] in N.
    destruct (Ascii.eqb_spec c' quote) as [E |]; [contradiction | reflexivity].
  - destruct (Ascii.eqb_spec c quote) as [-> | Nc]; rewrite !append_cons.
    + cbn [readQuotedBody]. rewrite Ascii.eqb_refl.
      fold readQuotedBody. rewrite IH. reflexivity.
    + cbn [readQuotedBody].
      destruct (Ascii.eqb_spec c quote) as [E |]; [contradiction |].
      fold readQuotedBody. rewrite IH. reflexivity.
Qed.

Lemma length_doubleQuotes (v : string) :
  (String.length v <= String.length (doubleQuotes v))%nat.
Proof.
  induction v as [| c v IH]; cbn [doubleQuotes String.length]; [lia |].
  destruct (Ascii.eqb c quote); cbn [String.length]; lia.
Qed.

(** X15.  A field escaped for the CSV export reads back: a reader of
    quoted fields, for which a doubled quote inside the quotes stands for
    one quote, gets the value back from the escaped field, whatever the
    value holds (commas, line breaks, quotes) and whatever follows the
    field, as long as that does not begin with a quote; so two values with
    the same escaped field are equal. *)
Theorem csvEscape_reads_back (value rest : string) :
  noQuoteAhead rest ->
  readQuoted (csvEscape value +:+ rest) = Some (value, rest)
  /\ (forall other, csvEscape other = csvEscape value -> other = value)
  /\ (String.length value + 2 <= String.length (csvEscape value))%nat.
Proof.
  intros N.
  assert (R : forall v r, noQuoteAhead r ->
              readQuoted (csvEscape v +:+ r) = Some (v, r)).
  { intros v r Nr. unfold csvEscape, readQuoted. rewrite append_cons.
    rewrite Ascii.eqb_refl, append_assoc, append_cons, append_nil.
    apply readQuotedBody_doubleQuotes, Nr. }
  split; [apply R, N |]. split.
  - intros other E.
    pose proof (R other EmptyString I) as Ro.
    pose proof (R value EmptyString I) as Rv.
    rewrite E, Rv in Ro. congruence.
  - unfold csvEscape. cbn [String.length].
    rewrite KeyFacts.length_append. cbn [String.length].
    pose proof (length_doubleQuotes value). lia.
Qed.

End CsvFacts.

(* ===================================================================== *)
(** * The month value of the calendar *)
(* ===================================================================== *)

Module MonthFacts.

Lemma In_upto_11 (d : Z) :
  0 <= d <= 11 -> In d [0; 1; 2; 3; 4; 5; 6; 7; 8; 9; 10; 11].
Proof.
  intros B.
  assert (C : d = 0 \/ d = 1 \/ d = 2 \/ d = 3 \/ d = 4 \/ d = 5 \/ d = 6
              \/ d = 7 \/ d = 8 \/ d = 9 \/ d = 10 \/ d = 11) by lia.
  cbn [In]. intuition auto.
Qed.

Lemma In_digits (d : Z) :
  0 <= d <= 9 -> In d [0; 1; 2; 3; 4; 5; 6; 7; 8; 9].
Proof.
  intros B.
  assert (C : d = 0 \/ d = 1 \/ d = 2 \/ d = 3 \/ d = 4 \/ d = 5 \/ d = 6
              \/ d = 7 \/ d = 8 \/ d = 9) by lia.
  cbn [In]. intuition auto.
Qed.

Lemma In_nonzero_digits (d : Z) :
  1 <= d <= 9 -> In d [1; 2; 3; 4; 5; 6; 7; 8; 9].
Proof.
  intros B.
  assert (C : d = 1 \/ d = 2 \/ d = 3 \/ d = 4 \/ d = 5 \/ d = 6
              \/ d = 7 \/ d = 8 \/ d = 9) by lia.
  cbn [In]. intuition auto.
Qed.

Lemma year_text (y : Z) :
  1000 <= y <= 9999 ->
  exists c1 c2 c3 c4,
    toString y = String c1 (String c2 (String c3 (String c4 EmptyString)))
    /\ isDigit c1 && isDigit c2 && isDigit c3 && isDigit c4 = true
    /\ 1000 * digitValue c1 + 100 * digitValue c2 + 10 * digitValue c3
       + digitValue c4 = y.
Proof.
  intros Y.
  assert (T : forallb (fun d1 =>
              forallb (fun d2 =>
              forallb (fun d3 =>
              forallb (fun d4 =>
                let yy := 1000 * d1 + 100 * d2 + 10 * d3 + d4 in
                match toString yy with
                | String c1 (String c2 (String c3 (String c4 EmptyString))) =>
                    isDigit c1 && isDigit c2 && isDigit c3 && isDigit c4
                    && (1000 * digitValue c1 + 100 * digitValue c2
                        + 10 * digitValue c3 + digitValue c4 =? yy)
                | _ => false
                end)
                [0; 1; 2; 3; 4; 5; 6; 7; 8; 9])
                [0; 1; 2; 3; 4; 5; 6; 7; 8; 9])
                [0; 1; 2; 3; 4; 5; 6; 7; 8; 9])
                [1; 2; 3; 4; 5; 6; 7; 8; 9] = true)
    by (vm_compute; reflexivity).
  rewrite List.forallb_forall in T.
  specialize (T (y / 1000)
                ltac:(apply In_nonzero_digits;
                      Z.div_mod_to_equations; lia)).
  rewrite List.forallb_forall in T.
  specialize (T (y / 100 mod 10)
                ltac:(apply In_digits; Z.div_mod_to_equations; lia)).
  rewrite List.forallb_forall in T.
  specialize (T (y / 10 mod 10)
                ltac:(apply In_digits; Z.div_mod_to_equations; lia)).
  rewrite List.forallb_forall in T.
  specialize (T (y mod 10)
                ltac:(apply In_digits; Z.div_mod_to_equations; lia)).
  cbv zeta in T.
  replace (1000 * (y / 1000) + 100 * (y / 100 mod 10) + 10 * (y / 10 mod 10)
           + y mod 10) with y in T by (Z.div_mod_to_equations; lia).
  destruct (toString y) as [| c1 [| c2 [| c3 [| c4 [| c5 rest]]]]];
    try discriminate.
  exists c1, c2, c3, c4. apply andb_prop in T as [D V].
  split; [reflexivity |]. split; [exact D | apply Z.eqb_eq, V].
Qed.

Lemma month_text (m : Z) :
  0 <= m <= 11 ->
  exists m1 m2,
    padStart2 (toString (m + 1)) = String m1 (String m2 EmptyString)
    /\ isDigit m1 && isDigit m2 = true
    /\ 10 * digitValue m1 + digitValue m2 = m + 1.
Proof.
  intros M.
  assert (T : forallb (fun mm =>
                match padStart2 (toString (mm + 1)) with
                | String m1 (String m2 EmptyString) =>
                    isDigit m1 && isDigit m2
                    && (10 * digitValue m1 + digitValue m2 =? mm + 1)
                | _ => false
                end)
                [0; 1; 2; 3; 4; 5; 6; 7; 8; 9; 10; 11] = true)
    by (vm_compute; reflexivity).
  rewrite List.forallb_forall in T.
  specialize (T m (In_upto_11 m M)).
  destruct (padStart2 (toString (m + 1))) as [| m1 [| m2 [| m3 rest]]];
    try discriminate.
  exists m1, m2. apply andb_prop in T as [D V].
  split; [reflexivity |]. split; [exact D | apply Z.eqb_eq, V].
Qed.

Lemma month_text_parses (y m : Z) :
  1000 <= y <= 9999 -> 0 <= m <= 11 ->
  parseMonthInputValue
    (toString y +:+ "-" +:+ padStart2 (toString (m + 1)))
  = Some (y, m).
Proof.
  intros Y M.
  destruct (year_text y Y) as [c1 [c2 [c3 [c4 [Ey [Dy Vy]]]]]].
  destruct (month_text m M) as [m1 [m2 [Em [Dm Vm]]]].
  rewrite Ey, Em.
  change (parseMonthInputValue
            (String c1 (String c2 (String c3 (String c4
               (String "-" (String m1 (String m2 EmptyString)))))))
          = Some (y, m)).
  unfold parseMonthInputValue.
  apply andb_prop in Dm as [Dm1 Dm2].
  rewrite Dy, Dm1, Dm2, Vy, Vm. cbn [andb Ascii.eqb Bool.eqb].
  destruct (Z.ltb_spec (m + 1) 1); [lia |].
  destruct (Z.ltb_spec 12 (m + 1)); [lia |].
  cbn [orb]. f_equal. f_equal. lia.
Qed.

Section Months.
Context {host : Host}.

(** X16.  The month value written for a date of a year from 1000 to 9999
    reads back as the year and the month of the date; the calendar built
    from it does not depend on the current instant. *)
Theorem toMonthInputValue_reads_back (date : Z) :
  1000 <= getFullYear date <= 9999 ->
  parseMonthInputValue (toMonthInputValue date)
  = Some (getFullYear date, getMonth date)
  /\ forall fallback,
       buildCalendarCells (toMonthInputValue date) fallback
       = buildCalendarCells (toMonthInputValue date) date.
Proof.
  intros Y.
  assert (P : parseMonthInputValue (toMonthInputValue date)
              = Some (getFullYear date, getMonth date)).
  { unfold toMonthInputValue. apply month_text_parses; [exact Y |].
    rewrite getMonth_localDay. apply MonthFromDay_spec. }
  split; [exact P |].
  intros fallback. unfold buildCalendarCells. rewrite P. reflexivity.
Qed.

End Months.
End MonthFacts.

(* ===================================================================== *)
(** * The summary of a day *)
(* ===================================================================== *)

Module SummaryFacts.

Section Summary.
Context {host : Host}.

Lemma summarizes_snoc now dayLogs s log :
  summarizes now dayLogs s ->
  summarizes now (dayLogs ++ [log])
    {| ds_minutes := ds_minutes s + getLogMinutes log now;
       ds_sessions := ds_sessions s + 1;
       ds_firstIn :=
         match ds_firstIn s with
         | None => Some (startTime log)
         | Some f => if startTime log <? f then Some (startTime log)
                     else Some f
         end;
       ds_lastOut :=
         match ds_lastOut s with
         | None => Some (endOr now log)
         | Some l => if l <? endOr now log then Some (endOr now log)
                     else Some l
         end |}.
Proof.
  intros [N [M R]]. unfold summarizes.
  cbn [ds_sessions ds_minutes ds_firstIn ds_lastOut].
  split; [rewrite N, length_app; cbn [length]; lia |].
  split; [rewrite M, map_app, LifecycleMore.sumZ_app; cbn [map];
          rewrite sumZ_cons, sumZ_nil; lia |].
  destruct dayLogs as [| l0 rest].
  - destruct R as [F L]. rewrite F, L. cbn [app].
    exists (startTime log), (endOr now log).
    split; [reflexivity |]. split; [reflexivity |].
    split; [exists log; split; [left |]; reflexivity |].
    split; [intros l [<- | []]; lia |].
    split; [exists log; split; [left |]; reflexivity |].
    intros l [<- | []]; lia.
  - destruct R as [first [last [F [L [[lf [If Ef]] [Lo [[ll [Il El]] Hi]]]]]]].
    rewrite F, L.
    set (all := (l0 :: rest) ++ [log]).
    assert (Old : forall l, In l (l0 :: rest) -> In l all)
      by (intros l I; apply in_or_app; left; exact I).
    assert (New : In log all)
      by (apply in_or_app; right; left; reflexivity).
    assert (Inv : forall l, In l all -> In l (l0 :: rest) \/ l = log).
    { intros l I. apply in_app_or in I as [I | [<- | []]];
        [left; exact I | right; reflexivity]. }
    change ((l0 :: rest) ++ [log]) with all.
    destruct all as [| a all'] eqn:A; [destruct New |]. rewrite <- A in *.
    exists (if startTime log <? first then startTime log else first),
           (if last <? endOr now log then endOr now log else last).
    split; [destruct (startTime log <? first); reflexivity |].
    split; [destruct (last <? endOr now log); reflexivity |].
    split; [| split; [| split]].
    + destruct (Z.ltb_spec (startTime log) first);
        [exists log; split; [exact New | reflexivity]
        | exists lf; split; [apply Old, If | exact Ef]].
    + intros l I. destruct (Inv l I) as [I' | ->];
        [pose proof (Lo l I') |];
        destruct (Z.ltb_spec (startTime log) first); lia.
    + destruct (Z.ltb_spec last (endOr now log));
        [exists log; split; [exact New | reflexivity]
        | exists ll; split; [apply Old, Il | exact El]].
    + intros l I. destruct (Inv l I) as [I' | ->];
        [pose proof (Hi l I') |];
        destruct (Z.ltb_spec last (endOr now log)); lia.
Qed.

Lemma addToSummary_get now m log key :
  Map_get (addToSummary now m log) key
  = if startsOn key log
    then
      let s := match Map_get m key with
               | Some e => e
               | None => emptyDaySummary
               end in
      Some {| ds_minutes := ds_minutes s + getLogMinutes log now;
              ds_sessions := ds_sessions s + 1;
              ds_firstIn :=
                match ds_firstIn s with
                | None => Some (startTime log)
                | Some f => if startTime log <? f then Some (startTime log)
                            else Some f
                end;
              ds_lastOut :=
                match ds_lastOut s with
                | None => Some (endOr now log)
                | Some l => if l <? endOr now log then Some (endOr now log)
                            else Some l
                end |}
    else Map_get m key.
Proof.
  unfold addToSummary, startsOn. rewrite Map_get_set.
  destruct (String.eqb_spec (toDayKey (startTime log)) key) as [-> | N];
    reflexivity.
Qed.

(** The summary under a key, after the loop has gone through [logs]. *)
Lemma daySummaryByKey_get logs now key :
  match Map_get (daySummaryByKey logs now) key with
  | Some s =>
      List.filter (startsOn key) logs <> []
      /\ summarizes now (List.filter (startsOn key) logs) s
  | None => List.filter (startsOn key) logs = []
  end.
Proof.
  unfold daySummaryByKey.
  induction logs as [| log logs IH] using rev_ind; [reflexivity |].
  rewrite fold_left_app. cbn [fold_left].
  rewrite addToSummary_get, List.filter_app. cbn [List.filter].
  destruct (startsOn key log) eqn:S.
  - cbv zeta. split.
    + intros X. apply app_eq_nil in X as [_ X]. discriminate.
    + apply summarizes_snoc.
      destruct (Map_get (fold_left (addToSummary now) logs []) key)
        as [s |].
      * apply IH.
      * rewrite IH. repeat split; reflexivity.
  - rewrite app_nil_r. exact IH.
Qed.

(** X17.  The summary of a day, as the calendar shows it for a day key:
    the number of entries that start on that local day, the sum of their
    display minutes, the earliest of their starts and the latest of their
    ends, the end of a running entry being the current instant; a day
    without entries has the empty summary, and only such a day has no
    summary in the map. *)
Theorem daySummaryByKey_of_day (logs : list (TimeLog Z)) (now : Z)
  (key : string) :
  let dayLogs := List.filter (startsOn key) logs in
  let summary := daySummaryByKey logs now in
  summarizes now dayLogs (selectedDaySummary summary key)
  /\ ds_minutes (selectedDaySummary summary key) = sumLogMinutes dayLogs now
  /\ 0 <= ds_minutes (selectedDaySummary summary key)
  /\ (Map_has summary key = false <-> dayLogs = [])
  /\ (forall t, key = toDayKey t ->
      forall l, In l dayLogs <-> In l logs /\ localDay (startTime l) = localDay t).
Proof.
  cbv zeta. pose proof (daySummaryByKey_get logs now key) as G.
  unfold selectedDaySummary, Map_has.
  destruct (Map_get (daySummaryByKey logs now) key) as [s |].
  - destruct G as [Ne Sm].
    split; [exact Sm |].
    split; [rewrite WeekMore.sumLogMinutes_sum; apply Sm |].
    split; [rewrite (proj1 (proj2 Sm)); apply sum_minutes_nonneg |].
    split; [split; [discriminate | contradiction] |].
    intros t -> l. rewrite List.filter_In. unfold startsOn.
    rewrite <- toDayKey_eq_iff.
    destruct (String.eqb_spec (toDayKey (startTime l)) (toDayKey t));
      intuition congruence.
  - rewrite G.
    split; [repeat split; reflexivity |].
    split; [reflexivity |]. split; [cbn; lia |].
    split; [split; reflexivity |].
    intros t -> l. rewrite <- G, List.filter_In. unfold startsOn.
    rewrite <- toDayKey_eq_iff.
    destruct (String.eqb_spec (toDayKey (startTime l)) (toDayKey t));
      intuition congruence.
Qed.

End Summary.
End SummaryFacts.

(* ===================================================================== *)
(** * The report and the summaries of its days *)
(* ===================================================================== *)

Module ReportMore.

Lemma fold_left_sum {A : Type} (f : A -> Z) (l : list A) (acc : Z) :
  fold_left (fun total x => total + f x) l acc = acc + sumZ (map f l).
Proof.
  revert acc. induction l as [| x l IH]; intros acc; cbn [fold_left map].
  - rewrite sumZ_nil. lia.
  - rewrite IH, sumZ_cons. lia.
Qed.

Lemma length_filter_orb {A : Type} (p q : A -> bool) (l : list A) :
  (forall x, In x l -> p x = true -> q x = true -> False) ->
  length (List.filter (fun x => p x || q x) l)
  = (length (List.filter p l) + length (List.filter q l))%nat.
Proof.
  induction l as [| x l IH]; intros D; cbn [List.filter]; [reflexivity |].
  assert (IH' := IH (fun y I => D y (or_intror I))).
  pose proof (D x (or_introl eq_refl)) as Dx.
  destruct (p x), (q x); cbn [orb length];
    first [lia | exfalso; apply Dx; reflexivity].
Qed.

Section Report.
Context {host : Host}.

(** The entries that start on the days of the keys are as many as the
    entries of each key together. *)
Lemma sessions_sum (keys : list string) (logs : list (TimeLog Z)) :
  List.NoDup keys ->
  sumZ (map (fun k => Z.of_nat (length (List.filter (startsOn k) logs))) keys)
  = Z.of_nat (length (List.filter
                        (fun l => existsb (fun k => startsOn k l) keys)
                        logs)).
Proof.
  induction keys as [| k keys IH]; intros D; cbn [map existsb].
  - rewrite sumZ_nil. rewrite WeekMore.filter_none by reflexivity.
    reflexivity.
  - apply List.NoDup_cons_iff in D as [N D].
    rewrite sumZ_cons, (IH D), length_filter_orb; [lia |].
    intros l _ P Q. apply N. apply existsb_exists in Q as [k' [I Q]].
    unfold startsOn in P, Q.
    apply String.eqb_eq in P. apply String.eqb_eq in Q.
    rewrite <- P, Q. exact I.
Qed.

(** A point of the report: its day is a day of the window and its minutes
    are the display minutes of the entries that start on that day. *)
Lemma report_point logs days hourlyRate now point :
  In point (buildLastDaysReport logs days hourlyRate now) ->
  In (dayKey point) (map fst (seedDays now (Z.to_nat days) []))
  /\ minutes point
     = sumZ (map (fun log => getLogMinutes log now)
               (List.filter (startsOn (dayKey point)) logs)).
Proof.
  unfold buildLastDaysReport. intros I.
  apply in_map_iff in I as [[k v] [E I]]. subst point.
  cbn [reportPoint dayKey minutes].
  set (seeded := seedDays now (Z.to_nat days) []) in *.
  pose proof (fold_addLogMinutes_keys now logs seeded) as K.
  assert (G : Map_get (fold_left (addLogMinutes now) logs seeded) k = Some v).
  { apply Map_get_NoDup; [| exact I]. rewrite K. apply seeded_NoDup. }
  rewrite fold_addLogMinutes_get in G.
  destruct (Map_get seeded k) as [c |] eqn:S; [| discriminate].
  apply Map_get_In in S.
  split; [apply (in_map fst) in S; exact S |].
  unfold seeded in S. rewrite seeded_window in S.
  apply in_map_iff in S as [i [Ei _]].
  injection Ei as _ <-. injection G as <-.
  unfold startsOn. lia.
Qed.

(** X18.  The report and the summaries of the days agree: the minutes of a
    point of the report are the minutes of the summary of its day, and the
    sessions counted over the days of the report are the entries that
    start on a day of its window. *)
Theorem report_agrees_with_summaries (logs : list (TimeLog Z)) (days : Z)
  (hourlyRate : Q) (now : Z) :
  let report := buildLastDaysReport logs days hourlyRate now in
  let summary := daySummaryByKey logs now in
  (forall point, In point report ->
     minutes point = ds_minutes (selectedDaySummary summary (dayKey point))
     /\ (0 < minutes point -> 0 < ds_sessions
                                    (selectedDaySummary summary (dayKey point))))
  /\ lastSevenDaysSessions report summary
     = Z.of_nat (length (List.filter (startsInWindow now days) logs)).
Proof.
  cbv zeta.
  assert (Get : forall key,
            summarizes now (List.filter (startsOn key) logs)
              (selectedDaySummary (daySummaryByKey logs now) key)).
  { intros key. pose proof (SummaryFacts.daySummaryByKey_get logs now key) as G.
    unfold selectedDaySummary.
    destruct (Map_get (daySummaryByKey logs now) key) as [s |];
      [apply G | rewrite G; repeat split; reflexivity]. }
  split.
  - intros point I. destruct (report_point _ _ _ _ _ I) as [_ M].
    destruct (Get (dayKey point)) as [N [S _]].
    split; [rewrite M, S; reflexivity |].
    rewrite N, M.
    destruct (List.filter (startsOn (dayKey point)) logs);
      cbn [map length]; [rewrite sumZ_nil |]; lia.
  - unfold lastSevenDaysSessions.
    rewrite (fold_left_sum
               (fun day => match Map_get (daySummaryByKey logs now)
                                         (dayKey day) with
                           | Some s => ds_sessions s
                           | None => 0
                           end)).
    rewrite Z.add_0_l.
    unfold buildLastDaysReport.
    set (seeded := seedDays now (Z.to_nat days) []).
    rewrite map_map.
    rewrite (map_ext
               (fun entry =>
                  match Map_get (daySummaryByKey logs now)
                                (dayKey (reportPoint hourlyRate entry)) with
                  | Some s => ds_sessions s
                  | None => 0
                  end)
               (fun entry =>
                  Z.of_nat (length (List.filter (startsOn (fst entry)) logs)))).
    2:{ intros [k v]. cbn [reportPoint dayKey fst].
        pose proof (Get k) as [N _]. unfold selectedDaySummary in N.
        destruct (Map_get (daySummaryByKey logs now) k); exact N. }
    rewrite <- (map_map fst
                  (fun k => Z.of_nat (length (List.filter (startsOn k) logs)))).
    rewrite fold_addLogMinutes_keys.
    rewrite sessions_sum by apply seeded_NoDup.
    f_equal. f_equal. apply List.filter_ext. intros l.
    assert (H : existsb (fun k => startsOn k l) (map fst seeded)
                = Map_has seeded (toDayKey (startTime l))).
    { destruct (Map_has seeded (toDayKey (startTime l))) eqn:H.
      - apply Map_has_true in H. apply existsb_exists.
        exists (toDayKey (startTime l)). split; [exact H |].
        apply String.eqb_refl.
      - apply not_true_is_false. intros X.
        apply existsb_exists in X as [k [I X]].
        apply String.eqb_eq in X. subst k.
        apply Map_has_true in I. congruence. }
    rewrite H. unfold seeded. rewrite seeded_has.
    destruct (Z.le_gt_cases 0 days) as [P | P].
    + rewrite Z2Nat.id by exact P. reflexivity.
    + unfold startsInWindow.
      replace (Z.to_nat days) with O by lia.
      destruct (Z.leb_spec (localDay now - (Z.of_nat 0 - 1))
                           (localDay (startTime l)));
        destruct (Z.leb_spec (localDay (startTime l)) (localDay now));
        destruct (Z.leb_spec (localDay now - (days - 1))
                             (localDay (startTime l)));
        cbn [andb]; try reflexivity; lia.
Qed.

End Report.
End ReportMore.

(* ===================================================================== *)
(** * The idle monitor *)
(* ===================================================================== *)

Module IdleFacts.

Lemma idleTick_prompts refs idleMinutes clock :
  fst (idleTick refs idleMinutes clock) = true
  <-> idlePrompted refs = false
      /\ idleMinutes * 60000 <= clock - lastActivity refs.
Proof.
  unfold idleTick.
  destruct (idlePrompted refs);
    destruct (Z.ltb_spec (clock - lastActivity refs) (idleMinutes * 60000));
    cbn [orb fst]; intuition (try discriminate; try lia).
Qed.

Lemma idleTick_after refs idleMinutes clock :
  snd (idleTick refs idleMinutes clock)
  = if fst (idleTick refs idleMinutes clock)
    then {| lastActivity := lastActivity refs; idlePrompted := true |}
    else refs.
Proof.
  unfold idleTick.
  destruct (idlePrompted refs || _); reflexivity.
Qed.

(** X19.  The idle monitor asks at most once per idle period.  The interval
    prompts exactly when an entry at work is watched, no prompt is pending
    and the last activity is at least the idle minutes back; after a
    prompt it stays silent until an activity or a render without an entry
    at work re-arms it.  So along any run of events the number of prompts
    is at most the number of re-arming events, plus one when the run
    starts armed. *)
Theorem idle_prompts_bounded (idleMinutes : Z) (st : IdleState)
  (events : list IdleEvent) :
  (forall clock,
     fst (idleStep idleMinutes st (Tick clock)) = true
     <-> idle_watching st = true
         /\ idlePrompted (idle_refs st) = false
         /\ idleMinutes * 60000 <= clock - lastActivity (idle_refs st))
  /\ (fst (idleRun idleMinutes st events)
      <= (if idlePrompted (idle_refs st) then 0 else 1)
         + length (List.filter rearms events))%nat
  /\ (forall clock,
        fst (idleStep idleMinutes st (Tick clock)) = true ->
        forall ticks,
          Forall (fun ev => rearms ev = false) ticks ->
          fst (idleRun idleMinutes
                 (snd (idleStep idleMinutes st (Tick clock))) ticks) = O).
Proof.
  assert (Step : forall s clock,
            fst (idleStep idleMinutes s (Tick clock)) = true
            <-> idle_watching s = true
                /\ idlePrompted (idle_refs s) = false
                /\ idleMinutes * 60000 <= clock - lastActivity (idle_refs s)).
  { intros s clock. cbn [idleStep].
    destruct (idle_watching s).
    - pose proof (idleTick_prompts (idle_refs s) idleMinutes clock) as T.
      destruct (idleTick (idle_refs s) idleMinutes clock) as [p r].
      cbn [fst] in *. tauto.
    - cbn [fst]. intuition discriminate. }
  assert (Bound : forall evs s,
            (fst (idleRun idleMinutes s evs)
             <= (if idlePrompted (idle_refs s) then 0 else 1)
                + length (List.filter rearms evs))%nat).
  { induction evs as [| ev evs IH]; intros s; cbn [idleRun List.filter].
    - cbn [fst length]. lia.
    - destruct ev as [entry | clock | clock]; cbn [idleStep rearms].
      + unfold idleEffect.
        destruct entry as [log |];
          [destruct (decide (status log = active)) |];
          match goal with
          | |- context [idleRun idleMinutes ?s' evs] =>
              pose proof (IH s') as B;
              destruct (idleRun idleMinutes s' evs) as [count final]
          end;
          cbn [fst idle_refs idlePrompted length] in *;
          destruct (idlePrompted (idle_refs s)); lia.
      + pose proof (IH {| idle_refs := trackActivity (idle_refs s) clock;
                          idle_watching := idle_watching s |}) as B.
        destruct (idleRun idleMinutes _ evs) as [count final].
        cbn [fst idle_refs trackActivity idlePrompted length] in *.
        destruct (idlePrompted (idle_refs s)); lia.
      + destruct (idle_watching s) eqn:W.
        * pose proof (idleTick_prompts (idle_refs s) idleMinutes clock) as P.
          pose proof (idleTick_after (idle_refs s) idleMinutes clock) as A.
          destruct (idleTick (idle_refs s) idleMinutes clock) as [p r].
          cbn [fst snd] in P, A. subst r.
          destruct p.
          -- pose proof (IH {| idle_refs :=
                                 {| lastActivity := lastActivity (idle_refs s);
                                    idlePrompted := true |};
                               idle_watching := true |}) as B.
             destruct (idleRun idleMinutes _ evs) as [count final].
             cbn [fst idle_refs idlePrompted] in *.
             rewrite (proj1 (proj1 P eq_refl)). lia.
          -- pose proof (IH {| idle_refs := idle_refs s;
                               idle_watching := true |}) as B.
             destruct (idleRun idleMinutes _ evs) as [count final].
             cbn [fst idle_refs] in *. exact B.
        * pose proof (IH s) as B.
          destruct (idleRun idleMinutes s evs) as [count final].
          cbn [fst] in *. exact B. }
  split; [apply Step |]. split; [apply Bound |].
  intros clock T ticks F.
  apply Step in T as [W [Pr Due]].
  pose proof (Bound ticks (snd (idleStep idleMinutes st (Tick clock)))) as B.
  assert (After : idlePrompted
                    (idle_refs (snd (idleStep idleMinutes st (Tick clock))))
                  = true).
  { cbn [idleStep]. rewrite W.
    pose proof (idleTick_prompts (idle_refs st) idleMinutes clock) as P.
    pose proof (idleTick_after (idle_refs st) idleMinutes clock) as A.
    destruct (idleTick (idle_refs st) idleMinutes clock) as [p r].
    cbn [fst snd] in *. subst r.
    rewrite (proj2 P (conj Pr Due)). reflexivity. }
  rewrite After in B.
  rewrite WeekMore.filter_none in B.
  - cbn [length] in B. lia.
  - intros ev I. rewrite List.Forall_forall in F. apply F, I.
Qed.

End IdleFacts.

(* ===================================================================== *)
(** * The clock and the durations on display *)
(* ===================================================================== *)

Module DisplayFacts.

Lemma clock_fields (ms : Z) :
  0 <= ms ->
  ms / 1000 / 3600 = ms / 60000 / 60
  /\ (ms / 1000) mod 3600 / 60 = (ms / 60000) mod 60
  /\ 0 <= ms / 1000.
Proof.
  intros P.
  assert (S : 0 <= ms / 1000) by (apply Z.div_pos; lia).
  assert (E : ms / 60000 = ms / 1000 / 60)
    by (rewrite Z.div_div by lia; reflexivity).
  rewrite E. revert S. generalize (ms / 1000). intros a S.
  split; [| split; [| exact S]]; Z.div_mod_to_equations; lia.
Qed.

Section Display.
Context {host : Host}.

(** X20.  The running clock and the durations agree.  For every entry and
    instant, the clock of the worked time shows, in two digits or more, the
    hours and the minutes that the duration of the worked minutes shows,
    the minutes below 60, followed by the seconds below 60; the hours are
    not cut off at a day.  A time or a duration below zero shows as zero. *)
Theorem clock_and_duration_agree (log : TimeLog Z) (now : Z) :
  let ms := calculateWorkedMilliseconds log now in
  let worked := calculateWorkedMinutes log now in
  (formatClock ms
   = padStart2 (toString (worked / 60)) +:+ ":"
     +:+ padStart2 (toString (worked mod 60)) +:+ ":"
     +:+ padStart2 (toString ((ms / 1000) mod 60)))
  /\ formatDuration worked
     = toString (worked / 60) +:+ "h " +:+ toString (worked mod 60) +:+ "m"
  /\ 0 <= worked mod 60 < 60
  /\ 0 <= (ms / 1000) mod 60 < 60
  /\ ms = (worked / 60) * 3600000 + (worked mod 60) * 60000
          + ((ms / 1000) mod 60) * 1000 + ms mod 1000
  /\ (forall below, below < 0 ->
        formatClock below = "00:00:00" /\ formatDuration below = "0h 0m").
Proof.
  cbv zeta. unfold calculateWorkedMinutes.
  set (ms := calculateWorkedMilliseconds log now).
  assert (P : 0 <= ms) by (unfold ms, calculateWorkedMilliseconds; lia).
  destruct (clock_fields ms P) as [H [M S]].
  assert (W : 0 <= ms / 60000) by (apply Z.div_pos; lia).
  split; [| split; [| split; [| split; [| split]]]].
  - unfold formatClock. cbv zeta. rewrite (Z.max_r 0 (ms / 1000)) by exact S.
    rewrite H, M. reflexivity.
  - unfold formatDuration. cbv zeta.
    rewrite (Z.max_r 0 (ms / 60000)) by exact W. reflexivity.
  - apply Z.mod_pos_bound. lia.
  - apply Z.mod_pos_bound. lia.
  - clear H M S W. Z.div_mod_to_equations. lia.
  - intros below B.
    assert (D : below / 1000 < 0) by (apply Z.div_lt_upper_bound; lia).
    unfold formatClock, formatDuration. cbv zeta.
    rewrite (Z.max_l 0 (below / 1000)) by lia.
    rewrite (Z.max_l 0 below) by lia.
    split; reflexivity.
Qed.

End Display.
End DisplayFacts.

(* ===================================================================== *)
(** * The list of entries: the active entry and the export range *)
(* ===================================================================== *)

Module ListFacts.

Lemma find_first_sorted {A : Type} (R : A -> A -> Prop) (p : A -> bool) l x :
  StronglySorted R l ->
  find p l = Some x ->
  forall y, In y l -> p y = true -> y = x \/ R x y.
Proof.
  induction 1 as [| a l S IH F]; cbn [find]; [discriminate |].
  destruct (p a) eqn:Pa.
  - intros E y I _. injection E as <-. destruct I as [-> | I];
      [left; reflexivity | right].
    rewrite List.Forall_forall in F. apply F, I.
  - intros E y [<- | I] Py; [congruence |]. apply IH; assumption.
Qed.

Lemma range_fold (logs : list (TimeLog Z)) (e l : Z) :
  let step := fun (range : Z * Z) (log : TimeLog Z) =>
                let '(earliest, latest) := range in
                (if startTime log <? earliest then startTime log
                 else earliest,
                 if latest <? startTime log then startTime log else latest) in
  let result := fold_left step logs (e, l) in
  fst result <= e /\ l <= snd result
  /\ (forall x, In x logs -> fst result <= startTime x <= snd result)
  /\ (fst result = e \/ exists x, In x logs /\ startTime x = fst result)
  /\ (snd result = l \/ exists x, In x logs /\ startTime x = snd result).
Proof.
  cbv zeta. revert e l.
  induction logs as [| log logs IH]; intros e l; cbn [fold_left fst snd].
  - split; [lia |]. split; [lia |]. split; [intros x [] |].
    split; left; reflexivity.
  - specialize (IH (if startTime log <? e then startTime log else e)
                   (if l <? startTime log then startTime log else l)).
    destruct IH as [Lo [Hi [All [Ex1 Ex2]]]].
    set (result := fold_left _ logs _) in *.
    assert (Be : fst result <= e /\ fst result <= startTime log)
      by (destruct (Z.ltb_spec (startTime log) e); lia).
    assert (Bl : l <= snd result /\ startTime log <= snd result)
      by (destruct (Z.ltb_spec l (startTime log)); lia).
    split; [lia |]. split; [lia |]. split; [| split].
    + intros x [<- | I]; [lia | apply All, I].
    + destruct Ex1 as [E | [x [I E]]].
      * destruct (Z.ltb_spec (startTime log) e).
        -- right. exists log. split; [left; reflexivity | congruence].
        -- left. exact E.
      * right. exists x. split; [right; exact I | exact E].
    + destruct Ex2 as [E | [x [I E]]].
      * destruct (Z.ltb_spec l (startTime log)).
        -- right. exists log. split; [left; reflexivity | congruence].
        -- left. exact E.
      * right. exists x. split; [right; exact I | exact E].
Qed.

Section Lists.
Context {host : Host}.

(** X21.  The entry the dashboard treats as active, in the list as the
    subscription delivers it, the most recent start first: it is a running
    entry of the list, no running entry of the list started after it, and
    there is none only if no entry of the list is running. *)
Theorem activeLog_is_latest_running (logs : list (TimeLog Z)) :
  Permutation (newestFirst logs) logs
  /\ StronglySorted (fun l1 l2 => startTime l2 <= startTime l1)
       (newestFirst logs)
  /\ (activeLog (newestFirst logs) = None
      <-> forall l, In l logs -> endTime l <> None)
  /\ forall log, activeLog (newestFirst logs) = Some log ->
       In log logs /\ endTime log = None
       /\ forall other, In other logs -> endTime other = None ->
            startTime other <= startTime log.
Proof.
  assert (P : Permutation (newestFirst logs) logs)
    by apply sortBy_Permutation.
  assert (S : StronglySorted (fun l1 l2 => startTime l2 <= startTime l1)
                (newestFirst logs)).
  { pose proof (WeekMore.sortBy_sorted
                  (fun log : TimeLog Z => - getTime (startTime log)) logs) as S.
    revert S. apply WeekMore.sorted_weaken. unfold getTime.
    intros a b _ _ L. lia. }
  split; [exact P |]. split; [exact S |]. split.
  - split.
    + intros N l I. apply (ToggleFacts.activeLog_None _ N).
      apply (Permutation_in _ (Permutation_sym P)), I.
    + intros N. destruct (activeLog (newestFirst logs)) as [log |] eqn:A;
        [| reflexivity].
      apply ToggleFacts.activeLog_Some in A as [I E].
      exfalso. apply (N log); [apply (Permutation_in _ P), I | exact E].
  - intros log A.
    pose proof (ToggleFacts.activeLog_Some _ _ A) as [I E].
    split; [apply (Permutation_in _ P), I |]. split; [exact E |].
    intros other Io Eo. unfold activeLog in A.
    destruct (find_first_sorted _ _ _ _ S A other) as [-> | L].
    + apply (Permutation_in _ (Permutation_sym P)), Io.
    + rewrite Eo. reflexivity.
    + lia.
    + exact L.
Qed.

(** X22.  The range the PDF export proposes: the earliest and the latest
    start of the list, which has them unless it is empty; a range from the
    local midnight of the day of the first to the last millisecond of the
    day of the second leaves out no entry, so the export prints the entries
    of the list, in ascending order of start. *)
Theorem startRange_covers (logs : list (TimeLog Z)) :
  (startRange logs = None <-> logs = [])
  /\ forall earliest latest,
       startRange logs = Some (earliest, latest) ->
       (exists l, In l logs /\ startTime l = earliest)
       /\ (exists l, In l logs /\ startTime l = latest)
       /\ (forall l, In l logs -> earliest <= startTime l <= latest)
       /\ forall startDate endDate,
            localDay startDate = localDay earliest ->
            localTimeOfDay startDate = 0 ->
            localDay endDate = localDay latest ->
            localTimeOfDay endDate = 86399999 ->
            Permutation (pdfFilteredLogs logs startDate endDate) logs
            /\ StronglySorted (fun l1 l2 => startTime l1 <= startTime l2)
                 (pdfFilteredLogs logs startDate endDate).
Proof.
  split.
  - destruct logs; cbn [startRange]; split; congruence.
  - intros earliest latest R.
    destruct logs as [| first rest]; [discriminate |].
    cbn [startRange] in R. injection R as R.
    pose proof (range_fold (first :: rest) (startTime first) (startTime first))
      as F.
    cbv zeta in F. cbn [fold_left] in F. rewrite R in F. cbn [fst snd] in F.
    destruct F as [Lo [Hi [All [Ex1 Ex2]]]].
    assert (E1 : exists l, In l (first :: rest) /\ startTime l = earliest).
    { destruct Ex1 as [E | X]; [| exact X].
      exists first. split; [left; reflexivity | congruence]. }
    assert (E2 : exists l, In l (first :: rest) /\ startTime l = latest).
    { destruct Ex2 as [E | X]; [| exact X].
      exists first. split; [left; reflexivity | congruence]. }
    split; [exact E1 |]. split; [exact E2 |]. split; [exact All |].
    intros startDate endDate Ds Ts De Te.
    unfold pdfFilteredLogs. split.
    + rewrite sortBy_Permutation.
      rewrite (List.filter_ext_in _ (fun _ => true)).
      * clear. induction (first :: rest) as [| x l IH]; cbn [List.filter];
          [reflexivity | rewrite IH; reflexivity].
      * intros l I. specialize (All l I).
        pose proof (instant_of_local startDate) as Is.
        pose proof (instant_of_local endDate) as Ie.
        pose proof (instant_of_local earliest) as I1.
        pose proof (instant_of_local latest) as I2.
        pose proof (TimeWithinDay_bounds (LocalTime earliest)) as B1.
        pose proof (TimeWithinDay_bounds (LocalTime latest)) as B2.
        fold (localTimeOfDay earliest) in B1.
        fold (localTimeOfDay latest) in B2.
        rewrite Ds, Ts in Is. rewrite De, Te in Ie.
        unfold msPerDay in *.
        apply andb_true_iff. split; apply Z.leb_le; lia.
    + apply (WeekMore.sortBy_sorted (fun log => getTime (startTime log))).
Qed.

End Lists.
End ListFacts.

(* ===================================================================== *)
(** * The keys of the calendar cells *)
(* ===================================================================== *)

Module CellFacts.

Lemma parse_needs_digit (c : ascii) (rest : string) :
  isDigit c = false -> parseMonthInputValue (String c rest) = None.
Proof.
  intros D.
  destruct rest as [| c2 [| c3 [| c4 [| c5 [| c6 [| c7 [| c8 rest]]]]]]];
    try reflexivity.
  unfold parseMonthInputValue. rewrite D. reflexivity.
Qed.

Section Cells.
Context {host : Host}.

(** X23.  For a month value that parses, no two cells of the calendar have
    the same key. *)
Theorem buildCalendarCells_keys_unique (monthValue : string) (fallback : Z) :
  parseMonthInputValue monthValue <> None ->
  List.NoDup (map cell_key (buildCalendarCells monthValue fallback)).
Proof.
  intros P. unfold buildCalendarCells. cbv zeta.
  generalize (match parseMonthInputValue monthValue with
              | Some (y, _) => y
              | None => getFullYear fallback
              end)
             (match parseMonthInputValue monthValue with
              | Some (_, m) => m
              | None => getMonth fallback
              end).
  intros year monthIndex.
  generalize ((getDay (newDate year monthIndex 1 0 0 0 0) + 6) mod 7)
             (getDate (newDate year (monthIndex + 1) 0 0 0 0 0)).
  intros offset daysInMonth.
  generalize (Z.to_nat (ceilDiv (offset + daysInMonth) 7 * 7)). intros n.
  rewrite map_map.
  apply Finite.Injective_map_NoDup_in; [| apply List.seq_NoDup].
  intros i j _ _. unfold calendarCell.
  destruct ((Z.of_nat i - offset + 1 <? 1)
            || (daysInMonth <? Z.of_nat i - offset + 1));
    destruct ((Z.of_nat j - offset + 1 <? 1)
              || (daysInMonth <? Z.of_nat j - offset + 1));
    cbn [cell_key]; intros E.
  - apply append_inj_length in E as [_ E]; [| reflexivity].
    apply toString_inj in E. lia.
  - exfalso. apply P. destruct monthValue as [| c rest]; [reflexivity |].
    rewrite CsvFacts.append_cons in E.
    change ("empty-" +:+ toString (Z.of_nat i))
      with (String "e" ("mpty-" +:+ toString (Z.of_nat i))) in E.
    injection E as <- _. apply parse_needs_digit. reflexivity.
  - exfalso. apply P. destruct monthValue as [| c rest]; [reflexivity |].
    rewrite CsvFacts.append_cons in E.
    change ("empty-" +:+ toString (Z.of_nat j))
      with (String "e" ("mpty-" +:+ toString (Z.of_nat j))) in E.
    injection E as -> _. apply parse_needs_digit. reflexivity.
  - apply append_inj_length in E as [_ E]; [| reflexivity].
    apply (append_inj_length "-" "-") in E as [_ E]; [| reflexivity].
    apply toString_inj in E. lia.
Qed.

End Cells.
End CellFacts.

(* ===================================================================== *)
(** * The user profile *)
(* ===================================================================== *)

Module ProfileFacts.

Lemma Math_max_ofZ a b : Math_max (ofZ a) (ofZ b) = ofZ (Z.max a b).
Proof.
  unfold Math_max, ofZ.
  destruct (Qle_bool (inject_Z a) (inject_Z b)) eqn:E.
  - apply Qle_bool_iff in E. rewrite <- Zle_Qle in E.
    rewrite Z.max_r by exact E. reflexivity.
  - assert (N : ~ (a <= b)).
    { intros L. rewrite Zle_Qle in L. apply Qle_bool_iff in L. congruence. }
    rewrite Z.max_l by lia. reflexivity.
Qed.

Lemma readNumber_not_NaN v fallback :
  fallback <> NaN -> readNumber v fallback <> NaN.
Proof.
  intros F. destruct v as [| | ? | n | ? | ? | ? | ? | ? | ?];
    cbn [readNumber]; try exact F.
  destruct n; cbn [Number_isNaN]; first [exact F | discriminate].
Qed.

Lemma rate_sanitized x :
  x <> NaN ->
  Math_max (ofZ 0) x = PosInfinity
  \/ exists q, Math_max (ofZ 0) x = Finite q /\ (0 <= q)%Q.
Proof.
  intros N. destruct x as [| | | q]; [contradiction | | left; reflexivity |].
  - right. exists (inject_Z 0). split; [reflexivity | apply Qle_refl].
  - right. unfold Math_max, ofZ.
    destruct (Qle_bool (inject_Z 0) q) eqn:E.
    + exists q. split; [reflexivity | apply Qle_bool_iff, E].
    + exists (inject_Z 0). split; [reflexivity | apply Qle_refl].
Qed.

Lemma idle_sanitized x :
  x <> NaN ->
  Math_max (ofZ 1) (Math_floor x) = PosInfinity
  \/ exists z, 1 <= z /\ Math_max (ofZ 1) (Math_floor x) = ofZ z.
Proof.
  intros N. destruct x as [| | | q]; [contradiction | | left; reflexivity |].
  - right. exists 1. split; [lia | reflexivity].
  - right. cbn [Math_floor]. rewrite Math_max_ofZ.
    exists (Z.max 1 (Qfloor q)). split; [lia | reflexivity].
Qed.

Lemma normalizeCurrency_code c :
  normalizeCurrency (VString (currencyCode c)) = c.
Proof. destruct c; reflexivity. Qed.

Section Profile.
Context {host : Host}.

(** X24.  Whatever the stored document holds, the profile read from it has
    an hourly rate that is a number not below zero, or infinite, and idle
    minutes that are a whole number not below one, or infinite; a missing
    document reads as the empty profile with rate 0 and the default
    settings. *)
Theorem normalizeUser_sanitized (userUid : string)
  (data : option (list (string * value))) :
  let p := normalizeUser userUid data in
  uid p = userUid
  /\ (hourlyRate p = PosInfinity
      \/ exists q, hourlyRate p = Finite q /\ (0 <= q)%Q)
  /\ (idleMinutes (settings p) = PosInfinity
      \/ exists z, 1 <= z /\ idleMinutes (settings p) = ofZ z)
  /\ (data = None ->
      p = {| uid := userUid; email := ""; displayName := "";
             hourlyRate := ofZ 0; settings := DEFAULT_USER_SETTINGS |}).
Proof.
  cbv zeta. unfold normalizeUser.
  cbn [uid hourlyRate settings normalizeSettings idleMinutes].
  split; [reflexivity |]. split; [| split].
  - apply rate_sanitized, readNumber_not_NaN. discriminate.
  - apply idle_sanitized, readNumber_not_NaN. discriminate.
  - intros ->. reflexivity.
Qed.

(** X25.  What the settings form saves reads back: the rate raised to
    zero, the currency, the dark mode, and the idle minutes rounded down
    and raised to one; for a rate not below zero and whole idle minutes
    not below one, which is what the form lets through, the saved rate and
    settings read back as they are.  A rate or idle minutes that are not a
    number are saved as such and read back as 0 and as the default of 10
    minutes. *)
Theorem saved_settings_read_back (userUid : string) (rate : number)
  (s : UserSettings) (serverNow : Z) :
  let p := normalizeUser userUid
             (Some (saveUserProfileData rate s serverNow)) in
  currency (settings p) = currency s
  /\ darkMode (settings p) = darkMode s
  /\ (rate <> NaN -> hourlyRate p = Math_max (ofZ 0) rate)
  /\ (idleMinutes s <> NaN ->
      idleMinutes (settings p) = Math_max (ofZ 1) (Math_floor (idleMinutes s)))
  /\ (rate = NaN -> hourlyRate p = ofZ 0)
  /\ (idleMinutes s = NaN -> idleMinutes (settings p) = ofZ 10)
  /\ (forall q z,
        rate = Finite q -> (0 <= q)%Q ->
        idleMinutes s = ofZ z -> 1 <= z ->
        hourlyRate p = rate /\ settings p = s).
Proof.
  cbv zeta. unfold normalizeUser, saveUserProfileData.
  cbn [field String.eqb Ascii.eqb Bool.eqb readNumber hourlyRate settings
       normalizeSettings fieldsOf currency darkMode idleMinutes].
  rewrite normalizeCurrency_code.
  split; [reflexivity |]. split; [reflexivity |].
  assert (R : rate <> NaN ->
              Math_max (ofZ 0)
                (if Number_isNaN (Math_max (ofZ 0) rate) then ofZ 0
                 else Math_max (ofZ 0) rate)
              = Math_max (ofZ 0) rate).
  { intros N. destruct rate as [| | | q]; [contradiction | | |]; try reflexivity.
    unfold Math_max, ofZ. destruct (Qle_bool (inject_Z 0) q) eqn:E;
      cbn [Number_isNaN]; [rewrite E; reflexivity | reflexivity]. }
  assert (I : idleMinutes s <> NaN ->
              Math_max (ofZ 1)
                (Math_floor
                   (if Number_isNaN
                         (Math_max (ofZ 1) (Math_floor (idleMinutes s)))
                    then idleMinutes DEFAULT_USER_SETTINGS
                    else Math_max (ofZ 1) (Math_floor (idleMinutes s))))
              = Math_max (ofZ 1) (Math_floor (idleMinutes s))).
  { intros N. destruct (idleMinutes s) as [| | | q];
      [contradiction | | |]; try reflexivity.
    cbn [Math_floor]. rewrite Math_max_ofZ. cbn [ofZ Number_isNaN Math_floor].
    fold (ofZ (Z.max 1 (Qfloor q))). rewrite Qfloor_Z.
    fold (ofZ (Z.max 1 (Qfloor q))). rewrite Math_max_ofZ.
    f_equal. lia. }
  split; [exact R |]. split; [exact I |].
  split; [intros ->; reflexivity |].
  split; [intros ->; reflexivity |].
  intros q z Er Pq Ei Pz.
  split.
  - rewrite R by (rewrite Er; discriminate). rewrite Er.
    unfold Math_max, ofZ. apply Qle_bool_iff in Pq.
    change (inject_Z 0) with 0%Q. rewrite Pq. reflexivity.
  - unfold normalizeSettings.
    cbn [field String.eqb Ascii.eqb Bool.eqb readNumber fieldsOf].
    rewrite normalizeCurrency_code.
    rewrite I by (rewrite Ei; discriminate).
    destruct s as [c d i]. cbn [currency darkMode idleMinutes] in *.
    subst i. f_equal. cbn [Math_floor ofZ].
    fold (ofZ (Qfloor (inject_Z z))). rewrite Qfloor_Z, Math_max_ofZ.
    f_equal. lia.
Qed.

End Profile.
End ProfileFacts.

(* ===================================================================== *)
(** * From the stored document back to the entry *)
(* ===================================================================== *)

Module ReadBackFacts.

Lemma wholeNumber_ofZ z : wholeNumber (ofZ z) = Some z.
Proof.
  unfold wholeNumber, ofZ. rewrite Qfloor_Z.
  rewrite (proj2 (Qeq_bool_iff _ _) (Qeq_refl _)). reflexivity.
Qed.

Lemma counter_ofZ z :
  0 <= z ->
  Math_max (ofZ 0) (Math_floor (readNumber (VNumber (ofZ z)) (ofZ 0)))
  = ofZ z.
Proof.
  intros P. cbn [readNumber ofZ Number_isNaN Math_floor].
  fold (ofZ (Qfloor (inject_Z z))). rewrite Qfloor_Z.
  fold (ofZ 0). rewrite Math_max_zero_ofZ. f_equal. lia.
Qed.

Section ReadBack.
Context {host : Host}.

(** X26.  An entry reads back as it was created: for a timer input and a
    manual input without location, the document that the operation hands
    to the database, read by the subscription under the id of the
    document, is the entry that the operation adds to the collection, with
    whole counters. *)
Theorem created_entries_read_back (database : Store) (serverNow : Z)
  (autoId : string) (timerInput : StartTimerInput)
  (manualInput : ManualLogInput) (clock : Z) :
  st_location timerInput = None ->
  in_location manualInput = None ->
  (exists e : TimeLog Z,
     startTimerLog (Some database) serverNow autoId timerInput
     = Resolved (<[autoId := e]> database)
     /\ engineEntry
          (normalizeTimeLog autoId (startTimerLogData serverNow timerInput)
             clock)
        = Some e)
  /\ (exists e : TimeLog Z,
        addManualLog (Some database) serverNow autoId manualInput
        = Resolved (<[autoId := e]> database)
        /\ engineEntry
             (normalizeTimeLog autoId (addManualLogData serverNow manualInput)
                clock)
           = Some e).
Proof.
  intros Lt Lm. split.
  - eexists. split; [reflexivity |].
    unfold engineEntry, normalizeTimeLog, startTimerLogData.
    cbn [field String.eqb Ascii.eqb Bool.eqb totalMinutes breakMinutes breaks
         normalizeBreaks flat_map engineBreaks].
    rewrite !(counter_ofZ 0) by lia. rewrite !wholeNumber_ofZ.
    rewrite Lt. destruct (st_projectId timerInput); reflexivity.
  - eexists. split; [reflexivity |].
    unfold engineEntry, normalizeTimeLog, addManualLogData.
    cbn [field String.eqb Ascii.eqb Bool.eqb totalMinutes breakMinutes breaks
         normalizeBreaks flat_map engineBreaks].
    rewrite (counter_ofZ 0) by lia. rewrite counter_ofZ by lia.
    rewrite !wholeNumber_ofZ.
    rewrite Lm. destruct (in_projectId manualInput); reflexivity.
Qed.

End ReadBack.
End ReadBackFacts.

(* ===================================================================== *)
(** * The bounds of a work week *)
(* ===================================================================== *)

Module WeekBounds.

Section Bounds.
Context {host : Host}.

Lemma localDay_mono t1 t2 : t1 <= t2 -> localDay t1 <= localDay t2.
Proof.
  intros L.
  pose proof (instant_of_local t1) as I1.
  pose proof (instant_of_local t2) as I2.
  pose proof (TimeWithinDay_bounds (LocalTime t1)) as B1.
  pose proof (TimeWithinDay_bounds (LocalTime t2)) as B2.
  fold (localTimeOfDay t1) in B1. fold (localTimeOfDay t2) in B2.
  unfold msPerDay in *. lia.
Qed.

Lemma week_start_of_day t monday :
  localTimeOfDay monday = 0 ->
  localDay monday = localDay t - (localDay t + 3) mod 7 ->
  getWorkWeekStartMonday t = monday.
Proof.
  intros T D. apply local_midnight_eq.
  - apply toDayKey_eq_iff. rewrite getWorkWeekStartMonday_localDay.
    symmetry. exact D.
  - apply getWorkWeekStartMonday_timeOfDay.
  - exact T.
Qed.

(** X28.  The work week of an instant and its bounds fit together: the
    start of the week of an instant is not after the instant, and is its
    own week start; the end of that week is in the same week; every instant
    from the start to the end of the week has that week start; and a later
    instant never has an earlier week start. *)
Theorem work_week_bounds (date : Z) :
  let monday := getWorkWeekStartMonday date in
  let saturday := getWorkWeekEndSaturday monday in
  monday <= date
  /\ getWorkWeekStartMonday monday = monday
  /\ getWorkWeekStartMonday saturday = monday
  /\ monday < saturday
  /\ (forall t, monday <= t <= saturday -> getWorkWeekStartMonday t = monday)
  /\ (forall t1 t2, t1 <= t2 ->
      getWorkWeekStartMonday t1 <= getWorkWeekStartMonday t2).
Proof.
  cbv zeta.
  set (monday := getWorkWeekStartMonday date).
  set (saturday := getWorkWeekEndSaturday monday).
  pose proof (getWorkWeekStartMonday_localDay date) as Dm.
  pose proof (getWorkWeekStartMonday_timeOfDay date) as Tm.
  fold monday in Dm, Tm.
  pose proof (getWorkWeekEndSaturday_localDay monday) as Ds.
  pose proof (getWorkWeekEndSaturday_timeOfDay monday) as Ts.
  fold saturday in Ds, Ts.
  pose proof (instant_of_local monday) as Im.
  pose proof (instant_of_local saturday) as Is.
  pose proof (instant_of_local date) as Id.
  pose proof (TimeWithinDay_bounds (LocalTime date)) as Bd.
  fold (localTimeOfDay date) in Bd.
  rewrite Tm in Im. rewrite Ds, Ts in Is.
  assert (Mon : (localDay monday + 3) mod 7 = 0)
    by (rewrite Dm; Z.div_mod_to_equations; lia).
  assert (Span : forall t, monday <= t <= saturday ->
            getWorkWeekStartMonday t = monday).
  { intros t [Lo Hi]. apply week_start_of_day; [exact Tm |].
    pose proof (localDay_mono _ _ Lo) as L1.
    pose proof (localDay_mono _ _ Hi) as L2.
    rewrite Ds in L2. Z.div_mod_to_equations. lia. }
  split; [| split; [| split; [| split; [| split]]]].
  - unfold msPerDay in *. Z.div_mod_to_equations. lia.
  - apply Span. unfold msPerDay in *. lia.
  - apply Span. unfold msPerDay in *. lia.
  - unfold msPerDay in *. lia.
  - exact Span.
  - intros t1 t2 L.
    pose proof (localDay_mono _ _ L) as Ld.
    pose proof (getWorkWeekStartMonday_localDay t1) as D1.
    pose proof (getWorkWeekStartMonday_localDay t2) as D2.
    pose proof (getWorkWeekStartMonday_timeOfDay t1) as T1.
    pose proof (getWorkWeekStartMonday_timeOfDay t2) as T2.
    pose proof (instant_of_local (getWorkWeekStartMonday t1)) as I1.
    pose proof (instant_of_local (getWorkWeekStartMonday t2)) as I2.
    rewrite T1 in I1. rewrite T2 in I2.
    assert (localDay (getWorkWeekStartMonday t1)
            <= localDay (getWorkWeekStartMonday t2))
      by (rewrite D1, D2; Z.div_mod_to_equations; lia).
    unfold msPerDay in *. lia.
Qed.

End Bounds.
End WeekBounds.

(* ===================================================================== *)
(** * Signing in *)
(* ===================================================================== *)

Module SignInFacts.

Lemma field_Map_set (doc : list (string * value)) k v k' :
  field (Map_set doc k v) k' = if String.eqb k k' then v else field doc k'.
Proof.
  induction doc as [| [k0 v0] doc IH]; cbn [field Map_set].
  - reflexivity.
  - destruct (String.eqb_spec k0 k) as [-> | N]; cbn [field].
    + destruct (String.eqb k k'); reflexivity.
    + rewrite IH. destruct (String.eqb_spec k0 k') as [-> | N'];
        [| reflexivity].
      destruct (String.eqb_spec k k'); [congruence | reflexivity].
Qed.

(** X29.  Signing in keeps what the user has set: it creates the profile
    of a new user with rate 0 and the default settings, and for a user who
    has a profile it renews the e-mail address and the name, an absent one
    becoming empty, and leaves the rate, the settings and the profiles of
    the other users as they read before. *)
Theorem ensureUserProfile_keeps_settings (database : Users) (serverNow : Z)
  (userUid : string) (userEmail userName : option string) :
  exists (after : Users) (doc : list (string * value)),
    ensureUserProfile (Some database) serverNow userUid userEmail userName
    = Resolved after
    /\ after !! userUid = Some doc
    /\ (forall other, other <> userUid -> after !! other = database !! other)
    /\ email (normalizeUser userUid (Some doc))
       = match userEmail with Some s => s | None => "" end
    /\ displayName (normalizeUser userUid (Some doc))
       = match userName with Some s => s | None => "" end
    /\ hourlyRate (normalizeUser userUid (Some doc))
       = hourlyRate (normalizeUser userUid (database !! userUid))
    /\ settings (normalizeUser userUid (Some doc))
       = settings (normalizeUser userUid (database !! userUid))
    /\ (database !! userUid = None ->
        hourlyRate (normalizeUser userUid (Some doc)) = ofZ 0
        /\ settings (normalizeUser userUid (Some doc))
           = DEFAULT_USER_SETTINGS).
Proof.
  unfold ensureUserProfile.
  destruct (database !! userUid) as [existing |] eqn:D.
  - eexists. eexists. split; [reflexivity |].
    split; [apply lookup_insert_eq |].
    split; [intros other N; apply lookup_insert_ne; congruence |].
    unfold normalizeUser, mergeFields.
    cbn [fold_left fst snd email displayName hourlyRate settings].
    rewrite !field_Map_set.
    cbn [String.eqb Ascii.eqb Bool.eqb readString].
    repeat split; try reflexivity; discriminate.
  - eexists. eexists. split; [reflexivity |].
    split; [apply lookup_insert_eq |].
    split; [intros other N; apply lookup_insert_ne; congruence |].
    repeat split; reflexivity.
Qed.

End SignInFacts.

(* ===================================================================== *)
(** * A break without a recorded start *)
(* ===================================================================== *)

Module StuckBreakFacts.

Section StuckBreak.
Context {host : Host}.

(** X30.  A running entry that is on break without a recorded break start
    cannot be resumed by the break button: every press leaves the
    collection as it is and shows the message of end-break.  Its worked
    time goes on counting as for an entry at work, and clock-out completes
    it without adding a break. *)
Theorem break_without_start (log : TimeLog Z) :
  endTime log = None ->
  status log = on_break ->
  breakStartedAt log = None ->
  (forall ui serverNow clock,
     handleBreakToggle ui (Some log) serverNow clock
     = {| ui_error := Some "Break start time is missing.";
          ui_db := ui_db ui |})
  /\ (forall now,
        calculateWorkedMilliseconds log now
        = Z.max 0 (Z.max 0 (now - startTime log)
                   - Z.max 0 (breakMinutes log) * 60000))
  /\ (forall (database : Store) serverNow atInstant,
        database !! id log = Some log ->
        exists done : TimeLog Z,
          clockOut (Some database) serverNow log atInstant
          = Resolved (<[id log := done]> database)
          /\ status done = completed
          /\ endTime done = Some atInstant
          /\ breaks done = breaks log
          /\ breakMinutes done = Z.max 0 (breakMinutes log)).
Proof.
  intros E S B. split; [| split].
  - intros ui serverNow clock. unfold handleBreakToggle.
    destruct (decide (status log = on_break)) as [_ | N]; [| contradiction].
    unfold endBreak. rewrite B. reflexivity.
  - intros now. unfold calculateWorkedMilliseconds, getTime.
    rewrite E, S, B. lia.
  - intros database serverNow atInstant D.
    unfold clockOut. cbn [requireDb bind]. rewrite S, B.
    unfold updateDoc. rewrite D. eexists. split; [reflexivity |].
    repeat split; reflexivity.
Qed.

End StuckBreak.
End StuckBreakFacts.

(* ===================================================================== *)
(** * More examples *)
(* ===================================================================== *)

Module MoreExamples.

#[local] Existing Instance utcHost.

Lemma worked_time_frozen_on_break_witness :
  calculateWorkedMilliseconds onBreak (at_ monday0 13 0)
  = calculateWorkedMilliseconds onBreak (at_ monday0 12 0)
  /\ calculateWorkedMilliseconds onBreak (at_ monday0 13 0) = 10800000.
Proof.
  assert (L : startTime onBreak <= at_ monday0 12 0 <= at_ monday0 13 0)
    by (vm_compute; split; discriminate).
  rewrite (DurationMore.worked_time_frozen_on_break onBreak
             (at_ monday0 12 0) (at_ monday0 13 0) eq_refl eq_refl eq_refl L).
  split; vm_compute; reflexivity.
Defined.

Lemma worked_time_advances_witness :
  calculateWorkedMilliseconds running (at_ monday0 11 0)
  = calculateWorkedMilliseconds running (at_ monday0 10 0)
    + (at_ monday0 11 0 - at_ monday0 10 0).
Proof.
  assert (L : at_ monday0 10 0 <= at_ monday0 11 0)
    by (vm_compute; discriminate).
  apply (DurationMore.worked_time_advances running (at_ monday0 10 0)
           (at_ monday0 11 0) eq_refl eq_refl L).
  vm_compute. reflexivity.
Defined.

Lemma worked_time_of_ended_entry_witness :
  getLogMinutes finished (at_ monday0 18 0)
  = getLogMinutes finished (at_ sunday0 10 0).
Proof.
  apply (DurationMore.worked_time_of_ended_entry finished (at_ monday0 17 0)
           (at_ monday0 18 0) (at_ sunday0 10 0) eq_refl eq_refl).
Defined.

Lemma stored_total_is_worked_minutes_witness :
  ({[ "log-1" := running ]} : Store) !! id running = Some running
  /\ exists done : TimeLog Z,
       clockOut (Some {[ "log-1" := running ]}) (at_ monday0 17 0) running
         (at_ monday0 17 0)
       = Resolved (<[ "log-1" := done ]> {[ "log-1" := running ]})
       /\ getLogMinutes done (at_ monday0 18 0) = totalMinutes done.
Proof.
  assert (H : ({[ "log-1" := running ]} : Store) !! id running = Some running)
    by reflexivity.
  split; [exact H |].
  destruct (proj1 (LifecycleMore.stored_total_is_worked_minutes
                     {[ "log-1" := running ]} (at_ monday0 17 0) running
                     (at_ monday0 17 0) H))
    as [done [E T]].
  exists done. split; [exact E | apply T].
Defined.

Lemma endBreak_credits_partial_minute_witness :
  ({[ "log-1" := onBreak ]} : Store) !! id onBreak = Some onBreak
  /\ at_ monday0 12 0 <= at_ monday0 12 30
  /\ exists resumed : TimeLog Z,
       endBreak (Some {[ "log-1" := onBreak ]}) (at_ monday0 12 30) onBreak
         (at_ monday0 12 30)
       = Resolved (<[ "log-1" := resumed ]> {[ "log-1" := onBreak ]})
       /\ calculateWorkedMilliseconds onBreak (at_ monday0 12 30)
          <= calculateWorkedMilliseconds resumed (at_ monday0 12 30).
Proof.
  assert (H : ({[ "log-1" := onBreak ]} : Store) !! id onBreak = Some onBreak)
    by reflexivity.
  assert (N : 0 <= breakMinutes onBreak) by (vm_compute; discriminate).
  assert (L : at_ monday0 12 0 <= at_ monday0 12 30)
    by (vm_compute; discriminate).
  split; [exact H |]. split; [exact L |].
  destruct (LifecycleMore.endBreak_credits_partial_minute
              {[ "log-1" := onBreak ]} (at_ monday0 12 30) onBreak
              (at_ monday0 12 0) (at_ monday0 12 30)
              H eq_refl eq_refl eq_refl N L)
    as [resumed [E [Lo _]]].
  exists resumed. split; [exact E | exact Lo].
Defined.

Lemma timer_session_witness :
  st_startTime clockIn <= at_ monday0 12 0
  /\ at_ monday0 12 0 <= at_ monday0 12 30
  /\ at_ monday0 12 30 <= at_ monday0 17 0
  /\ exists (db4 : Store) (done : TimeLog Z),
       db4 !! "log-1" = Some done
       /\ status done = completed
       /\ breakMinutes done = 30
       /\ totalMinutes done = 450.
Proof.
  assert (L1 : st_startTime clockIn <= at_ monday0 12 0)
    by (vm_compute; discriminate).
  assert (L2 : at_ monday0 12 0 <= at_ monday0 12 30)
    by (vm_compute; discriminate).
  assert (L3 : at_ monday0 12 30 <= at_ monday0 17 0)
    by (vm_compute; discriminate).
  split; [exact L1 |]. split; [exact L2 |]. split; [exact L3 |].
  destruct (LifecycleMore.timer_session ∅ (at_ monday0 9 0) (at_ monday0 12 0)
              (at_ monday0 12 30) (at_ monday0 17 0) "log-1" clockIn
              (at_ monday0 12 0) (at_ monday0 12 30) (at_ monday0 17 0)
              L1 L2 L3)
    as (db1 & db2 & db3 & db4 & started & paused & resumed & done
        & _ & _ & _ & _ & _ & _ & _ & D & S & _ & _ & _ & _ & B & T & _).
  exists db4, done. split; [exact D |]. split; [exact S |].
  split; [rewrite B | rewrite T]; vm_compute; reflexivity.
Defined.

Lemma deleteTimeLog_undoes_clock_in_witness :
  (∅ : Store) !! "log-1" = None
  /\ exists db1 : Store,
       startTimerLog (Some ∅) (at_ monday0 9 0) "log-1" clockIn = Resolved db1
       /\ deleteTimeLog (Some db1) "log-1" = Resolved ∅.
Proof.
  assert (F : (∅ : Store) !! "log-1" = None) by reflexivity.
  split; [exact F |].
  exact (proj1 (LifecycleMore.deleteTimeLog_undoes_clock_in ∅
                  (at_ monday0 9 0) "log-1" clockIn F)).
Defined.

Lemma clock_toggle_running_entries_witness :
  listsRunning {[ "log-1" := running ]} [running]
  /\ exists after : Store,
       handleClockToggle
         {| ui_error := None; ui_db := Some {[ "log-1" := running ]} |}
         (Some "u1") (activeLog [running]) [] "" "work" ""
         (at_ monday0 17 0) "log-2" (at_ monday0 17 0)
       = {| ui_error := None; ui_db := Some after |}
       /\ size (runningEntries after) = O.
Proof.
  assert (R : listsRunning {[ "log-1" := running ]} [running]).
  { split.
    - intros e [<- | []]. reflexivity.
    - intros k e H _. apply lookup_singleton_Some in H as [_ <-].
      left. reflexivity. }
  split; [exact R |].
  destruct (ToggleFacts.clock_toggle_running_entries
              {[ "log-1" := running ]} [running] "u1" [] "" "work" ""
              (at_ monday0 17 0) "log-2" (at_ monday0 17 0) None R)
    as [after [E [C _]]].
  exists after. split; [exact E |].
  rewrite C. vm_compute. reflexivity.
Defined.

Lemma groupLogsByWorkWeek_span_witness :
  getDay (startTime sundayShift) = 0
  /\ exists group,
       In group (groupLogsByWorkWeek [sundayShift] (at_ sunday0 13 0))
       /\ In sundayShift (week_logs group)
       /\ week_startDate group <= startTime sundayShift
       /\ week_endDate group < startTime sundayShift
       /\ localDay (startTime sundayShift)
          = localDay (week_endDate group) + 1.
Proof.
  assert (S : getDay (startTime sundayShift) = 0) by (vm_compute; reflexivity).
  split; [exact S |].
  assert (G : exists group,
            groupLogsByWorkWeek [sundayShift] (at_ sunday0 13 0) = [group]
            /\ week_logs group = [sundayShift]).
  { eexists. split; vm_compute; reflexivity. }
  destruct G as [group [Eg El]].
  assert (Ig : In group (groupLogsByWorkWeek [sundayShift] (at_ sunday0 13 0)))
    by (rewrite Eg; left; reflexivity).
  assert (Il : In sundayShift (week_logs group))
    by (rewrite El; left; reflexivity).
  destruct (WeekMore.groupLogsByWorkWeek_span [sundayShift] (at_ sunday0 13 0)
              group sundayShift Ig Il) as [Lo [_ [_ Su]]].
  exists group. split; [exact Ig |]. split; [exact Il |].
  split; [exact Lo | exact (Su S)].
Defined.

Lemma csvEscape_reads_back_witness :
  noQuoteAhead ",8"
  /\ readQuoted (csvEscape (String quote "Acme, Inc.") +:+ ",8")
     = Some (String quote "Acme, Inc.", ",8").
Proof.
  assert (N : noQuoteAhead ",8") by (cbn; discriminate).
  split; [exact N |].
  exact (proj1 (CsvFacts.csvEscape_reads_back (String quote "Acme, Inc.")
                  ",8" N)).
Defined.

Lemma toMonthInputValue_reads_back_witness :
  1000 <= getFullYear (at_ monday0 9 0) <= 9999
  /\ parseMonthInputValue (toMonthInputValue (at_ monday0 9 0))
     = Some (2024, 2).
Proof.
  assert (Y : 1000 <= getFullYear (at_ monday0 9 0) <= 9999)
    by (vm_compute; split; discriminate).
  split; [exact Y |].
  rewrite (proj1 (MonthFacts.toMonthInputValue_reads_back (at_ monday0 9 0) Y)).
  vm_compute. reflexivity.
Defined.

Lemma buildCalendarCells_keys_unique_witness :
  parseMonthInputValue "2024-03" <> None
  /\ List.NoDup (map cell_key (buildCalendarCells "2024-03" (at_ monday0 9 0))).
Proof.
  assert (P : parseMonthInputValue "2024-03" <> None)
    by (vm_compute; discriminate).
  split; [exact P |].
  exact (CellFacts.buildCalendarCells_keys_unique "2024-03" (at_ monday0 9 0)
           P).
Defined.

Lemma created_entries_read_back_witness :
  st_location clockIn = None /\ in_location dayShift = None
  /\ exists e : TimeLog Z,
       addManualLog (Some ∅) (at_ monday0 18 0) "log-2" dayShift
       = Resolved (<[ "log-2" := e ]> ∅)
       /\ engineEntry
            (normalizeTimeLog "log-2"
               (addManualLogData (at_ monday0 18 0) dayShift)
               (at_ monday0 19 0))
          = Some e.
Proof.
  split; [reflexivity |]. split; [reflexivity |].
  exact (proj2 (ReadBackFacts.created_entries_read_back ∅ (at_ monday0 18 0)
                  "log-2" clockIn dayShift (at_ monday0 19 0)
                  eq_refl eq_refl)).
Defined.

Lemma break_without_start_witness :
  endTime faulty = None /\ status faulty = on_break
  /\ breakStartedAt faulty = None
  /\ handleBreakToggle {| ui_error := None; ui_db := Some ∅ |} (Some faulty)
       (at_ monday0 10 0) (at_ monday0 10 0)
     = {| ui_error := Some "Break start time is missing.";
          ui_db := Some ∅ |}.
Proof.
  split; [reflexivity |]. split; [reflexivity |]. split; [reflexivity |].
  exact (proj1 (StuckBreakFacts.break_without_start faulty
                  eq_refl eq_refl eq_refl)
           {| ui_error := None; ui_db := Some ∅ |}
           (at_ monday0 10 0) (at_ monday0 10 0)).
Defined.

End MoreExamples.
